(** * capsat_watcher: beacon parser and uploader

    A shallow embedding of [capsat_watcher/capsat_watcher.py] and the
    properties of its decode / upload pipeline.

    Conventions of the embedding.
    - Bytes are [Byte.byte]; a file is a [list byte].
    - A Python exception is a value of [exn]; a computation that may raise
      has a [result] type, and the stateful functions live in the monad [M]
      (state passing over [World] plus exceptions).
    - The interpreter-level facts the program relies on (iteration order of
      a [set], [struct.unpack], [datetime.strptime], [str.startswith],
      [pathlib] and [requests]) are embedded as documented next to each
      definition. *)

From Stdlib Require Import ZArith NArith String Ascii List Lia Bool.
From Stdlib Require Import Strings.Byte.
From stdpp Require Import base gmap sets list strings.

Open Scope string_scope.
Open Scope list_scope.
Open Scope Z_scope.

(** ** Exceptions and results *)

Inductive exn : Set :=
| ValueError          (* datetime.strptime, datetime constructors *)
| StructError         (* struct.error *)
| FileNotFoundError   (* open / rename of a missing file *)
| ConnectionError     (* requests: transport-level failure *)
| HTTPError           (* Response.raise_for_status *)
| MalformedBody       (* json.loads or a subscript of check_database failing *)
| Exception.          (* the bare [raise Exception] of check_database *)

Inductive result (A : Type) : Type :=
| Returned (a : A)
| Raised (e : exn).
Arguments Returned {A} a.
Arguments Raised {A} e.

(** ** The [struct] module, for the four format strings of the program *)

Module Struct.

(** The format strings that occur in BEACON_FORMAT. *)
Inductive fmt : Set :=
| LE_H   (* '<H' : unsigned short, little endian *)
| LE_B   (* '<B' : unsigned char *)
| LE_I   (* '<I' : unsigned int *)
| LE_f.  (* '<f' : IEEE-754 binary32 *)

(** A decoded scalar.  An integer is a [Z].  A float produced by '<f' is
    kept as the 32-bit pattern of the binary32 number it denotes: unpack
    only widens it, and performs no arithmetic on it. *)
Inductive pyval : Set :=
| PyInt (n : Z)
| PyFloat32 (bits : Z).

Definition calcsize (t : fmt) : nat :=
  match t with
  | LE_H => 2
  | LE_B => 1
  | LE_I => 4
  | LE_f => 4
  end%nat.

Definition byte_val (b : byte) : Z := Z.of_N (Byte.to_N b).

(** Little-endian value of a byte string: the first byte is the least
    significant one. *)
Fixpoint le_uint (bs : list byte) : Z :=
  match bs with
  | [] => 0
  | b :: bs' => byte_val b + 256 * le_uint bs'
  end.

Definition scalar (t : fmt) (n : Z) : pyval :=
  match t with
  | LE_f => PyFloat32 n
  | _ => PyInt n
  end.

(** [struct.unpack(t, buf)]: the buffer must have exactly [calcsize t]
    bytes, otherwise struct.error is raised; the result is a tuple, here
    always of one element. *)
Definition unpack (t : fmt) (buf : list byte) : result (list pyval) :=
  if (length buf =? calcsize t)%nat
  then Returned [scalar t (le_uint buf)]
  else Raised StructError.

(** The inverse direction, used to build synthetic beacons:
    [w] little-endian bytes of [n]. *)
Definition byte_of_Z (n : Z) : byte :=
  match Byte.of_N (Z.to_N (n mod 256)) with
  | Some b => b
  | None => x00
  end.

Fixpoint le_bytes (w : nat) (n : Z) : list byte :=
  match w with
  | O => []
  | S w' => byte_of_Z n :: le_bytes w' (n / 256)
  end.

Definition payload (v : pyval) : Z :=
  match v with
  | PyInt n => n
  | PyFloat32 n => n
  end.

(** [struct.pack(t, v)] for a value in the range of [t]. *)
Definition pack (t : fmt) (v : pyval) : list byte :=
  le_bytes (calcsize t) (payload v).

(** The values [pack] accepts for a format: a scalar of the format's kind
    that fits in its width. *)
Definition fits (t : fmt) (v : pyval) : Prop :=
  v = scalar t (payload v) /\ 0 <= payload v < 256 ^ Z.of_nat (calcsize t).

End Struct.
Export Struct.

(** ** BEACON_FORMAT *)

(** One entry of the table: (RecordSource name, data type, data size). *)
Definition Field : Type := string * fmt * nat.

Definition field_name (f : Field) : string := f.1.1.
Definition field_fmt (f : Field) : fmt := f.1.2.
Definition field_size (f : Field) : nat := f.2.

(** The entries of the literal, in the order in which they are written in
    the source. *)
Definition BEACON_FORMAT_literal : list Field :=
  [ ("sync", LE_H, 2%nat);
    ("host_id", LE_B, 1%nat);
    ("system_time", LE_I, 4%nat);
    ("custom_data0", LE_B, 1%nat);
    ("custom_data1", LE_B, 1%nat);
    ("custom_data2", LE_B, 1%nat);
    ("custom_data3", LE_B, 1%nat);
    ("quaternions0", LE_f, 4%nat);
    ("quaternions1", LE_f, 4%nat);
    ("quaternions2", LE_f, 4%nat);
    ("quaternions3", LE_f, 4%nat);
    ("rates0", LE_f, 4%nat);
    ("rates1", LE_f, 4%nat);
    ("rates2", LE_f, 4%nat);
    ("illumination_state", LE_H, 2%nat);
    ("algorithm", LE_B, 1%nat);
    ("battery_voltage0", LE_f, 4%nat);
    ("battery_voltage1", LE_f, 4%nat);
    ("battery_voltage2", LE_f, 4%nat);
    ("battery_voltage3", LE_f, 4%nat);
    ("battery_temperature0", LE_f, 4%nat);
    ("battery_temperature1", LE_f, 4%nat);
    ("battery_temperature2", LE_f, 4%nat);
    ("battery_temperature3", LE_f, 4%nat) ].

#[global] Instance fmt_eq_dec : EqDecision fmt.
Proof. solve_decision. Defined.

#[global] Instance pyval_eq_dec : EqDecision pyval.
Proof. solve_decision. Defined.

#[global] Instance exn_eq_dec : EqDecision exn.
Proof. solve_decision. Defined.

#[global] Instance fmt_countable : Countable fmt.
Proof.
  refine (inj_countable'
    (fun t => match t with LE_H => 0%nat | LE_B => 1%nat | LE_I => 2%nat | LE_f => 3%nat end)
    (fun n => match n with 0%nat => LE_H | 1%nat => LE_B | 2%nat => LE_I | _ => LE_f end) _).
  by intros [].
Defined.

(** The source writes the table between braces: BEACON_FORMAT is a Python
    [set] of tuples, not a list. *)
Definition BEACON_FORMAT : gset Field := list_to_set BEACON_FORMAT_literal.

(** Iterating over a set visits every element once, in the order of the
    hash table's slots.  That order is fixed for one set object in one
    interpreter process (both loops over BEACON_FORMAT see the same one),
    but it is derived from the hashes of the tuples, hence of their strings,
    which CPython salts per process: it is not the order of the literal.
    [set_iteration l] says that [l] is a possible iteration order. *)
Definition set_iteration (l : list Field) : Prop := l ≡ₚ elements BEACON_FORMAT.

#[global] Instance set_iteration_dec l : Decision (set_iteration l).
Proof. unfold set_iteration. apply _. Defined.

(** ** [datetime]: the part used for a beacon's time stamp *)

Module Datetime.

Inductive tzinfo : Set := UTC.

Record datetime : Set := mk_datetime {
  year : Z; month : Z; day : Z;
  hour : Z; minute : Z; second : Z;
  tz : option tzinfo
}.

Definition is_leap (y : Z) : bool :=
  (y mod 4 =? 0) && (negb (y mod 100 =? 0) || (y mod 400 =? 0)).

Definition days_in_month (y m : Z) : Z :=
  if m =? 2 then (if is_leap y then 29 else 28)
  else if (m =? 4) || (m =? 6) || (m =? 9) || (m =? 11) then 30
  else 31.

(** The range checks of the [date] and [datetime] constructors; each of
    them raises ValueError. *)
Definition valid_date (y m d : Z) : bool :=
  (1 <=? y) && (y <=? 9999) && (1 <=? m) && (m <=? 12)
  && (1 <=? d) && (d <=? days_in_month y m).

Definition valid_time (h mi s : Z) : bool :=
  (0 <=? h) && (h <=? 23) && (0 <=? mi) && (mi <=? 59)
  && (0 <=? s) && (s <=? 59).

(** *** The regular expression that [_strptime] builds for the format

    [_strptime.TimeRE.pattern] replaces each directive of the format by a
    group and compiles the result with IGNORECASE:
<<
      %Y  \d\d\d\d
      %m  1[0-2]|0[1-9]|[1-9]
      %d  3[0-1]|[1-2]\d|0[1-9]|[1-9]| [1-9]
      %H  2[0-3]|[0-1]\d|\d
      %M  [0-5]\d|\d
      %S  6[0-1]|[0-5]\d|\d
>>
    A matcher returns its matches on a prefix of the input in the order in
    which the backtracking engine tries them, each with the text it leaves
    unconsumed.  File names are taken as strings of ASCII characters: on
    these, \d is [0-9] and IGNORECASE is the case of the 26 letters.  (On
    other names \d also matches the further decimal digits of Unicode,
    which are not modelled; what is stated about the names that strptime
    rejects is stated for ASCII names.) *)

Definition matcher (A : Type) : Type := string -> list (A * string).

Definition ret {A} (a : A) : matcher A := fun s => [(a, s)].

Definition then_ {A B} (m : matcher A) (f : A -> matcher B) : matcher B :=
  fun s => flat_map (fun r => f (fst r) (snd r)) (m s).

Definition alt {A} (m1 m2 : matcher A) : matcher A :=
  fun s => (m1 s ++ m2 s)%list.

Definition chr (p : ascii -> bool) : matcher ascii :=
  fun s => match s with
           | String c s' => if p c then [(c, s')] else []
           | EmptyString => []
           end.

Definition code (c : ascii) : Z := Z.of_nat (nat_of_ascii c).

Definition between (lo hi : ascii) (c : ascii) : bool :=
  (code lo <=? code c) && (code c <=? code hi).

Definition digit_val (c : ascii) : Z := code c - 48.

(** [[lo-hi]], giving the digit's value. *)
Definition rng (lo hi : ascii) : matcher Z :=
  then_ (chr (between lo hi)) (fun c => ret (digit_val c)).

(** [\d], on ASCII characters. *)
Definition dig : matcher Z := rng "0" "9".

Definition lower (c : ascii) : ascii :=
  if between "A" "Z" c then ascii_of_nat (nat_of_ascii c + 32) else c.

(** One literal character of the format, compared without case. *)
Definition lit1 (c : ascii) : matcher unit :=
  then_ (chr (fun c' => Ascii.eqb (lower c') (lower c))) (fun _ => ret tt).

Fixpoint lit (l : string) : matcher unit :=
  match l with
  | EmptyString => ret tt
  | String c l' => then_ (lit1 c) (fun _ => lit l')
  end.

(** Two characters read as a two-digit number. *)
Definition two (hi lo : matcher Z) : matcher Z :=
  then_ hi (fun a => then_ lo (fun b => ret (10 * a + b))).

Definition dir_Y : matcher Z :=
  then_ dig (fun a => then_ dig (fun b => then_ dig (fun c => then_ dig (fun d =>
    ret (1000 * a + 100 * b + 10 * c + d))))).

Definition dir_m : matcher Z :=
  alt (two (rng "1" "1") (rng "0" "2"))
 (alt (two (rng "0" "0") (rng "1" "9"))
      (rng "1" "9")).

Definition dir_d : matcher Z :=
  alt (two (rng "3" "3") (rng "0" "1"))
 (alt (two (rng "1" "2") dig)
 (alt (two (rng "0" "0") (rng "1" "9"))
 (alt (rng "1" "9")
      (then_ (lit1 " ") (fun _ => rng "1" "9"))))).

Definition dir_H : matcher Z :=
  alt (two (rng "2" "2") (rng "0" "3"))
 (alt (two (rng "0" "1") dig)
      dig).

Definition dir_M : matcher Z :=
  alt (two (rng "0" "5") dig) dig.

Definition dir_S : matcher Z :=
  alt (two (rng "6" "6") (rng "0" "1"))
 (alt (two (rng "0" "5") dig)
      dig).

(** The regular expression of "beacon_%Y-%m-%d_%H:%M:%S". *)
Definition beacon_re : matcher (Z * Z * Z * Z * Z * Z) :=
  then_ (lit "beacon_") (fun _ =>
  then_ dir_Y (fun y =>
  then_ (lit "-") (fun _ =>
  then_ dir_m (fun m =>
  then_ (lit "-") (fun _ =>
  then_ dir_d (fun d =>
  then_ (lit "_") (fun _ =>
  then_ dir_H (fun h =>
  then_ (lit ":") (fun _ =>
  then_ dir_M (fun mi =>
  then_ (lit ":") (fun _ =>
  then_ dir_S (fun s =>
  ret (y, m, d, h, mi, s))))))))))))).

(** [datetime.datetime.strptime(name, "beacon_%Y-%m-%d_%H:%M:%S")]:
    [re.match] keeps the first match; text left after it, a date that does
    not exist and an out-of-range time are ValueErrors. *)
Definition strptime (name : string) : result datetime :=
  match beacon_re name with
  | [] => Raised ValueError                    (* does not match format *)
  | ((y, m, d, h, mi, s), rest) :: _ =>
      if negb (String.eqb rest "") then Raised ValueError  (* unconverted data remains *)
      else if negb (valid_date y m d) then Raised ValueError
      else if negb (valid_time h mi s) then Raised ValueError
      else Returned (mk_datetime y m d h mi s None)
  end.

(** [date.replace(tzinfo=datetime.timezone.utc)] *)
Definition replace_tzinfo (t : tzinfo) (d : datetime) : datetime :=
  mk_datetime (year d) (month d) (day d) (hour d) (minute d) (second d) (Some t).

Definition digit_char (n : Z) : ascii := ascii_of_nat (Z.to_nat (48 + n mod 10)).

Definition pad2 (n : Z) : string :=
  String (digit_char (n / 10)) (String (digit_char n) "").

Definition pad4 (n : Z) : string :=
  String (digit_char (n / 1000)) (String (digit_char (n / 100)) (pad2 n)).

(** [date.isoformat()] of a datetime without microseconds. *)
Definition isoformat (d : datetime) : string :=
  pad4 (year d) +:+ "-" +:+ pad2 (month d) +:+ "-" +:+ pad2 (day d) +:+ "T" +:+
  pad2 (hour d) +:+ ":" +:+ pad2 (minute d) +:+ ":" +:+ pad2 (second d) +:+
  match tz d with Some UTC => "+00:00" | None => "" end.

End Datetime.
Export Datetime.

(** ** The world the program acts on *)

(** A [pathlib.Path], split as pathlib does into [parent] and [name]. *)
Definition Path : Type := string * string.
Definition parent (p : Path) : string := p.1.
Definition name (p : Path) : string := p.2.
(** [p.parent.joinpath(n)] *)
Definition joinpath (dir : string) (n : string) : Path := (dir, n).

(** The form of one [requests.post] call of upload_beacon. *)
Record Request : Type := mk_request {
  url : string;
  authorization : string;
  created_at : string;
  value : list pyval;      (* the tuple that unpack returned *)
  source : string
}.

(** What comes back from a POST: a response with its [ok] flag and body, or
    a transport failure, for which [requests] raises. *)
Inductive Reply : Type :=
| Responded (ok : bool) (content : list byte)
| ConnectionFailed.

(** What comes back from the GET of check_database.  The body is either a
    JSON document of the shape {results: [{suffix: ...}, ...]}, given by
    its suffixes, or something that [json.loads] or the subscripts reject. *)
Inductive Body : Type :=
| Results (suffixes : list string)
| Malformed.

Inductive GetReply : Type :=
| GetResponded (status_ok : bool) (body : Body)
| GetConnectionFailed.

Inductive LogRecord : Type :=
| INFO_detected (p : Path)             (* "Detected new beacon at ..." *)
| INFO_uploading                       (* "Uploading beacon data to MOC" *)
| ERROR_moc                            (* "Got an error from MOC. Saving to error.html" *)
| INFO_processed (n : string)          (* "Processed ..." *)
| ERROR_size (num_bytes : nat)         (* "Incorrect beacon size.  Got ... bytes" *)
| INFO_checking                        (* "Checking Django has the RecordSources we need" *)
| ERROR_missing                        (* "Django database is missing expected RecordSources" *)
| ERROR_expected (l : list string)     (* "Expected: ..." *)
| ERROR_got (l : list string).         (* "Got: ..." *)

Record World : Type := mk_world {
  fs : gmap Path (list byte);        (* the files, by path *)
  moc_replies : nat -> Reply;        (* the reply to the k-th POST of the run, k from 0 *)
  moc_record_sources : GetReply;     (* the reply to the record_sources GET *)
  sent : list Request;               (* the POSTs made so far, oldest first *)
  fetched : list (string * string);  (* the GETs made so far: url and Authorization *)
  opened : list Path;                (* the files opened for reading so far *)
  logged : list LogRecord            (* the log, oldest first *)
}.

Definition set_fs (f : gmap Path (list byte)) (w : World) : World :=
  mk_world f (moc_replies w) (moc_record_sources w) (sent w) (fetched w) (opened w) (logged w).
Definition set_sent (s : list Request) (w : World) : World :=
  mk_world (fs w) (moc_replies w) (moc_record_sources w) s (fetched w) (opened w) (logged w).
Definition set_fetched (g : list (string * string)) (w : World) : World :=
  mk_world (fs w) (moc_replies w) (moc_record_sources w) (sent w) g (opened w) (logged w).
Definition set_opened (o : list Path) (w : World) : World :=
  mk_world (fs w) (moc_replies w) (moc_record_sources w) (sent w) (fetched w) o (logged w).
Definition set_logged (l : list LogRecord) (w : World) : World :=
  mk_world (fs w) (moc_replies w) (moc_record_sources w) (sent w) (fetched w) (opened w) l.

(** ** The monad of the program: state and exceptions *)

Definition M (A : Type) : Type := World -> result A * World.

Definition mret {A} (a : A) : M A := fun w => (Returned a, w).

Definition raise {A} (e : exn) : M A := fun w => (Raised e, w).

Definition bind {A B} (c : M A) (k : A -> M B) : M B :=
  fun w => match c w with
           | (Returned a, w') => k a w'
           | (Raised e, w') => (Raised e, w')
           end.

Definition lift {A} (r : result A) : M A := fun w => (r, w).

Declare Scope prog_scope.
Delimit Scope prog_scope with prog.
Bind Scope prog_scope with M.
Notation "x <- c1 ;; c2" := (bind c1 (fun x => c2))
  (at level 100, c1 at next level, c2 at level 200, right associativity) : prog_scope.
Notation "c1 ;; c2" := (bind c1 (fun _ => c2))
  (at level 100, c2 at level 200, right associativity) : prog_scope.
Open Scope prog_scope.

(** *** Primitive operations *)

Definition log (r : LogRecord) : M unit :=
  fun w => (Returned tt, set_logged (logged w ++ [r]) w).

(** [open(p, 'rb')]: the bytes the file object will deliver. *)
Definition open_rb (p : Path) : M (list byte) :=
  fun w => match fs w !! p with
           | Some content => (Returned content, set_opened (opened w ++ [p]) w)
           | None => (Raised FileNotFoundError, w)
           end.

(** [open(p, 'wb').write(content)]: mode 'wb' truncates. *)
Definition write_wb (p : Path) (content : list byte) : M unit :=
  fun w => (Returned tt, set_fs (<[p := content]> (fs w)) w).

(** [src.rename(dst)] *)
Definition rename (src dst : Path) : M unit :=
  fun w => match fs w !! src with
           | Some content => (Returned tt, set_fs (<[dst := content]> (delete src (fs w))) w)
           | None => (Raised FileNotFoundError, w)
           end.

(** [requests.post]: the request goes out, then the reply decides. *)
Definition requests_post (req : Request) : M (bool * list byte) :=
  fun w =>
    let w' := set_sent (sent w ++ [req]) w in
    match moc_replies w (length (sent w)) with
    | Responded ok content => (Returned (ok, content), w')
    | ConnectionFailed => (Raised ConnectionError, w')
    end.

(** [requests.get] *)
Definition requests_get (u : string) (auth : string) : M (bool * Body) :=
  fun w =>
    let w' := set_fetched (fetched w ++ [(u, auth)]) w in
    match moc_record_sources w with
    | GetResponded ok body => (Returned (ok, body), w')
    | GetConnectionFailed => (Raised ConnectionError, w')
    end.

(** ** dict, as the program uses it: insertion-ordered *)

Definition dict : Type := list (string * list pyval).

(** [d[k] = v]: a new key goes to the end, an existing key keeps its place. *)
Fixpoint dict_set (k : string) (v : list pyval) (d : dict) : dict :=
  match d with
  | [] => [(k, v)]
  | (k', v') :: d' =>
      if String.eqb k' k then (k', v) :: d' else (k', v') :: dict_set k v d'
  end.

(** [d[k]] when present. *)
Fixpoint dict_get (k : string) (d : dict) : option (list pyval) :=
  match d with
  | [] => None
  | (k', v') :: d' => if String.eqb k' k then Some v' else dict_get k d'
  end.

(** ** The program *)

Definition BEACON_FILE_PREFIX : string := "beacon_".

(** [s.startswith(p)] *)
Definition startswith (s p : string) : bool := String.prefix p s.

(** The fixed file of upload_beacon's diagnostic output, relative to the
    working directory. *)
Definition error_html : Path := (".", "error.html").

Inductive loop_exit : Set :=
| fell_through      (* the [for] loop ran to its end *)
| returned.         (* a [return] inside the loop left the function *)

Section Interpreter.

(** The order in which this process iterates over BEACON_FORMAT. *)
Variable iteration : list Field.

(** The buffer size of the file objects that [open] makes; [peek] on a
    fresh one delivers what a single read of that size finds. *)
Variable buffer_size : nat.

(** parse_beacon, lines 122-125: the loop over the table.  [f] is what
    the file object has left to read; [f.read(s)] delivers at most [s]
    bytes of it. *)
Fixpoint unpack_fields (fields : list Field) (f : list byte) (data : dict)
  : result dict :=
  match fields with
  | [] => Returned data
  | (rs, t, s) :: fields' =>
      match unpack t (take s f) with
      | Returned v => unpack_fields fields' (drop s f) (dict_set rs v data)
      | Raised e => Raised e
      end
  end.

Definition parse_beacon (filename : Path) : M (datetime * dict) :=
  date <- lift (strptime (name filename)) ;;
  let date := replace_tzinfo UTC date in
  f <- open_rb filename ;;
  let num_bytes := length (take buffer_size f) in
  (if negb (num_bytes =? 74)%nat then log (ERROR_size num_bytes) else mret tt) ;;
  data <- lift (unpack_fields iteration f []) ;;
  mret (date, data).

(** upload_beacon, lines 85-98: the loop over [data.items()]. *)
Fixpoint upload_records (target token : string) (date : datetime)
         (items : dict) : M loop_exit :=
  match items with
  | [] => mret fell_through
  | (rs, v) :: items' =>
      r <- requests_post
             (mk_request (target +:+ "/api/objects/records/") token
                         (isoformat date) v rs) ;;
      if negb (fst r) then
        write_wb error_html (snd r) ;;
        log ERROR_moc ;;
        mret returned
      else upload_records target token date items'
  end.

Definition upload_beacon (target token : string) (beacon_path : Path) : M unit :=
  dd <- parse_beacon beacon_path ;;
  log INFO_uploading ;;
  e <- upload_records target token (fst dd) (snd dd) ;;
  match e with
  | returned => mret tt
  | fell_through =>
      log (INFO_processed (name beacon_path)) ;;
      rename beacon_path
             (joinpath (parent beacon_path) ("processed_" +:+ name beacon_path))
  end.

(** Handler.on_created; [src_path] is [Path(event.src_path)]. *)
Definition on_created (target token : string) (src_path : Path) : M unit :=
  let beacon_path := src_path in
  if negb (startswith (name beacon_path) BEACON_FILE_PREFIX) then mret tt
  else
    log (INFO_detected beacon_path) ;;
    upload_beacon target token beacon_path.

Definition check_database (target token : string) : M unit :=
  log INFO_checking ;;
  r <- requests_get (target +:+ "/api/objects/record_sources/") token ;;
  (if fst r then mret tt else raise HTTPError) ;;
  match snd r with
  | Malformed => raise MalformedBody
  | Results django_record_sources =>
      let expected_record_sources := map field_name iteration in
      if bool_decide (list_to_set django_record_sources
                      ≠@{gset string} list_to_set expected_record_sources)
      then
        log ERROR_missing ;;
        log (ERROR_expected expected_record_sources) ;;
        log (ERROR_got django_record_sources) ;;
        raise Exception
      else mret tt
  end.

(** A [for] loop whose body is a call. *)
Fixpoint for_each {A} (l : list A) (body : A -> M unit) : M unit :=
  match l with
  | [] => mret tt
  | a :: l' => body a ;; for_each l' body
  end.

(** [Path(dir).glob(BEACON_FILE_PREFIX + '*')] over the directory listing
    [entries] that the scan obtains: a name matches 'beacon_*' exactly
    when it starts with 'beacon_'. *)
Definition glob (dir : string) (entries : list string) : list Path :=
  map (joinpath dir) (filter (fun n => startswith n BEACON_FILE_PREFIX = true) entries).

Record Args : Type := mk_args {
  arg_token : string;
  arg_path : string;
  arg_target : string
}.

(** main, lines 169-181: the schema check and the upload of the existing
    beacons.  [entries] is the listing of [args.path] at the time of the
    scan.  What follows in main hands [on_created] to the watchdog
    observer, which calls it for each creation event. *)
Definition main (args : Args) (entries : list string) : M unit :=
  let token := "Token " +:+ arg_token args in
  check_database (arg_target args) token ;;
  for_each (glob (arg_path args) entries)
           (upload_beacon (arg_target args) token).

End Interpreter.

(** ** Vocabulary of the statements *)

(** A table entry whose declared size is the size of its format. *)
Definition wellsized (f : Field) : Prop := field_size f = calcsize (field_fmt f).

(** The number of bytes a list of fields consumes. *)
Definition total_size (fields : list Field) : nat := sum_list (map field_size fields).

Definition dict_keys (d : dict) : list string := map fst d.

(** Successive assignments [d[k] = v]. *)
Definition dict_update (d : dict) (kvs : dict) : dict :=
  foldl (fun d kv => dict_set (fst kv) (snd kv) d) d kvs.

(** The entries that the loop of parse_beacon stores, one per field, when
    the file holds enough bytes: field by field, the cursor advancing by the
    field's size. *)
Fixpoint slices (fields : list Field) (f : list byte) : dict :=
  match fields with
  | [] => []
  | (rs, t, s) :: fields' =>
      (rs, [scalar t (le_uint (take s f))]) :: slices fields' (drop s f)
  end.

(** The request that upload_beacon makes for one item of [data]. *)
Definition record_request (target token : string) (date : datetime)
           (item : string * list pyval) : Request :=
  mk_request (target +:+ "/api/objects/records/") token (isoformat date)
             (snd item) (fst item).

(** The name a processed beacon gets. *)
Definition processed (p : Path) : Path :=
  joinpath (parent p) ("processed_" +:+ name p).

(** The POST replies [k], [k+1], ..., [k+n-1] are all successes. *)
Definition replies_ok (w : World) (k n : nat) : Prop :=
  forall i, (i < n)%nat -> exists c, moc_replies w (k + i) = Responded true c.

(** The world after parse_beacon has opened [p], found the bytes [f] and
    checked their number. *)
Definition opened_and_checked (buffer_size : nat) (p : Path) (f : list byte)
           (w : World) : World :=
  let w1 := set_opened (opened w ++ [p]) w in
  let num_bytes := length (take buffer_size f) in
  if (num_bytes =? 74)%nat then w1
  else set_logged (logged w1 ++ [ERROR_size num_bytes]) w1.

(** The world when upload_beacon enters its loop. *)
Definition started (w : World) : World :=
  set_logged (logged w ++ [INFO_uploading]) w.

(** The world after the requests for [items] have gone out. *)
Definition after_posts (target token : string) (date : datetime) (items : dict)
           (w : World) : World :=
  set_sent (sent w ++ map (record_request target token date) items) w.

(** The world after a rejection with body [body] has been recorded. *)
Definition after_rejection (body : list byte) (w : World) : World :=
  set_logged (logged w ++ [ERROR_moc]) (set_fs (<[error_html := body]> (fs w)) w).

(** The world after check_database has logged its message and made its
    request. *)
Definition checked (target token : string) (w : World) : World :=
  set_fetched (fetched w ++ [(target +:+ "/api/objects/record_sources/", token)])
              (set_logged (logged w ++ [INFO_checking]) w).

Definition all_names : list string := map field_name BEACON_FORMAT_literal.

(** *** Synthetic beacons *)

(** The bytes of an assignment [vals] of scalars to names, for a list of
    fields: the packed values back to back. *)
Definition encode_fields (vals : string -> pyval) (fields : list Field) : list byte :=
  flat_map (fun fld => pack (field_fmt fld) (vals (field_name fld))) fields.

(** The synthetic beacon of the round-trip property: the values laid out in
    the declaration order of the table. *)
Definition encode_beacon (vals : string -> pyval) : list byte :=
  encode_fields vals BEACON_FORMAT_literal.

(** The measurement mapping that holds [vals], one entry per field of
    [fields]. *)
Definition mapping_of (vals : string -> pyval) (fields : list Field) : dict :=
  map (fun fld => (field_name fld, [vals (field_name fld)])) fields.

(** A 74-byte beacon whose only non-zero byte is the byte 01 at offset [o]. *)
Definition beacon_one_at (o : nat) : list byte :=
  replicate o x00 ++ x01 :: replicate (73 - o) x00.

(** *** The strict pattern of file names *)

(** The strict pattern of the specification,
    beacon_<4-digit year>-<2-digit month>-<2-digit day>_<2-digit
    hour>:<2-digit minute>:<2-digit second>, as a shape in which '#' stands
    for one decimal digit and every other character for itself. *)
Fixpoint has_shape (shape name : string) : bool :=
  match shape, name with
  | EmptyString, EmptyString => true
  | String c shape', String c' name' =>
      (if Ascii.eqb c "#" then between "0" "9" c' else Ascii.eqb c c')
      && has_shape shape' name'
  | _, _ => false
  end.

Definition strict_pattern (name : string) : bool :=
  has_shape "beacon_####-##-##_##:##:##" name.

(** The name of the strict pattern with the given fields. *)
Definition strict_name (y mo d h mi s : Z) : string :=
  "beacon_" +:+ pad4 y +:+ "-" +:+ pad2 mo +:+ "-" +:+ pad2 d +:+ "_" +:+
  pad2 h +:+ ":" +:+ pad2 mi +:+ ":" +:+ pad2 s.

(** The fields that four and two decimal digits can write. *)
Definition in_range (y mo d h mi s : Z) : Prop :=
  0 <= y <= 9999 /\ 0 <= mo <= 99 /\ 0 <= d <= 99 /\
  0 <= h <= 99 /\ 0 <= mi <= 99 /\ 0 <= s <= 99.

(** The characters that separate the fields in the format. *)
Definition separator (c : ascii) : Prop := c = "-"%char \/ c = "_"%char \/ c = ":"%char.

(** *** The names that strptime accepts *)

(** A name of ASCII characters. *)
Fixpoint ascii_name (n : string) : bool :=
  match n with
  | EmptyString => true
  | String c n' => (code c <? 128) && ascii_name n'
  end.

(** A decimal digit of ASCII. *)
Definition decimal (c : ascii) : bool := between "0" "9" c.

(** Two strings that differ at most in the case of their letters. *)
Fixpoint caseless (a b : string) : bool :=
  match a, b with
  | EmptyString, EmptyString => true
  | String x a', String y b' => Ascii.eqb (lower x) (lower y) && caseless a' b'
  | _, _ => false
  end.

(** The number that four decimal digits write. *)
Definition four_digits (s : string) : option Z :=
  match s with
  | String a (String b (String c (String d EmptyString))) =>
      if decimal a && decimal b && decimal c && decimal d
      then Some (1000 * digit_val a + 100 * digit_val b + 10 * digit_val c + digit_val d)
      else None
  | _ => None
  end.

(** The number that one decimal digit, or two, write. *)
Definition one_or_two_digits (s : string) : option Z :=
  match s with
  | String a EmptyString => if decimal a then Some (digit_val a) else None
  | String a (String b EmptyString) =>
      if decimal a && decimal b then Some (10 * digit_val a + digit_val b) else None
  | _ => None
  end.

(** The day of the month: one or two digits, or a space and one digit. *)
Definition day_digits (s : string) : option Z :=
  match s with
  | String a (String b EmptyString) =>
      if Ascii.eqb a " "
      then (if decimal b then Some (digit_val b) else None)
      else one_or_two_digits s
  | _ => one_or_two_digits s
  end.

(** A name put together from a prefix and six fields, with the separators
    of the format between them. *)
Definition lenient_name (P Y Mo D H Mi S : string) : string :=
  P +:+ Y +:+ "-" +:+ Mo +:+ "-" +:+ D +:+ "_" +:+ H +:+ ":" +:+ Mi +:+ ":" +:+ S.

(** The pattern that the format beacon_%Y-%m-%d_%H:%M:%S accepts, with the
    time stamp a name of the pattern gives: 'beacon_' in any letter case,
    a year of four digits, '-', a month of one or two digits, '-', a day of
    one or two digits or of a space and a digit, '_', an hour, ':', a
    minute, ':', a second, of one or two digits each, and nothing after
    them; the fields denote an existing date and a time of the day. *)
Definition lenient_pattern (n : string) (dt : datetime) : Prop :=
  exists P Y Mo D H Mi S y mo d h mi s,
    n = lenient_name P Y Mo D H Mi S /\
    caseless P "beacon_" = true /\
    four_digits Y = Some y /\
    one_or_two_digits Mo = Some mo /\
    day_digits D = Some d /\
    one_or_two_digits H = Some h /\
    one_or_two_digits Mi = Some mi /\
    one_or_two_digits S = Some s /\
    valid_date y mo d = true /\ valid_time h mi s = true /\
    dt = mk_datetime y mo d h mi s None.

(** *** Sample runs *)

(** An iteration order that differs from the declaration order in its
    first two entries only: host_id comes before sync. *)
Definition host_id_first : list Field :=
  ("host_id", LE_B, 1%nat) :: ("sync", LE_H, 2%nat) :: drop 2 BEACON_FORMAT_literal.

(** A 74-byte beacon: the byte 01 followed by 73 zero bytes.  Laid out in
    declaration order it says sync = 1 and everything else 0. *)
Definition beacon_sync1 : list byte := x01 :: replicate 73 x00.

(** A beacon one byte short of the 74 that the table needs. *)
Definition short_beacon : list byte := replicate 73 x00.

(** The format the table declares for a name. *)
Definition fmt_of_name (n : string) : fmt :=
  match find (fun fld => String.eqb (field_name fld) n) BEACON_FORMAT_literal with
  | Some fld => field_fmt fld
  | None => LE_B
  end.

(** Known values for the 24 fields: sync is 1, every other field is 0. *)
Definition sample_vals (n : string) : pyval :=
  scalar (fmt_of_name n) (if String.eqb n "sync" then 1 else 0).

Definition sample_path : Path := ("/beacons", "beacon_2021-10-19_14:30:00").

(** A beacon whose name has one-digit fields. *)
Definition lenient_path : Path := ("/beacons", "beacon_2021-1-9_4:3:0").

Definition sample_args : Args := mk_args "secret" "/beacons" "http://moc".

Definition sample_body : list byte := [x6e; x6f].   (* b"no" *)

Definition accept_all : nat -> Reply := fun _ => Responded true [].

(** The second POST is answered by [r], all others are accepted. *)
Definition second_is (r : Reply) : nat -> Reply :=
  fun k => if (k =? 1)%nat then r else Responded true [].

(** A world with one pending beacon, a server that knows the 24 record
    sources, and nothing done yet. *)
Definition sample_world (content : list byte) (replies : nat -> Reply) : World :=
  mk_world {[ sample_path := content ]} replies
           (GetResponded true (Results all_names)) [] [] [] [].

Definition accepting_world : World := sample_world beacon_sync1 accept_all.

Definition rejecting_world : World :=
  sample_world beacon_sync1 (second_is (Responded false sample_body)).

Definition disconnected_world : World :=
  sample_world beacon_sync1 (second_is ConnectionFailed).

Definition short_world : World := sample_world short_beacon accept_all.

Definition lenient_world : World :=
  mk_world {[ lenient_path := beacon_sync1 ]} accept_all
           (GetResponded true (Results all_names)) [] [] [] [].

(** A world with a wrongly named file and a good beacon, both pending. *)
Definition two_files_world : World :=
  mk_world {[ ("/beacons", "beacon_bad-name") := beacon_sync1;
              sample_path := beacon_sync1 ]}
           accept_all (GetResponded true (Results all_names)) [] [] [] [].

(** A server that knows only two of the record sources. *)
Definition two_sources_world : World :=
  mk_world {[ sample_path := beacon_sync1 ]} accept_all
           (GetResponded true (Results ["sync"; "host_id"])) [] [] [] [].

(** upload_beacon and main on the sample: the buffer size is 4096, the
    target "http://moc", the token "secret". *)
Definition sample_upload (iteration : list Field) (w : World) : result unit * World :=
  upload_beacon iteration 4096 "http://moc" "Token secret" sample_path w.

Definition sample_main (entries : list string) (w : World) : result unit * World :=
  main BEACON_FORMAT_literal 4096 sample_args entries w.

(** ** Vocabulary of the further properties *)

(** A request to the records endpoint of [target], with [token] as its
    Authorization, for a field of the table. *)
Definition record_post (iteration : list Field) (target token : string)
           (q : Request) : Prop :=
  url q = target +:+ "/api/objects/records/" /\
  authorization q = token /\
  exists t s, (source q, t, s) ∈ iteration.

(** A beacon on which the decode cannot fail: its name parses and its file
    has the 74 bytes of the table. *)
Definition decodable (w : World) (p : Path) : Prop :=
  exists d f, strptime (name p) = Returned d /\ fs w !! p = Some f /\
              (74 <= length f)%nat.

(** A server that accepts every POST. *)
Definition accepts_all (w : World) : Prop :=
  forall k, exists c, moc_replies w k = Responded true c.

(** The ISO form, in UTC, of the fields of a time stamp. *)
Definition iso_utc (y mo d h mi s : Z) : string :=
  pad4 y +:+ "-" +:+ pad2 mo +:+ "-" +:+ pad2 d +:+ "T" +:+
  pad2 h +:+ ":" +:+ pad2 mi +:+ ":" +:+ pad2 s +:+ "+00:00".

(** A server that answers the record_sources GET with an error status,
    although the body lists the 24 names. *)
Definition http_error_world : World :=
  mk_world {[ sample_path := beacon_sync1 ]} accept_all
           (GetResponded false (Results all_names)) [] [] [] [].

(** A scalar that is a NaN of binary32: all ones in the exponent and a
    fraction that is not zero. *)
Definition is_nan32 (v : pyval) : bool :=
  match v with
  | PyInt _ => false
  | PyFloat32 bits => ((bits / 2 ^ 23) mod 256 =? 255) && negb (bits mod 2 ^ 23 =? 0)
  end.

(** * Properties *)

(** ** The table *)

Lemma literal_NoDup : NoDup BEACON_FORMAT_literal.
Proof. apply (bool_decide_unpack _). vm_compute. reflexivity. Qed.

Lemma literal_names_NoDup : NoDup (map field_name BEACON_FORMAT_literal).
Proof. apply (bool_decide_unpack _). vm_compute. reflexivity. Qed.

Lemma literal_wellsized : Forall wellsized BEACON_FORMAT_literal.
Proof. repeat constructor. Qed.

Lemma literal_total_size : total_size BEACON_FORMAT_literal = 74%nat.
Proof. reflexivity. Qed.

Lemma set_iteration_literal l : set_iteration l <-> l ≡ₚ BEACON_FORMAT_literal.
Proof.
  unfold set_iteration, BEACON_FORMAT.
  rewrite (elements_list_to_set (C := gset Field) _ literal_NoDup). reflexivity.
Qed.

Lemma set_iteration_names_NoDup l : set_iteration l -> NoDup (map field_name l).
Proof.
  intros H%set_iteration_literal. rewrite H. apply literal_names_NoDup.
Qed.

Lemma set_iteration_wellsized l : set_iteration l -> Forall wellsized l.
Proof.
  intros H%set_iteration_literal. rewrite H. apply literal_wellsized.
Qed.

Lemma set_iteration_total_size l : set_iteration l -> total_size l = 74%nat.
Proof.
  intros H%set_iteration_literal. unfold total_size. rewrite H. reflexivity.
Qed.

Lemma set_iteration_length l : set_iteration l -> length l = 24%nat.
Proof.
  intros H%set_iteration_literal. rewrite H. reflexivity.
Qed.

Lemma set_iteration_names l :
  set_iteration l ->
  list_to_set (map field_name l) =@{gset string} list_to_set (map field_name BEACON_FORMAT_literal).
Proof.
  intros H%set_iteration_literal. rewrite H. reflexivity.
Qed.

(** ** strptime on sample names *)

Example strptime_ok :
  strptime "beacon_2021-10-19_14:30:00" = Returned (mk_datetime 2021 10 19 14 30 0 None).
Proof. vm_compute. reflexivity. Qed.

Example strptime_short :
  strptime "beacon_2021-1-9_4:3:0" = Returned (mk_datetime 2021 1 9 4 3 0 None).
Proof. vm_compute. reflexivity. Qed.

Example strptime_bad : 
  map strptime ["beacon_bad-name"; "beacon_2021-10-19_14:30:60"; "beacon_2021-02-30_14:30:00";
       "beacon_0000-10-19_14:30:00"; "beacon_2021-10-19_24:30:00"; "beacon_2021-10-19_14:30:00x";
       "beacon_2021-00-19_14:30:05"; "beacon_2021-10-0_14:30:05"; "beacon_2021-10-19_14:30:65";
       "beacon_2021-013-19_14:30:05"] = replicate 10 (Raised ValueError).
Proof. vm_compute. reflexivity. Qed.

Example strptime_ok2 :
  map strptime ["BEACON_2021-10-19_14:30:00"; "beacon_2021-10- 9_14:30:00"; "beacon_2021-10-19_14:30:5"]
  = [Returned (mk_datetime 2021 10 19 14 30 0 None); Returned (mk_datetime 2021 10 9 14 30 0 None);
     Returned (mk_datetime 2021 10 19 14 30 5 None)].
Proof. vm_compute. reflexivity. Qed.

Example iso_ok :
  isoformat (replace_tzinfo UTC (mk_datetime 2021 10 19 14 30 0 None)) = "2021-10-19T14:30:00+00:00".
Proof. vm_compute. reflexivity. Qed.


(** ** The decode loop *)

Lemma dict_set_fresh k v d : k ∉ dict_keys d -> dict_set k v d = d ++ [(k, v)].
Proof.
  induction d as [|[k' v'] d IH]; simpl; intros Hk; [reflexivity|].
  apply not_elem_of_cons in Hk as [Hne Hk].
  destruct (String.eqb_spec k' k) as [->|_]; [congruence|].
  by rewrite IH.
Qed.

Lemma dict_update_fresh d kvs :
  NoDup (dict_keys d ++ dict_keys kvs) -> dict_update d kvs = d ++ kvs.
Proof.
  revert d. induction kvs as [|[k v] kvs IH]; intros d Hnd; simpl.
  - by rewrite app_nil_r.
  - unfold dict_keys in *. simpl in Hnd.
    apply NoDup_app in Hnd as (Hd & Hdisj & Hkvs).
    apply NoDup_cons in Hkvs as [Hk Hkvs].
    rewrite dict_set_fresh.
    2:{ intros Hin. apply (Hdisj k Hin). left. }
    rewrite IH.
    + by rewrite <- app_assoc.
    + rewrite map_app. simpl. apply NoDup_app. split_and!.
      * apply NoDup_app. split_and!; [done| |apply NoDup_singleton].
        intros x Hx Hx'. apply list_elem_of_singleton in Hx' as ->.
        apply (Hdisj k Hx). left.
      * intros x Hx Hx'. apply elem_of_app in Hx as [Hx|Hx].
        -- apply (Hdisj x Hx). by right.
        -- apply list_elem_of_singleton in Hx as ->. done.
      * done.
Qed.

Lemma slices_keys fields f : dict_keys (slices fields f) = map field_name fields.
Proof.
  revert f. induction fields as [|[[rs t] s] fields IH]; intros f; simpl; [done|].
  unfold dict_keys in IH. by rewrite IH.
Qed.

(** With enough bytes the loop stores one entry per field, in the order of
    the iteration. *)
Lemma unpack_fields_enough fields f data :
  Forall wellsized fields ->
  (total_size fields <= length f)%nat ->
  unpack_fields fields f data = Returned (dict_update data (slices fields f)).
Proof.
  revert f data. induction fields as [|[[rs t] s] fields IH]; intros f data Hw Hlen; simpl.
  - reflexivity.
  - apply Forall_cons in Hw as [Hs Hw]. unfold wellsized, field_size, field_fmt in Hs. simpl in Hs.
    unfold total_size in Hlen. simpl in Hlen.
    unfold unpack. rewrite length_take.
    replace (s `min` length f)%nat with s by lia.
    rewrite <- Hs, Nat.eqb_refl.
    rewrite IH; [reflexivity|done|].
    rewrite length_drop. unfold total_size. lia.
Qed.

(** With too few bytes some [f.read(s)] comes back short and unpack raises
    struct.error. *)
Lemma unpack_fields_short fields f data :
  Forall wellsized fields ->
  (length f < total_size fields)%nat ->
  unpack_fields fields f data = Raised StructError.
Proof.
  revert f data. induction fields as [|[[rs t] s] fields IH]; intros f data Hw Hlen; simpl.
  - unfold total_size in Hlen. simpl in Hlen. lia.
  - apply Forall_cons in Hw as [Hs Hw]. unfold wellsized, field_size, field_fmt in Hs. simpl in Hs.
    unfold total_size in Hlen. simpl in Hlen.
    unfold unpack. rewrite length_take.
    destruct (Nat.eqb_spec (s `min` length f) (calcsize t)) as [Heq|Hne]; [|reflexivity].
    apply IH; [done|]. rewrite length_drop. unfold total_size. lia.
Qed.

Lemma slices_take fields f n :
  (total_size fields <= n)%nat -> slices fields (take n f) = slices fields f.
Proof.
  revert f n. induction fields as [|[[rs t] s] fields IH]; intros f n Hn; simpl; [done|].
  unfold total_size in Hn. simpl in Hn.
  rewrite take_take. replace (s `min` n)%nat with s by lia.
  rewrite <- (IH (drop s f) (n - s)%nat) by (unfold total_size; lia).
  rewrite skipn_firstn_comm. reflexivity.
Qed.

Lemma unpack_fields_set_iteration l f :
  set_iteration l -> (74 <= length f)%nat ->
  unpack_fields l f [] = Returned (slices l f).
Proof.
  intros Hl Hlen.
  rewrite unpack_fields_enough.
  - rewrite dict_update_fresh; [done|]. simpl. rewrite slices_keys.
    by apply set_iteration_names_NoDup.
  - by apply set_iteration_wellsized.
  - rewrite set_iteration_total_size; done.
Qed.

(** ** parse_beacon *)

Lemma parse_beacon_bad_name iteration bs p w e :
  strptime (name p) = Raised e ->
  parse_beacon iteration bs p w = (Raised e, w).
Proof. intros H. unfold parse_beacon, bind, lift. by rewrite H. Qed.

Lemma parse_beacon_missing iteration bs p w d :
  strptime (name p) = Returned d ->
  fs w !! p = None ->
  parse_beacon iteration bs p w = (Raised FileNotFoundError, w).
Proof. intros H Hf. unfold parse_beacon, bind, lift, open_rb. by rewrite H, Hf. Qed.

Lemma parse_beacon_opened iteration bs p w d f :
  strptime (name p) = Returned d ->
  fs w !! p = Some f ->
  parse_beacon iteration bs p w =
    (match unpack_fields iteration f [] with
     | Returned data => Returned (replace_tzinfo UTC d, data)
     | Raised e => Raised e
     end, opened_and_checked bs p f w).
Proof.
  intros H Hf. unfold parse_beacon, bind, lift, open_rb, opened_and_checked.
  rewrite H, Hf. simpl.
  destruct (length (take bs f) =? 74)%nat; simpl;
    destruct (unpack_fields iteration f []); reflexivity.
Qed.

(** Inversion: a successful parse_beacon went through all its steps. *)
Lemma parse_beacon_returned iteration bs p w date data w1 :
  parse_beacon iteration bs p w = (Returned (date, data), w1) ->
  exists d f,
    strptime (name p) = Returned d /\ fs w !! p = Some f /\
    date = replace_tzinfo UTC d /\
    unpack_fields iteration f [] = Returned data /\
    w1 = opened_and_checked bs p f w.
Proof.
  intros H.
  destruct (strptime (name p)) as [d|e] eqn:Hd.
  2:{ rewrite (parse_beacon_bad_name _ _ _ _ _ Hd) in H. discriminate. }
  destruct (fs w !! p) as [f|] eqn:Hf.
  2:{ rewrite (parse_beacon_missing _ _ _ _ _ Hd Hf) in H. discriminate. }
  rewrite (parse_beacon_opened _ _ _ _ _ _ Hd Hf) in H.
  destruct (unpack_fields iteration f []) as [data'|e] eqn:Hu; [|discriminate].
  exists d, f. inversion H; subst. done.
Qed.

Lemma opened_and_checked_fs bs p f w : fs (opened_and_checked bs p f w) = fs w.
Proof. unfold opened_and_checked. simpl. by destruct (_ =? _)%nat. Qed.

Lemma opened_and_checked_sent bs p f w : sent (opened_and_checked bs p f w) = sent w.
Proof. unfold opened_and_checked. simpl. by destruct (_ =? _)%nat. Qed.

Lemma opened_and_checked_replies bs p f w :
  moc_replies (opened_and_checked bs p f w) = moc_replies w.
Proof. unfold opened_and_checked. simpl. by destruct (_ =? _)%nat. Qed.

(** ** The upload loop *)

Lemma replies_ok_tail w req k n :
  replies_ok w k (S n) -> replies_ok (set_sent req w) (S k) n.
Proof.
  intros H i Hi. destruct (H (S i)) as [c Hc]; [lia|]. exists c. simpl.
  by replace (S (k + i))%nat with (k + S i)%nat by lia.
Qed.

(** All replies are successes: every item is posted, once, in the order of
    [data], and the loop runs to its end. *)
Lemma upload_records_accepted target token date items w :
  replies_ok w (length (sent w)) (length items) ->
  upload_records target token date items w =
    (Returned fell_through, after_posts target token date items w).
Proof.
  revert w. induction items as [|[rs v] items IH]; intros w Hok.
  - simpl. unfold mret, after_posts. simpl. rewrite app_nil_r. by destruct w.
  - simpl. unfold bind at 1. unfold requests_post.
    destruct (Hok 0%nat) as [c Hc]; [simpl; lia|]. rewrite Nat.add_0_r in Hc.
    rewrite Hc. simpl. rewrite IH.
    + unfold after_posts. simpl. by rewrite <- app_assoc.
    + simpl. rewrite length_app. simpl.
      replace (length (sent w) + 1)%nat with (S (length (sent w))) by lia.
      by apply replies_ok_tail.
Qed.

(** The reply to request [n] (counted from 0) is the first that is not a
    success, and it is a rejection: requests 0..n have gone out, the body is
    in error.html, and the function returns from inside the loop. *)
Lemma upload_records_rejected target token date items w n body :
  (n < length items)%nat ->
  replies_ok w (length (sent w)) n ->
  moc_replies w (length (sent w) + n) = Responded false body ->
  upload_records target token date items w =
    (Returned returned,
     after_rejection body (after_posts target token date (take (S n) items) w)).
Proof.
  revert w n. induction items as [|[rs v] items IH]; intros w n Hn Hok Hrej.
  - simpl in Hn. lia.
  - simpl. unfold bind at 1. unfold requests_post.
    destruct n as [|n].
    + rewrite Nat.add_0_r in Hrej. rewrite Hrej. simpl.
      unfold bind, write_wb, log, mret, after_rejection, after_posts. simpl.
      reflexivity.
    + destruct (Hok 0%nat) as [c Hc]; [lia|]. rewrite Nat.add_0_r in Hc.
      rewrite Hc. simpl. rewrite (IH _ n).
      * unfold after_rejection, after_posts. simpl. by rewrite <- app_assoc.
      * simpl in Hn. lia.
      * simpl. rewrite length_app. simpl.
        replace (length (sent w) + 1)%nat with (S (length (sent w))) by lia.
        by apply replies_ok_tail.
      * simpl. rewrite length_app. simpl. rewrite <- Hrej. f_equal. lia.
Qed.

(** The same, when the first reply that is not a success is a transport
    failure: the exception leaves the loop. *)
Lemma upload_records_connection_failed target token date items w n :
  (n < length items)%nat ->
  replies_ok w (length (sent w)) n ->
  moc_replies w (length (sent w) + n) = ConnectionFailed ->
  upload_records target token date items w =
    (Raised ConnectionError, after_posts target token date (take (S n) items) w).
Proof.
  revert w n. induction items as [|[rs v] items IH]; intros w n Hn Hok Hrej.
  - simpl in Hn. lia.
  - simpl. unfold bind at 1. unfold requests_post.
    destruct n as [|n].
    + rewrite Nat.add_0_r in Hrej. rewrite Hrej. simpl.
      unfold after_posts. simpl. reflexivity.
    + destruct (Hok 0%nat) as [c Hc]; [lia|]. rewrite Nat.add_0_r in Hc.
      rewrite Hc. simpl. rewrite (IH _ n).
      * unfold after_posts. simpl. by rewrite <- app_assoc.
      * simpl in Hn. lia.
      * simpl. rewrite length_app. simpl.
        replace (length (sent w) + 1)%nat with (S (length (sent w))) by lia.
        by apply replies_ok_tail.
      * simpl. rewrite length_app. simpl. rewrite <- Hrej. f_equal. lia.
Qed.

(** ** upload_beacon *)

Lemma string_length_append (a b : string) :
  String.length (a +:+ b) = (String.length a + String.length b)%nat.
Proof. induction a as [|c a IH]; simpl; [done|by rewrite IH]. Qed.

Lemma processed_neq p : processed p ≠ p.
Proof.
  destruct p as [dir n]. unfold processed, joinpath, parent, name. simpl.
  intros H. injection H as H. apply (f_equal String.length) in H.
  rewrite string_length_append in H. simpl in H. lia.
Qed.

Lemma processed_neq_error_html p : processed p ≠ error_html.
Proof.
  destruct p as [dir n]. unfold processed, joinpath, error_html, parent, name. simpl.
  change ("processed_" +:+ n) with (String "p" ("rocessed_" +:+ n)). congruence.
Qed.

Lemma parsed_neq_error_html p d : strptime (name p) = Returned d -> p ≠ error_html.
Proof. intros H ->. vm_compute in H. discriminate. Qed.

Lemma upload_beacon_parse_raised iteration bs target token p w e w1 :
  parse_beacon iteration bs p w = (Raised e, w1) ->
  upload_beacon iteration bs target token p w = (Raised e, w1).
Proof. intros H. unfold upload_beacon, bind. by rewrite H. Qed.

Lemma upload_beacon_parsed iteration bs target token p w date data w1 :
  parse_beacon iteration bs p w = (Returned (date, data), w1) ->
  upload_beacon iteration bs target token p w =
    match upload_records target token date data (started w1) with
    | (Returned returned, w2) => (Returned tt, w2)
    | (Returned fell_through, w2) =>
        (log (INFO_processed (name p)) ;; rename p (processed p)) w2
    | (Raised e, w2) => (Raised e, w2)
    end.
Proof.
  intros H. unfold upload_beacon. unfold bind at 1. rewrite H.
  unfold bind at 1. unfold log at 1. simpl. unfold bind at 1.
  fold (started w1).
  destruct (upload_records target token date data (started w1)) as [[[]|e] w2];
    reflexivity.
Qed.

Lemma entered_sent bs p f w : sent (started (opened_and_checked bs p f w)) = sent w.
Proof. unfold started. simpl. apply opened_and_checked_sent. Qed.

Lemma entered_fs bs p f w : fs (started (opened_and_checked bs p f w)) = fs w.
Proof. unfold started. simpl. apply opened_and_checked_fs. Qed.

Lemma entered_replies bs p f w :
  moc_replies (started (opened_and_checked bs p f w)) = moc_replies w.
Proof. unfold started. simpl. apply opened_and_checked_replies. Qed.

Lemma entered_replies_ok bs p f w n :
  replies_ok w (length (sent w)) n ->
  replies_ok (started (opened_and_checked bs p f w))
             (length (sent (started (opened_and_checked bs p f w)))) n.
Proof.
  intros Hok i Hi. rewrite entered_sent, entered_replies. by apply Hok.
Qed.

(** Every reply a success: all items are posted and the file is renamed. *)
Lemma upload_beacon_accepted iteration bs target token p w date data w1 f :
  parse_beacon iteration bs p w = (Returned (date, data), w1) ->
  fs w !! p = Some f ->
  replies_ok w (length (sent w)) (length data) ->
  exists w2,
    upload_beacon iteration bs target token p w = (Returned tt, w2) /\
    sent w2 = sent w ++ map (record_request target token date) data /\
    fs w2 = <[processed p := f]> (delete p (fs w)) /\
    logged w2 = logged w1 ++ [INFO_uploading; INFO_processed (name p)].
Proof.
  intros Hp Hf Hok.
  rewrite (upload_beacon_parsed _ _ _ _ _ _ _ _ _ Hp).
  apply parse_beacon_returned in Hp as (d & f' & Hd & Hf' & -> & Hu & ->).
  rewrite Hf in Hf'. injection Hf' as <-.
  rewrite upload_records_accepted.
  2:{ by apply entered_replies_ok. }
  unfold bind, log, rename. simpl. rewrite opened_and_checked_fs, Hf.
  eexists. split; [reflexivity|]. simpl.
  rewrite opened_and_checked_sent.
  split_and!; try done. by rewrite <- app_assoc.
Qed.

(** The reply to request [n] is the first that is not a success, and it is a
    rejection. *)
Lemma upload_beacon_rejected iteration bs target token p w date data w1 n body :
  parse_beacon iteration bs p w = (Returned (date, data), w1) ->
  (n < length data)%nat ->
  replies_ok w (length (sent w)) n ->
  moc_replies w (length (sent w) + n) = Responded false body ->
  exists w2,
    upload_beacon iteration bs target token p w = (Returned tt, w2) /\
    sent w2 = sent w ++ map (record_request target token date) (take (S n) data) /\
    fs w2 = <[error_html := body]> (fs w) /\
    logged w2 = logged w1 ++ [INFO_uploading; ERROR_moc].
Proof.
  intros Hp Hn Hok Hrej.
  rewrite (upload_beacon_parsed _ _ _ _ _ _ _ _ _ Hp).
  apply parse_beacon_returned in Hp as (d & f & Hd & Hf & -> & Hu & ->).
  rewrite (upload_records_rejected _ _ _ _ _ n body); try done.
  - eexists. split; [reflexivity|]. simpl.
    rewrite opened_and_checked_sent, opened_and_checked_fs.
    split_and!; try done. by rewrite <- app_assoc.
  - by apply entered_replies_ok.
  - by rewrite entered_sent, entered_replies.
Qed.

(** The reply to request [n] is the first that is not a success, and it is a
    transport failure. *)
Lemma upload_beacon_connection_failed iteration bs target token p w date data w1 n :
  parse_beacon iteration bs p w = (Returned (date, data), w1) ->
  (n < length data)%nat ->
  replies_ok w (length (sent w)) n ->
  moc_replies w (length (sent w) + n) = ConnectionFailed ->
  exists w2,
    upload_beacon iteration bs target token p w = (Raised ConnectionError, w2) /\
    sent w2 = sent w ++ map (record_request target token date) (take (S n) data) /\
    fs w2 = fs w /\
    logged w2 = logged w1 ++ [INFO_uploading].
Proof.
  intros Hp Hn Hok Hrej.
  rewrite (upload_beacon_parsed _ _ _ _ _ _ _ _ _ Hp).
  apply parse_beacon_returned in Hp as (d & f & Hd & Hf & -> & Hu & ->).
  rewrite (upload_records_connection_failed _ _ _ _ _ n); try done.
  - eexists. split; [reflexivity|]. simpl.
    rewrite opened_and_checked_sent, opened_and_checked_fs. done.
  - by apply entered_replies_ok.
  - by rewrite entered_sent, entered_replies.
Qed.

(** ** The values of the mapping and of the requests *)

Lemma unpack_singleton t buf v : unpack t buf = Returned v -> length v = 1%nat.
Proof.
  unfold unpack. destruct (_ =? _)%nat; [|discriminate].
  intros H. injection H as <-. reflexivity.
Qed.

Lemma dict_set_entries (P : string -> list pyval -> Prop) k v d :
  P k v -> Forall (fun kv => P (fst kv) (snd kv)) d ->
  Forall (fun kv => P (fst kv) (snd kv)) (dict_set k v d).
Proof.
  intros Hv. induction 1 as [|[k' v'] d Hkv Hd IH]; simpl.
  - by repeat constructor.
  - destruct (String.eqb_spec k' k) as [->|_]; constructor; done.
Qed.

(** Every entry of the mapping was stored by the loop for a field of the
    table, with what unpack returned for that field's format. *)
Lemma unpack_fields_entries (P : string -> list pyval -> Prop) fields f data data' :
  (forall rs t s buf v,
      (rs, t, s) ∈ fields -> unpack t buf = Returned v -> P rs v) ->
  Forall (fun kv => P (fst kv) (snd kv)) data ->
  unpack_fields fields f data = Returned data' ->
  Forall (fun kv => P (fst kv) (snd kv)) data'.
Proof.
  revert f data. induction fields as [|[[rs t] s] fields IH];
    intros f data HP Hdata; simpl.
  - intros H. by injection H as <-.
  - destruct (unpack t (take s f)) as [v|e] eqn:Hu; [|discriminate].
    apply IH.
    + intros rs' t' s' buf v' Hin. apply (HP rs' t' s'). by right.
    + apply dict_set_entries; [|done]. apply (HP rs t s (take s f)); [left|done].
Qed.

(** The requests that a call of upload_beacon adds are those of a prefix of
    the decoded data, whatever the server replies. *)
Lemma upload_records_prefix target token date items w :
  exists k,
    sent (snd (upload_records target token date items w)) =
    sent w ++ map (record_request target token date) (take k items).
Proof.
  revert w. induction items as [|[rs v] items IH]; intros w.
  - exists 0%nat. simpl. by rewrite app_nil_r.
  - simpl. unfold bind at 1. unfold requests_post.
    destruct (moc_replies w (length (sent w))) as [[|] c|].
    + simpl. destruct (IH (set_sent (sent w ++
              [mk_request (target +:+ "/api/objects/records/") token
                          (isoformat date) v rs]) w)) as [k Hk].
      exists (S k). rewrite Hk. simpl. by rewrite <- app_assoc.
    + exists 1%nat. reflexivity.
    + exists 1%nat. reflexivity.
Qed.

(** ** File names and their selection *)

Lemma processed_not_prefixed p :
  startswith (name (processed p)) BEACON_FILE_PREFIX = false.
Proof.
  destruct p as [dir n]. unfold processed, joinpath, parent, name. simpl.
  change ("processed_" +:+ n) with (String "p" ("rocessed_" +:+ n)).
  reflexivity.
Qed.

Lemma glob_selected dir entries x :
  x ∈ glob dir entries ->
  parent x = dir /\ name x ∈ entries /\ startswith (name x) BEACON_FILE_PREFIX = true.
Proof.
  unfold glob. intros (n & -> & Hn)%list_elem_of_fmap.
  apply list_elem_of_filter in Hn as [Hpre Hn]. done.
Qed.

Lemma on_created_filtered iteration bs target token p w :
  startswith (name p) BEACON_FILE_PREFIX = false ->
  on_created iteration bs target token p w = (Returned tt, w).
Proof. intros H. unfold on_created. by rewrite H. Qed.

Lemma on_created_selected iteration bs target token p w :
  startswith (name p) BEACON_FILE_PREFIX = true ->
  on_created iteration bs target token p w =
  upload_beacon iteration bs target token p
                (set_logged (logged w ++ [INFO_detected p]) w).
Proof. intros H. unfold on_created. by rewrite H. Qed.

(** ** The loop of main *)

Lemma parse_beacon_fs_sent iteration bs p w :
  fs (snd (parse_beacon iteration bs p w)) = fs w /\
  sent (snd (parse_beacon iteration bs p w)) = sent w.
Proof.
  destruct (strptime (name p)) as [d|e] eqn:Hd.
  2:{ by rewrite (parse_beacon_bad_name _ _ _ _ _ Hd). }
  destruct (fs w !! p) as [f|] eqn:Hf.
  2:{ by rewrite (parse_beacon_missing _ _ _ _ _ Hd Hf). }
  rewrite (parse_beacon_opened _ _ _ _ _ _ Hd Hf). simpl.
  by rewrite opened_and_checked_fs, opened_and_checked_sent.
Qed.

Lemma for_each_returned {A} (body : A -> M unit) a l w w' :
  body a w = (Returned tt, w') ->
  for_each (a :: l) body w = for_each l body w'.
Proof. intros H. simpl. unfold bind. by rewrite H. Qed.

Lemma for_each_raised {A} (body : A -> M unit) a l w w' e :
  body a w = (Raised e, w') ->
  for_each (a :: l) body w = (Raised e, w').
Proof. intros H. simpl. unfold bind. by rewrite H. Qed.

(** ** check_database *)

Lemma check_database_results iteration target token w suffixes :
  moc_record_sources w = GetResponded true (Results suffixes) ->
  check_database iteration target token w =
    if decide (list_to_set suffixes =@{gset string} list_to_set (map field_name iteration))
    then (Returned tt, checked target token w)
    else (Raised Exception,
          set_logged (logged (checked target token w) ++
                      [ERROR_missing; ERROR_expected (map field_name iteration);
                       ERROR_got suffixes])
                     (checked target token w)).
Proof.
  intros Hget. unfold check_database, bind, log, requests_get. simpl. rewrite Hget. simpl.
  destruct (decide (list_to_set suffixes =@{gset string} _)) as [Heq|Hne].
  - rewrite bool_decide_eq_false_2 by (intros H; by apply H). reflexivity.
  - rewrite bool_decide_eq_true_2 by done. simpl.
    unfold checked. simpl. by repeat rewrite <- app_assoc.
Qed.

(** ** strptime on the names of the strict pattern *)

Ltac cases100 n H tac :=
  let m := fresh "m" in
  let Hm := fresh "Hm" in
  assert (Hm : exists m : nat, n = Z.of_nat m /\ (m < 100)%nat)
    by (exists (Z.to_nat n); lia);
  destruct Hm as (m & -> & Hm); clear H;
  do 100 (destruct m as [|m]; [tac|]); lia.

Lemma dir_m_matches n rest :
  0 <= n <= 99 ->
  dir_m (pad2 n +:+ rest) =
    (if (1 <=? n) && (n <=? 12) then [(n, rest)] else []) ++
    (if 10 <=? n then [(n / 10, String (digit_char n) rest)] else []).
Proof. intros H. cases100 n H ltac:(vm_compute; reflexivity). Qed.

Lemma dir_d_matches n rest :
  0 <= n <= 99 ->
  dir_d (pad2 n +:+ rest) =
    (if (1 <=? n) && (n <=? 31) then [(n, rest)] else []) ++
    (if 10 <=? n then [(n / 10, String (digit_char n) rest)] else []).
Proof. intros H. cases100 n H ltac:(vm_compute; reflexivity). Qed.

Lemma dir_H_matches n rest :
  0 <= n <= 99 ->
  dir_H (pad2 n +:+ rest) =
    (if n <=? 23 then [(n, rest)] else []) ++
    [(n / 10, String (digit_char n) rest)].
Proof. intros H. cases100 n H ltac:(vm_compute; reflexivity). Qed.

Lemma dir_M_matches n rest :
  0 <= n <= 99 ->
  dir_M (pad2 n +:+ rest) =
    (if n <=? 59 then [(n, rest)] else []) ++
    [(n / 10, String (digit_char n) rest)].
Proof. intros H. cases100 n H ltac:(vm_compute; reflexivity). Qed.

Lemma dir_S_matches n rest :
  0 <= n <= 99 ->
  dir_S (pad2 n +:+ rest) =
    (if n <=? 61 then [(n, rest)] else []) ++
    [(n / 10, String (digit_char n) rest)].
Proof. intros H. cases100 n H ltac:(vm_compute; reflexivity). Qed.

(** A remainder modulo 10 is one of the ten digits. *)
Lemma mod10_digit (P : Z -> Prop) x :
  (forall k : nat, (k < 10)%nat -> P (Z.of_nat k)) -> P (x mod 10).
Proof.
  intros HP.
  assert (H : 0 <= x mod 10 < 10) by (apply Z.mod_pos_bound; lia).
  rewrite <- (Z2Nat.id (x mod 10)) by lia. apply HP. lia.
Qed.

Ltac by_digit x :=
  unfold digit_char; pattern (x mod 10); apply mod10_digit;
  let k := fresh "k" in
  let Hk := fresh "Hk" in
  intros k Hk; do 10 (destruct k as [|k]; [reflexivity|]); lia.

Lemma dig_digit a rest : dig (String (digit_char a) rest) = [(a mod 10, rest)].
Proof. by_digit a. Qed.

Lemma year_digits y :
  0 <= y <= 9999 ->
  1000 * ((y / 1000) mod 10) + 100 * ((y / 100) mod 10)
  + 10 * ((y / 10) mod 10) + y mod 10 = y.
Proof. intros H. Z.div_mod_to_equations. lia. Qed.

Lemma then_single {A B} (m : matcher A) (k : A -> matcher B) s a r :
  m s = [(a, r)] -> then_ m k s = k a r.
Proof. intros H. unfold then_. rewrite H. simpl. apply app_nil_r. Qed.

Lemma then_none {A B} (m : matcher A) (k : A -> matcher B) s :
  m s = [] -> then_ m k s = [].
Proof. intros H. unfold then_. by rewrite H. Qed.

Lemma then_two {A B} (m : matcher A) (k : A -> matcher B) s a r a' r' :
  m s = [(a, r); (a', r')] -> then_ m k s = k a r ++ k a' r'.
Proof. intros H. unfold then_. rewrite H. simpl. by rewrite app_nil_r. Qed.

(** A separator of the format is found where the name has it, and is not
    found where the name has a digit. *)

Lemma lit_separator_here c r : lit (String c "") (String c r) = [(tt, r)].
Proof.
  unfold lit, then_, lit1, then_, chr, ret. rewrite Ascii.eqb_refl. reflexivity.
Qed.

Lemma lit_separator_digit c x r :
  separator c -> lit (String c "") (String (digit_char x) r) = [].
Proof.
  intros [->|[->| ->]]; by_digit x.
Qed.

Lemma lit_beacon r : lit "beacon_" ("beacon_" +:+ r) = [(tt, r)].
Proof. reflexivity. Qed.

Lemma dir_Y_pad4 y r : 0 <= y <= 9999 -> dir_Y (pad4 y +:+ r) = [(y, r)].
Proof.
  intros H. unfold dir_Y, pad4, pad2.
  change (String ?a ?s +:+ r) with (String a (s +:+ r)).
  cbn [String.append].
  repeat (erewrite then_single; [|apply dig_digit]).
  unfold ret. rewrite <- (year_digits y H) at 5. reflexivity.
Qed.

Lemma field_then_separator {A} (D : matcher Z) (v p : bool) n c rest
      (k : Z -> matcher A) :
  separator c ->
  D (pad2 n +:+ String c rest) =
    (if v then [(n, String c rest)] else []) ++
    (if p then [(n / 10, String (digit_char n) (String c rest))] else []) ->
  then_ D (fun x => then_ (lit (String c "")) (fun _ => k x)) (pad2 n +:+ String c rest)
  = if v then k n rest else [].
Proof.
  intros Hc HD. unfold then_ at 1. rewrite HD.
  destruct v, p; simpl;
    rewrite ?(then_single _ _ _ _ _ (lit_separator_here c rest)),
            ?(then_none _ _ _ (lit_separator_digit c n _ Hc)),
            ?app_nil_r; reflexivity.
Qed.

Lemma beacon_re_strict y mo d h mi s :
  in_range y mo d h mi s ->
  beacon_re (strict_name y mo d h mi s) =
    if (1 <=? mo) && (mo <=? 12) then
      if (1 <=? d) && (d <=? 31) then
        if h <=? 23 then
          if mi <=? 59 then
            (if s <=? 61 then [((y, mo, d, h, mi, s), "")] else []) ++
            [((y, mo, d, h, mi, s / 10), String (digit_char s) "")]
          else []
        else []
      else []
    else [].
Proof.
  intros (Hy & Hmo & Hd & Hh & Hmi & Hs).
  unfold beacon_re, strict_name.
  rewrite (then_single _ _ _ _ _ (lit_beacon _)).
  rewrite (then_single _ _ _ _ _ (dir_Y_pad4 _ _ Hy)).
  do 5 (change (String ?a "" +:+ ?x) with (String a x)).
  rewrite (then_single _ _ _ _ _ (lit_separator_here _ _)).
  rewrite (field_then_separator dir_m _ (10 <=? mo) mo "-" _ _
             ltac:(by left) (dir_m_matches mo _ Hmo)).
  destruct ((1 <=? mo) && (mo <=? 12)); [|reflexivity].
  rewrite (field_then_separator dir_d _ (10 <=? d) d "_" _ _
             ltac:(by right; left) (dir_d_matches d _ Hd)).
  destruct ((1 <=? d) && (d <=? 31)); [|reflexivity].
  rewrite (field_then_separator dir_H _ true h ":" _ _
             ltac:(by right; right) (dir_H_matches h _ Hh)).
  destruct (h <=? 23); [|reflexivity].
  rewrite (field_then_separator dir_M _ true mi ":" _ _
             ltac:(by right; right) (dir_M_matches mi _ Hmi)).
  destruct (mi <=? 59); [|reflexivity].
  unfold then_. change (pad2 s) with (pad2 s +:+ ""). rewrite (dir_S_matches s "" Hs).
  destruct (s <=? 61); reflexivity.
Qed.

Lemma days_in_month_le y m : days_in_month y m <= 31.
Proof.
  unfold days_in_month.
  destruct (m =? 2); [destruct (is_leap y); lia|].
  destruct ((m =? 4) || (m =? 6) || (m =? 9) || (m =? 11)); lia.
Qed.

(** On a name of the strict pattern strptime succeeds exactly when the
    fields denote an existing date and time, and then returns them. *)
Lemma strptime_strict_name y mo d h mi s :
  in_range y mo d h mi s ->
  strptime (strict_name y mo d h mi s) =
    if valid_date y mo d && valid_time h mi s
    then Returned (mk_datetime y mo d h mi s None)
    else Raised ValueError.
Proof.
  intros Hr. unfold strptime. rewrite (beacon_re_strict _ _ _ _ _ _ Hr).
  destruct Hr as (Hy & Hmo & Hd & Hh & Hmi & Hs).
  pose proof (days_in_month_le y mo) as Hdim.
  destruct (valid_date y mo d) eqn:Hvd, (valid_time h mi s) eqn:Hvt;
    [|destruct ((1 <=? mo) && (mo <=? 12)), ((1 <=? d) && (d <=? 31)),
               (h <=? 23), (mi <=? 59), (s <=? 61);
      cbn -[valid_date valid_time]; rewrite ?Hvd, ?Hvt; reflexivity ..].
  unfold valid_date in Hvd. unfold valid_time in Hvt.
  rewrite !andb_true_iff, !Z.leb_le in Hvd, Hvt.
  assert (HA : (1 <=? mo) && (mo <=? 12) = true)
    by (apply andb_true_iff; rewrite !Z.leb_le; lia).
  assert (HB : (1 <=? d) && (d <=? 31) = true)
    by (apply andb_true_iff; rewrite !Z.leb_le; lia).
  assert (HC : (h <=? 23) = true) by (apply Z.leb_le; lia).
  assert (HD : (mi <=? 59) = true) by (apply Z.leb_le; lia).
  assert (HE : (s <=? 61) = true) by (apply Z.leb_le; lia).
  rewrite HA, HB, HC, HD, HE. cbn -[valid_date valid_time].
  assert (Hvd' : valid_date y mo d = true).
  { unfold valid_date. rewrite !andb_true_iff, !Z.leb_le. lia. }
  assert (Hvt' : valid_time h mi s = true).
  { unfold valid_time. rewrite !andb_true_iff, !Z.leb_le. lia. }
  rewrite Hvd', Hvt'. reflexivity.
Qed.

(** The names of the strict pattern are the names [strict_name] builds. *)

Lemma digit_of_char c :
  between "0" "9" c = true -> exists v, 0 <= v <= 9 /\ c = digit_char v.
Proof.
  intros H. exists (digit_val c).
  destruct c as [[] [] [] [] [] [] [] []]; try discriminate H;
    (split; [vm_compute; split; discriminate | reflexivity]).
Qed.

Lemma digit_char_mod a b : a mod 10 = b mod 10 -> digit_char a = digit_char b.
Proof. intros H. unfold digit_char. by rewrite H. Qed.

Lemma pad2_digits a b :
  0 <= a <= 9 -> 0 <= b <= 9 ->
  String (digit_char a) (String (digit_char b) "") = pad2 (10 * a + b).
Proof.
  intros Ha Hb. unfold pad2. f_equal; [|f_equal].
  - apply digit_char_mod. Z.div_mod_to_equations. lia.
  - apply digit_char_mod. Z.div_mod_to_equations. lia.
Qed.

Lemma pad4_digits a b c d :
  0 <= a <= 9 -> 0 <= b <= 9 -> 0 <= c <= 9 -> 0 <= d <= 9 ->
  String (digit_char a) (String (digit_char b)
    (String (digit_char c) (String (digit_char d) "")))
  = pad4 (1000 * a + 100 * b + 10 * c + d).
Proof.
  intros Ha Hb Hc Hd. unfold pad4, pad2.
  f_equal; [|f_equal; [|f_equal; [|f_equal]]].
  all: apply digit_char_mod; Z.div_mod_to_equations; lia.
Qed.

Lemma has_shape_cons a shape c n :
  has_shape (String a shape) (String c n) =
  (if Ascii.eqb a "#" then between "0" "9" c else Ascii.eqb a c) && has_shape shape n.
Proof. reflexivity. Qed.

Ltac shape_lit H :=
  match type of H with
  | has_shape (String _ _) ?n = true =>
      let c := fresh "c" in
      let Hc := fresh "Hc" in
      destruct n as [|c n]; [discriminate H|];
      rewrite has_shape_cons in H;
      apply andb_prop in H as [Hc H];
      apply Ascii.eqb_eq in Hc; subst c
  end.

Ltac shape_dig H v :=
  match type of H with
  | has_shape (String _ _) ?n = true =>
      let c := fresh "c" in
      let Hc := fresh "Hc" in
      let Hv := fresh "H" v in
      destruct n as [|c n]; [discriminate H|];
      rewrite has_shape_cons in H;
      apply andb_prop in H as [Hc H];
      apply digit_of_char in Hc as (v & Hv & ->)
  end.

Lemma strict_pattern_fields n :
  strict_pattern n = true ->
  exists y mo d h mi s, in_range y mo d h mi s /\ n = strict_name y mo d h mi s.
Proof.
  unfold strict_pattern. intros H.
  do 7 shape_lit H.
  shape_dig H y1. shape_dig H y2. shape_dig H y3. shape_dig H y4. shape_lit H.
  shape_dig H m1. shape_dig H m2. shape_lit H.
  shape_dig H d1. shape_dig H d2. shape_lit H.
  shape_dig H h1. shape_dig H h2. shape_lit H.
  shape_dig H i1. shape_dig H i2. shape_lit H.
  shape_dig H s1. shape_dig H s2.
  destruct n; [|discriminate H]. clear H.
  exists (1000 * y1 + 100 * y2 + 10 * y3 + y4), (10 * m1 + m2), (10 * d1 + d2),
         (10 * h1 + h2), (10 * i1 + i2), (10 * s1 + s2).
  unfold strict_name.
  rewrite <- pad4_digits by assumption.
  rewrite <- !pad2_digits by assumption.
  split; [unfold in_range; lia|reflexivity].
Qed.

Lemma strict_name_pattern y mo d h mi s :
  in_range y mo d h mi s -> strict_pattern (strict_name y mo d h mi s) = true.
Proof.
  intros _. unfold strict_pattern, strict_name, pad4, pad2.
  assert (Hd : forall x, between "0" "9" (digit_char x) = true).
  { intros x. by_digit x. }
  cbv [String.append has_shape]. 
  change (Ascii.eqb "#" "#") with true. cbv beta iota.
  rewrite !Hd. reflexivity.
Qed.

(** ** The errors of strptime *)

Lemma strptime_raises_ValueError n e : strptime n = Raised e -> e = ValueError.
Proof.
  unfold strptime.
  destruct (beacon_re n) as [|[[[[[[y mo] d] h] mi] s] rest] l]; [congruence|].
  destruct (negb (String.eqb rest "")); [congruence|].
  destruct (negb (valid_date y mo d)); [congruence|].
  destruct (negb (valid_time h mi s)); congruence.
Qed.

(** ** strptime: the names it accepts *)

(** *** What a match of the regular expression has consumed *)

Lemma string_app_nil_r (s : string) : s +:+ "" = s.
Proof.
  induction s as [|c s IH]; [reflexivity|].
  change (String c (s +:+ "") = String c s). by rewrite IH.
Qed.

Lemma string_app_assoc (a b c : string) : (a +:+ b) +:+ c = a +:+ (b +:+ c).
Proof.
  induction a as [|x a IH]; [reflexivity|].
  change (String x ((a +:+ b) +:+ c) = String x (a +:+ (b +:+ c))). by rewrite IH.
Qed.

Lemma in_then {A B} (m : matcher A) (f : A -> matcher B) s b r :
  In (b, r) (then_ m f s) -> exists a r', In (a, r') (m s) /\ In (b, r) (f a r').
Proof.
  unfold then_. intros H. apply in_flat_map in H as ([a r'] & Ha & Hb). by exists a, r'.
Qed.

Lemma in_ret {A} (a b : A) s r : In (b, r) (ret a s) -> b = a /\ r = s.
Proof. intros [H|[]]. by injection H as <- <-. Qed.

Lemma in_chr p c r s : In (c, r) (chr p s) -> s = String c r /\ p c = true.
Proof.
  unfold chr. destruct s as [|c' s']; [intros []|].
  destruct (p c') eqn:Hp; [|intros []]. intros [H|[]]. injection H as <- <-. done.
Qed.

Lemma in_rng lo hi v r s :
  In (v, r) (rng lo hi s) ->
  exists c, s = String c r /\ between lo hi c = true /\ v = digit_val c.
Proof.
  unfold rng. intros (c & r' & Hc & Hr)%in_then.
  apply in_chr in Hc as [-> Hb]. apply in_ret in Hr as [-> ->]. by exists c.
Qed.

Lemma in_lit1 c u r s :
  In (u, r) (lit1 c s) ->
  exists c', s = String c' r /\ Ascii.eqb (lower c') (lower c) = true.
Proof.
  unfold lit1. intros (c' & r' & Hc & Hr)%in_then.
  apply in_chr in Hc as [-> Hb]. apply in_ret in Hr as [_ ->]. by exists c'.
Qed.

Lemma in_lit l u r s :
  In (u, r) (lit l s) -> exists P, s = P +:+ r /\ caseless P l = true.
Proof.
  revert s. induction l as [|c l IH]; intros s; cbn [lit].
  - intros [_ ->]%in_ret. by exists "".
  - intros (u' & r' & Hc & Hr)%in_then. apply in_lit1 in Hc as (c' & -> & Hb).
    apply IH in Hr as (P & -> & HP). exists (String c' P). split; [reflexivity|].
    simpl. by rewrite Hb.
Qed.

Lemma between_decimal lo hi c :
  between lo hi c = true -> decimal lo = true -> decimal hi = true -> decimal c = true.
Proof. unfold decimal, between. rewrite !andb_true_iff, !Z.leb_le. lia. Qed.

Lemma in_two lo1 hi1 lo2 hi2 v r s :
  In (v, r) (two (rng lo1 hi1) (rng lo2 hi2) s) ->
  exists a b, s = String a (String b r) /\
              between lo1 hi1 a = true /\ between lo2 hi2 b = true /\
              v = 10 * digit_val a + digit_val b.
Proof.
  unfold two. intros (x & r1 & Ha & H)%in_then.
  apply in_then in H as (y & r2 & Hb & H). apply in_ret in H as [-> ->].
  apply in_rng in Ha as (a & -> & Ha & ->). apply in_rng in Hb as (b & -> & Hb & ->).
  by exists a, b.
Qed.

Lemma two_digits_read a b :
  decimal a = true -> decimal b = true ->
  one_or_two_digits (String a (String b "")) = Some (10 * digit_val a + digit_val b).
Proof. intros Ha Hb. unfold one_or_two_digits. by rewrite Ha, Hb. Qed.

Lemma one_digit_read a :
  decimal a = true -> one_or_two_digits (String a "") = Some (digit_val a).
Proof. intros Ha. unfold one_or_two_digits. by rewrite Ha. Qed.

Ltac in_decimal := eapply between_decimal; [eassumption|reflexivity|reflexivity].

Ltac two_digit_match H :=
  let a := fresh "a" in
  let b := fresh "b" in
  let Ha := fresh "Ha" in
  let Hb := fresh "Hb" in
  apply in_two in H as (a & b & -> & Ha & Hb & ->);
  exists (String a (String b "")); split; [reflexivity|];
  apply two_digits_read; in_decimal.

Ltac one_digit_match H :=
  let a := fresh "a" in
  let Ha := fresh "Ha" in
  apply in_rng in H as (a & -> & Ha & ->);
  exists (String a ""); split; [reflexivity|];
  apply one_digit_read; in_decimal.

Lemma in_dir_m v r s :
  In (v, r) (dir_m s) -> exists F, s = F +:+ r /\ one_or_two_digits F = Some v.
Proof.
  unfold dir_m, alt. rewrite !in_app_iff. intros [H|[H|H]].
  - two_digit_match H.
  - two_digit_match H.
  - one_digit_match H.
Qed.

Lemma in_dir_H v r s :
  In (v, r) (dir_H s) -> exists F, s = F +:+ r /\ one_or_two_digits F = Some v.
Proof.
  unfold dir_H, alt, dig. rewrite !in_app_iff. intros [H|[H|H]].
  - two_digit_match H.
  - two_digit_match H.
  - one_digit_match H.
Qed.

Lemma in_dir_M v r s :
  In (v, r) (dir_M s) -> exists F, s = F +:+ r /\ one_or_two_digits F = Some v.
Proof.
  unfold dir_M, alt, dig. rewrite !in_app_iff. intros [H|H].
  - two_digit_match H.
  - one_digit_match H.
Qed.

Lemma in_dir_S v r s :
  In (v, r) (dir_S s) -> exists F, s = F +:+ r /\ one_or_two_digits F = Some v.
Proof.
  unfold dir_S, alt, dig. rewrite !in_app_iff. intros [H|[H|H]].
  - two_digit_match H.
  - two_digit_match H.
  - one_digit_match H.
Qed.

Lemma lower_space c : Ascii.eqb (lower c) (lower " ") = true -> c = " "%char.
Proof.
  destruct c as [[] [] [] [] [] [] [] []]; vm_compute; intros H;
    try discriminate H; reflexivity.
Qed.

Lemma lower_separator c x :
  separator c -> Ascii.eqb (lower x) (lower c) = true -> x = c.
Proof.
  intros [->|[->| ->]];
    destruct x as [[] [] [] [] [] [] [] []]; vm_compute; intros H;
    try discriminate H; reflexivity.
Qed.

Lemma caseless_separator c X :
  separator c -> caseless X (String c "") = true -> X = String c "".
Proof.
  intros Hc. destruct X as [|x [|y X]]; simpl; try discriminate.
  - rewrite andb_true_r. intros H. by rewrite (lower_separator c x Hc H).
  - rewrite andb_false_r. discriminate.
Qed.

Lemma day_of_digits F v : one_or_two_digits F = Some v -> day_digits F = Some v.
Proof.
  destruct F as [|a [|b [|c F]]]; try done.
  unfold day_digits. destruct (Ascii.eqb_spec a " ") as [->|]; [|done].
  vm_compute. discriminate.
Qed.

Lemma in_dir_d v r s :
  In (v, r) (dir_d s) -> exists F, s = F +:+ r /\ day_digits F = Some v.
Proof.
  unfold dir_d, alt, dig. rewrite !in_app_iff.
  intros [H|[H|[H|[H|H]]]].
  - assert (exists F, s = F +:+ r /\ one_or_two_digits F = Some v) as (F & ? & ?)
      by two_digit_match H.
    exists F. split; [done|by apply day_of_digits].
  - assert (exists F, s = F +:+ r /\ one_or_two_digits F = Some v) as (F & ? & ?)
      by two_digit_match H.
    exists F. split; [done|by apply day_of_digits].
  - assert (exists F, s = F +:+ r /\ one_or_two_digits F = Some v) as (F & ? & ?)
      by two_digit_match H.
    exists F. split; [done|by apply day_of_digits].
  - assert (exists F, s = F +:+ r /\ one_or_two_digits F = Some v) as (F & ? & ?)
      by one_digit_match H.
    exists F. split; [done|by apply day_of_digits].
  - apply in_then in H as (u & r1 & Hsp & H).
    apply in_lit1 in Hsp as (c & -> & Hc). apply lower_space in Hc as ->.
    apply in_rng in H as (b & -> & Hb & ->).
    exists (String " " (String b "")). split; [reflexivity|].
    unfold day_digits. rewrite Ascii.eqb_refl.
    assert (Hd : decimal b = true) by in_decimal. by rewrite Hd.
Qed.

Lemma in_dir_Y v r s :
  In (v, r) (dir_Y s) -> exists Y, s = Y +:+ r /\ four_digits Y = Some v.
Proof.
  unfold dir_Y, dig. intros (a & r1 & Ha & H)%in_then.
  apply in_then in H as (b & r2 & Hb & H).
  apply in_then in H as (c & r3 & Hc & H).
  apply in_then in H as (d & r4 & Hd & H).
  apply in_ret in H as [-> ->].
  apply in_rng in Ha as (ca & -> & Ha & ->). apply in_rng in Hb as (cb & -> & Hb & ->).
  apply in_rng in Hc as (cc & -> & Hc & ->). apply in_rng in Hd as (cd & -> & Hd & ->).
  exists (String ca (String cb (String cc (String cd "")))). split; [reflexivity|].
  unfold four_digits, decimal. by rewrite Ha, Hb, Hc, Hd.
Qed.

(** Every match of the regular expression has consumed a prefix, the six
    fields and the separators between them. *)
Lemma in_beacon_re y mo d h mi s r n :
  In ((y, mo, d, h, mi, s), r) (beacon_re n) ->
  exists P Y Mo D H Mi S,
    n = lenient_name P Y Mo D H Mi (S +:+ r) /\
    caseless P "beacon_" = true /\
    four_digits Y = Some y /\ one_or_two_digits Mo = Some mo /\
    day_digits D = Some d /\ one_or_two_digits H = Some h /\
    one_or_two_digits Mi = Some mi /\ one_or_two_digits S = Some s.
Proof.
  unfold beacon_re. intros (u0 & r0 & H0 & H)%in_then.
  apply in_then in H as (y' & r1 & HY & H).
  apply in_then in H as (u1 & r2 & H1 & H).
  apply in_then in H as (mo' & r3 & HMo & H).
  apply in_then in H as (u2 & r4 & H2 & H).
  apply in_then in H as (d' & r5 & HD & H).
  apply in_then in H as (u3 & r6 & H3 & H).
  apply in_then in H as (h' & r7 & HH & H).
  apply in_then in H as (u4 & r8 & H4 & H).
  apply in_then in H as (mi' & r9 & HMi & H).
  apply in_then in H as (u5 & r10 & H5 & H).
  apply in_then in H as (s' & r11 & HS & H).
  apply in_ret in H as [Heq ->]. injection Heq as -> -> -> -> -> ->.
  apply in_lit in H0 as (P & -> & HP).
  apply in_dir_Y in HY as (Y & -> & HY).
  apply in_lit in H1 as (S1 & -> & HS1). apply caseless_separator in HS1 as ->; [|by left].
  apply in_dir_m in HMo as (Mo & -> & HMo).
  apply in_lit in H2 as (S2 & -> & HS2). apply caseless_separator in HS2 as ->; [|by left].
  apply in_dir_d in HD as (D & -> & HD).
  apply in_lit in H3 as (S3 & -> & HS3).
  apply caseless_separator in HS3 as ->; [|by right; left].
  apply in_dir_H in HH as (H & -> & HH).
  apply in_lit in H4 as (S4 & -> & HS4).
  apply caseless_separator in HS4 as ->; [|by right; right].
  apply in_dir_M in HMi as (Mi & -> & HMi).
  apply in_lit in H5 as (S5 & -> & HS5).
  apply caseless_separator in HS5 as ->; [|by right; right].
  apply in_dir_S in HS as (S & -> & HS).
  exists P, Y, Mo, D, H, Mi, S. split_and!; done.
Qed.

(** *** The first match on a name of the pattern *)

Lemma lit_caseless l P r : caseless P l = true -> lit l (P +:+ r) = [(tt, r)].
Proof.
  revert P. induction l as [|c l IH]; intros [|x P] H; try discriminate H.
  - reflexivity.
  - simpl in H. apply andb_prop in H as [Hx HP].
    cbn [lit]. change (String x P +:+ r) with (String x (P +:+ r)).
    unfold then_ at 1. unfold lit1, then_, chr. rewrite Hx. simpl.
    rewrite app_nil_r. by apply IH.
Qed.

Lemma digit_val_char v : digit_val (digit_char v) = v mod 10.
Proof. by_digit v. Qed.

Lemma decimal_digit_char v : decimal (digit_char v) = true.
Proof. by_digit v. Qed.

(** A field of one or two digits is one digit, or the two digits of a
    number below 100. *)
Lemma one_or_two_forms F v :
  one_or_two_digits F = Some v ->
  (exists a, F = String (digit_char a) "" /\ v = a mod 10) \/
  (exists n, 0 <= n <= 99 /\ F = pad2 n /\ v = n).
Proof.
  destruct F as [|a [|b [|c F]]]; simpl; try discriminate.
  - destruct (decimal a) eqn:Ha; [|discriminate]. intros [= <-].
    apply digit_of_char in Ha as (va & Hva & ->). left. exists va.
    split; [done|apply digit_val_char].
  - destruct (decimal a) eqn:Ha, (decimal b) eqn:Hb; simpl; try discriminate.
    intros [= <-].
    apply digit_of_char in Ha as (va & Hva & ->).
    apply digit_of_char in Hb as (vb & Hvb & ->).
    right. exists (10 * va + vb). split; [lia|]. split; [by apply pad2_digits|].
    rewrite !digit_val_char, !Z.mod_small by lia. done.
Qed.

Lemma one_or_two_pad2 n : 0 <= n <= 99 -> one_or_two_digits (pad2 n) = Some n.
Proof.
  intros Hn. unfold pad2, one_or_two_digits. rewrite !decimal_digit_char. simpl.
  rewrite !digit_val_char. f_equal. Z.div_mod_to_equations. lia.
Qed.

Lemma four_digits_pad4 y : 0 <= y <= 9999 -> four_digits (pad4 y) = Some y.
Proof.
  intros Hy. unfold pad4, pad2, four_digits. rewrite !decimal_digit_char. simpl.
  rewrite !digit_val_char. f_equal. by apply year_digits.
Qed.

Lemma dir_Y_four Y y r : four_digits Y = Some y -> dir_Y (Y +:+ r) = [(y, r)].
Proof.
  destruct Y as [|a [|b [|c [|d [|e Y]]]]]; simpl; try discriminate.
  destruct (decimal a) eqn:Ha, (decimal b) eqn:Hb, (decimal c) eqn:Hc,
           (decimal d) eqn:Hd; simpl; try discriminate.
  intros [= <-].
  apply digit_of_char in Ha as (va & Hva & ->).
  apply digit_of_char in Hb as (vb & Hvb & ->).
  apply digit_of_char in Hc as (vc & Hvc & ->).
  apply digit_of_char in Hd as (vd & Hvd & ->).
  rewrite !digit_val_char, !Z.mod_small by lia.
  rewrite pad4_digits by done. apply dir_Y_pad4. lia.
Qed.

Lemma dir_m_one a c rest :
  separator c ->
  dir_m (String (digit_char a) (String c rest)) =
    if (1 <=? a mod 10) && (a mod 10 <=? 12) then [(a mod 10, String c rest)] else [].
Proof. intros [->|[->| ->]]; by_digit a. Qed.

Lemma dir_d_one a c rest :
  separator c ->
  dir_d (String (digit_char a) (String c rest)) =
    if (1 <=? a mod 10) && (a mod 10 <=? 31) then [(a mod 10, String c rest)] else [].
Proof. intros [->|[->| ->]]; by_digit a. Qed.

Lemma dir_d_space a rest :
  dir_d (String " " (String (digit_char a) rest)) =
    if (1 <=? a mod 10) && (a mod 10 <=? 31) then [(a mod 10, rest)] else [].
Proof. by_digit a. Qed.

Lemma dir_H_one a c rest :
  separator c ->
  dir_H (String (digit_char a) (String c rest)) =
    if a mod 10 <=? 23 then [(a mod 10, String c rest)] else [].
Proof. intros [->|[->| ->]]; by_digit a. Qed.

Lemma dir_M_one a c rest :
  separator c ->
  dir_M (String (digit_char a) (String c rest)) =
    if a mod 10 <=? 59 then [(a mod 10, String c rest)] else [].
Proof. intros [->|[->| ->]]; by_digit a. Qed.

Lemma dir_S_one a : dir_S (String (digit_char a) "") = [(a mod 10, "")].
Proof. by_digit a. Qed.

Lemma matched_then_separator {A} (D : matcher Z) (v : bool) x s c rest
      (k : Z -> matcher A) :
  D s = (if v then [(x, String c rest)] else []) ->
  then_ D (fun x => then_ (lit (String c "")) (fun _ => k x)) s
  = if v then k x rest else [].
Proof.
  intros HD. unfold then_ at 1. rewrite HD. destruct v; simpl; [|reflexivity].
  rewrite (then_single _ _ _ _ _ (lit_separator_here c rest)). apply app_nil_r.
Qed.

(** A field of one or two digits before a separator: the directive reads
    the whole field, or the match fails. *)
Lemma field_separator {A} (D : matcher Z) (ok p : Z -> bool) F v c rest
      (k : Z -> matcher A) :
  (forall n r, 0 <= n <= 99 ->
     D (pad2 n +:+ r) =
       (if ok n then [(n, r)] else []) ++
       (if p n then [(n / 10, String (digit_char n) r)] else [])) ->
  (forall a r,
     D (String (digit_char a) (String c r)) =
       if ok (a mod 10) then [(a mod 10, String c r)] else []) ->
  separator c ->
  one_or_two_digits F = Some v ->
  then_ D (fun x => then_ (lit (String c "")) (fun _ => k x)) (F +:+ String c rest)
  = if ok v then k v rest else [].
Proof.
  intros H2 H1 Hc HF.
  apply one_or_two_forms in HF as [(a & -> & ->)|(n & Hn & -> & ->)].
  - change (String (digit_char a) "" +:+ String c rest)
      with (String (digit_char a) (String c rest)).
    by apply matched_then_separator.
  - by apply (field_then_separator D (ok n) (p n) n c rest k Hc), H2.
Qed.

Lemma day_separator {A} D v c rest (k : Z -> matcher A) :
  separator c ->
  day_digits D = Some v ->
  then_ dir_d (fun x => then_ (lit (String c "")) (fun _ => k x)) (D +:+ String c rest)
  = if (1 <=? v) && (v <=? 31) then k v rest else [].
Proof.
  intros Hc HD.
  assert (Hdigits : one_or_two_digits D = Some v ->
    then_ dir_d (fun x => then_ (lit (String c "")) (fun _ => k x)) (D +:+ String c rest)
    = if (1 <=? v) && (v <=? 31) then k v rest else []).
  { intros HF.
    exact (field_separator dir_d (fun n => (1 <=? n) && (n <=? 31)) (fun n => 10 <=? n)
             D v c rest k dir_d_matches (fun a r => dir_d_one a c r Hc) Hc HF). }
  destruct D as [|a [|b [|e D]]]; try (by apply Hdigits).
  unfold day_digits in HD. destruct (Ascii.eqb_spec a " ") as [->|]; [|by apply Hdigits].
  destruct (decimal b) eqn:Hb; [|discriminate]. injection HD as <-.
  apply digit_of_char in Hb as (vb & Hvb & ->).
  change (String " " (String (digit_char vb) "") +:+ String c rest)
    with (String " " (String (digit_char vb) (String c rest))).
  rewrite digit_val_char.
  by apply matched_then_separator, dir_d_space.
Qed.

(** The regular expression on a name that has the prefix, the first five
    fields and the separators: what is left is left to %S. *)
Lemma beacon_re_lenient P Y Mo D H Mi T y mo d h mi :
  caseless P "beacon_" = true ->
  four_digits Y = Some y ->
  one_or_two_digits Mo = Some mo ->
  day_digits D = Some d ->
  one_or_two_digits H = Some h ->
  one_or_two_digits Mi = Some mi ->
  beacon_re (lenient_name P Y Mo D H Mi T) =
    if (1 <=? mo) && (mo <=? 12) then
      if (1 <=? d) && (d <=? 31) then
        if h <=? 23 then
          if mi <=? 59 then then_ dir_S (fun s => ret (y, mo, d, h, mi, s)) T
          else []
        else []
      else []
    else [].
Proof.
  intros HP HY HMo HD HH HMi. unfold beacon_re, lenient_name.
  rewrite (then_single _ _ _ _ _ (lit_caseless "beacon_" P _ HP)).
  rewrite (then_single _ _ _ _ _ (dir_Y_four Y y _ HY)).
  do 5 (change (String ?a "" +:+ ?x) with (String a x)).
  rewrite (then_single _ _ _ _ _ (lit_separator_here _ _)).
  rewrite (field_separator dir_m (fun n => (1 <=? n) && (n <=? 12)) (fun n => 10 <=? n)
             Mo mo "-" _ _ dir_m_matches
             (fun a r => dir_m_one a "-" r ltac:(by left)) ltac:(by left) HMo).
  cbv beta. destruct ((1 <=? mo) && (mo <=? 12)); [|reflexivity].
  rewrite (day_separator D d "_" _ _ ltac:(by right; left) HD).
  destruct ((1 <=? d) && (d <=? 31)); [|reflexivity].
  rewrite (field_separator dir_H (fun n => n <=? 23) (fun _ => true)
             H h ":" _ _ dir_H_matches
             (fun a r => dir_H_one a ":" r ltac:(by right; right))
             ltac:(by right; right) HH).
  cbv beta. destruct (h <=? 23); [|reflexivity].
  rewrite (field_separator dir_M (fun n => n <=? 59) (fun _ => true)
             Mi mi ":" _ _ dir_M_matches
             (fun a r => dir_M_one a ":" r ltac:(by right; right))
             ltac:(by right; right) HMi).
  cbv beta. destruct (mi <=? 59); reflexivity.
Qed.

Lemma dir_S_head S s :
  one_or_two_digits S = Some s -> s <= 61 -> exists l, dir_S S = (s, "") :: l.
Proof.
  intros HS Hs. apply one_or_two_forms in HS as [(a & -> & ->)|(n & Hn & -> & ->)].
  - exists []. apply dir_S_one.
  - change (pad2 n) with (pad2 n +:+ ""). rewrite (dir_S_matches n "" Hn).
    rewrite (proj2 (Z.leb_le n 61) Hs). by eexists.
Qed.

(** *** The names that strptime accepts are those of the pattern *)

Lemma strptime_lenient n dt : strptime n = Returned dt <-> lenient_pattern n dt.
Proof.
  split.
  - unfold strptime.
    destruct (beacon_re n) as [|[[[[[[y mo] d] h] mi] s] rest] l] eqn:Hre; [discriminate|].
    destruct (String.eqb_spec rest "") as [->|]; simpl; [|discriminate].
    destruct (valid_date y mo d) eqn:Hvd; simpl; [|discriminate].
    destruct (valid_time h mi s) eqn:Hvt; simpl; [|discriminate].
    intros [= <-].
    assert (Hin : In ((y, mo, d, h, mi, s), "") (beacon_re n)) by (rewrite Hre; left; done).
    apply in_beacon_re in Hin as (P & Y & Mo & D & H & Mi & S & Hn & Hrest).
    rewrite string_app_nil_r in Hn.
    exists P, Y, Mo, D, H, Mi, S, y, mo, d, h, mi, s. split_and!; try done; apply Hrest.
  - intros (P & Y & Mo & D & H & Mi & S & y & mo & d & h & mi & s &
            -> & HP & HY & HMo & HD & HH & HMi & HS & Hvd & Hvt & ->).
    unfold strptime. rewrite (beacon_re_lenient P Y Mo D H Mi S y mo d h mi) by done.
    pose proof (days_in_month_le y mo) as Hdim.
    pose proof Hvd as Hvd'. pose proof Hvt as Hvt'.
    unfold valid_date in Hvd'. unfold valid_time in Hvt'.
    rewrite !andb_true_iff, !Z.leb_le in Hvd', Hvt'.
    assert (HA : (1 <=? mo) && (mo <=? 12) = true)
      by (apply andb_true_iff; rewrite !Z.leb_le; lia).
    assert (HB : (1 <=? d) && (d <=? 31) = true)
      by (apply andb_true_iff; rewrite !Z.leb_le; lia).
    assert (HC : (h <=? 23) = true) by (apply Z.leb_le; lia).
    assert (HE : (mi <=? 59) = true) by (apply Z.leb_le; lia).
    rewrite HA, HB, HC, HE.
    destruct (dir_S_head S s HS) as [l Hl]; [lia|].
    unfold then_. rewrite Hl. cbn -[valid_date valid_time].
    by rewrite Hvd, Hvt.
Qed.

Lemma strptime_not_lenient n :
  (forall dt, ~ lenient_pattern n dt) -> strptime n = Raised ValueError.
Proof.
  intros Hno. destruct (strptime n) as [dt|e] eqn:Hs.
  - exfalso. apply (Hno dt). by apply strptime_lenient.
  - by rewrite (strptime_raises_ValueError _ _ Hs).
Qed.

(** Text after a name of the strict pattern is not accepted. *)
Lemma strptime_strict_trailing n x :
  strict_pattern n = true -> x <> "" -> strptime (n +:+ x) = Raised ValueError.
Proof.
  intros Hn Hx.
  apply strict_pattern_fields in Hn as (y & mo & d & h & mi & s & Hr & ->).
  destruct Hr as (Hy & Hmo & Hd & Hh & Hmi & Hs).
  unfold strict_name. rewrite !string_app_assoc.
  fold (lenient_name "beacon_" (pad4 y) (pad2 mo) (pad2 d) (pad2 h) (pad2 mi) (pad2 s +:+ x)).
  unfold strptime.
  rewrite (beacon_re_lenient _ _ _ _ _ _ _ y mo d h mi);
    [|reflexivity|by apply four_digits_pad4|by apply one_or_two_pad2
     |by apply day_of_digits, one_or_two_pad2|by apply one_or_two_pad2
     |by apply one_or_two_pad2].
  destruct ((1 <=? mo) && (mo <=? 12)); [|reflexivity].
  destruct ((1 <=? d) && (d <=? 31)); [|reflexivity].
  destruct (h <=? 23); [|reflexivity].
  destruct (mi <=? 59); [|reflexivity].
  unfold then_. rewrite (dir_S_matches s x Hs).
  destruct x as [|c x]; [done|].
  destruct (s <=? 61); reflexivity.
Qed.

(** ** The order of the decode *)

(** What holds for every iteration order: with a 74-byte file and a server
    that accepts everything, the fields are decoded, stored and uploaded in
    the order in which the set is iterated, each from the bytes at the
    cursor. *)
Lemma decode_and_upload_follow_iteration iteration bs target token p w d f :
  set_iteration iteration ->
  strptime (name p) = Returned d ->
  fs w !! p = Some f ->
  length f = 74%nat ->
  replies_ok w (length (sent w)) 24 ->
  exists w1 w2,
    parse_beacon iteration bs p w
      = (Returned (replace_tzinfo UTC d, slices iteration f), w1) /\
    dict_keys (slices iteration f) = map field_name iteration /\
    upload_beacon iteration bs target token p w = (Returned tt, w2) /\
    map source (sent w2) = map source (sent w) ++ map field_name iteration.
Proof.
  intros Hit Hd Hf Hlen Hok.
  pose proof (parse_beacon_opened iteration bs p w d f Hd Hf) as Hp.
  rewrite unpack_fields_set_iteration in Hp by (done || lia).
  assert (Hn : length (slices iteration f) = 24%nat).
  { rewrite <- (set_iteration_length _ Hit).
    rewrite <- (length_map field_name iteration), <- (slices_keys iteration f).
    unfold dict_keys. by rewrite length_map. }
  destruct (upload_beacon_accepted _ _ target token _ _ _ _ _ _ Hp Hf)
    as (w2 & Hr & Hsent & _); [by rewrite Hn|].
  eexists _, w2. split_and!; [exact Hp|apply slices_keys|exact Hr|].
  rewrite Hsent, map_app, map_map. f_equal.
  rewrite <- (slices_keys iteration f). unfold dict_keys. reflexivity.
Qed.

(** *** Every iteration order but the declared one decodes some beacon wrongly *)

Lemma slices_app pre post f :
  slices (pre ++ post) f = slices pre f ++ slices post (drop (total_size pre) f).
Proof.
  revert f. induction pre as [|[[rs t] s] pre IH]; intros f; simpl; [done|].
  rewrite IH, drop_drop. reflexivity.
Qed.

Lemma dict_get_app_fresh k d1 d2 :
  k ∉ dict_keys d1 -> dict_get k (d1 ++ d2) = dict_get k d2.
Proof.
  induction d1 as [|[k' v'] d1 IH]; simpl; intros Hk; [done|].
  apply not_elem_of_cons in Hk as [Hne Hk].
  destruct (String.eqb_spec k' k) as [->|_]; [done|]. by apply IH.
Qed.

(** The slot of a field whose name does not occur before it holds the bytes
    at the offset that the fields before it take up. *)
Lemma dict_get_slices pre rs t s post f :
  rs ∉ map field_name pre ->
  dict_get rs (slices (pre ++ (rs, t, s) :: post) f)
  = Some [scalar t (le_uint (take s (drop (total_size pre) f)))].
Proof.
  intros Hfresh. rewrite slices_app, dict_get_app_fresh by by rewrite slices_keys.
  simpl. by rewrite String.eqb_refl.
Qed.

Lemma first_difference `{EqDecision A} (l1 l2 : list A) :
  length l1 = length l2 -> l1 <> l2 ->
  exists pre a1 a2 post1 post2,
    l1 = pre ++ a1 :: post1 /\ l2 = pre ++ a2 :: post2 /\ a1 <> a2.
Proof.
  revert l2. induction l1 as [|a l1 IH]; intros [|b l2] Hlen Hne;
    simpl in Hlen; try done.
  destruct (decide (a = b)) as [->|Hab].
  - destruct (IH l2) as (pre & a1 & a2 & p1 & p2 & -> & -> & Ha); [lia|congruence|].
    by exists (b :: pre), a1, a2, p1, p2.
  - by exists [], a, b, l1, l2.
Qed.

Lemma app_cons_middle {A} (pre : list A) h mid x post :
  pre ++ h :: mid ++ x :: post = (pre ++ h :: mid) ++ x :: post.
Proof. by rewrite <- app_assoc. Qed.

Lemma le_uint_zeros n : le_uint (replicate n x00) = 0.
Proof. induction n as [|n IH]; simpl; [done|]. rewrite IH. reflexivity. Qed.

Lemma wellsized_positive fld : wellsized fld -> (1 <= field_size fld)%nat.
Proof. unfold wellsized. intros ->. destruct (field_fmt fld); simpl; lia. Qed.

Lemma total_size_app l1 l2 : total_size (l1 ++ l2) = (total_size l1 + total_size l2)%nat.
Proof.
  unfold total_size. induction l1 as [|a l1 IH]; simpl; [done|].
  rewrite IH. lia.
Qed.

Lemma beacon_one_at_length o : (o <= 73)%nat -> length (beacon_one_at o) = 74%nat.
Proof.
  intros Ho. unfold beacon_one_at. rewrite length_app, length_replicate. simpl.
  rewrite length_replicate. lia.
Qed.

(** Read at the offset of the 01 byte, a field is 1. *)
Lemma beacon_one_at_here o s :
  (1 <= s)%nat -> le_uint (take s (drop o (beacon_one_at o))) = 1.
Proof.
  intros Hs. unfold beacon_one_at.
  rewrite drop_app_length' by by rewrite length_replicate.
  destruct s as [|s]; [lia|]. simpl.
  rewrite take_replicate, le_uint_zeros. reflexivity.
Qed.

(** Read at a later offset, a field is 0. *)
Lemma beacon_one_at_later o o' s :
  (o < o')%nat -> le_uint (take s (drop o' (beacon_one_at o))) = 0.
Proof.
  intros Ho. unfold beacon_one_at.
  replace o' with (length (replicate o x00) + S (o' - S o))%nat
    by (rewrite length_replicate; lia).
  rewrite drop_app_add. simpl.
  rewrite drop_replicate, take_replicate. apply le_uint_zeros.
Qed.

Lemma scalar_one_zero t : scalar t 1 <> scalar t 0.
Proof. destruct t; discriminate. Qed.

(** For every iteration order of BEACON_FORMAT other than the order of the
    literal there is a 74-byte beacon and a field whose decoded value is not
    the value at the field's declared place. *)
Lemma any_other_order_misdecodes l :
  set_iteration l ->
  l <> BEACON_FORMAT_literal ->
  exists f rs,
    length f = 74%nat /\
    dict_get rs (slices l f) <> dict_get rs (slices BEACON_FORMAT_literal f).
Proof.
  intros Hit Hne.
  pose proof (set_iteration_names_NoDup l Hit) as Hnames.
  pose proof (set_iteration_wellsized l Hit) as Hws.
  pose proof (set_iteration_total_size l Hit) as Htot.
  pose proof Hit as Hperm. apply set_iteration_literal in Hperm.
  destruct (first_difference l BEACON_FORMAT_literal)
    as (pre & g & h & post & post' & Hl & Hlit & Hgh);
    [by apply set_iteration_length|done|].
  assert (Hin : g ∈ post').
  { assert (Hg : g ∈ BEACON_FORMAT_literal).
    { rewrite <- Hperm, Hl. apply elem_of_app. right. left. }
    rewrite Hlit in Hg. apply elem_of_app in Hg as [Hg|Hg].
    - exfalso. rewrite Hl in Hnames. rewrite map_app in Hnames.
      apply NoDup_app in Hnames as (_ & Hdisj & _).
      apply (Hdisj (field_name g)).
      + by apply list_elem_of_fmap_2.
      + simpl. left.
    - apply elem_of_cons in Hg as [Hg|Hg]; [congruence|done]. }
  apply list_elem_of_split in Hin as (mid & post'' & ->).
  destruct g as [[rs t] s].
  assert (Hs : (1 <= s)%nat).
  { rewrite Hl in Hws. apply Forall_app in Hws as [_ Hws].
    apply Forall_cons in Hws as [Hg _]. by apply wellsized_positive in Hg. }
  assert (Hh : (1 <= field_size h)%nat).
  { pose proof literal_wellsized as Hw. rewrite Hlit in Hw.
    apply Forall_app in Hw as [_ Hw].
    apply Forall_cons in Hw as [Hw _]. by apply wellsized_positive. }
  assert (Ho : (total_size pre <= 73)%nat).
  { rewrite Hl, total_size_app in Htot. unfold total_size in Htot at 2.
    simpl in Htot. unfold field_size at 1 in Htot. simpl in Htot. lia. }
  exists (beacon_one_at (total_size pre)), rs.
  split; [by apply beacon_one_at_length|].
  rewrite Hl. rewrite dict_get_slices.
  2:{ rewrite Hl, map_app in Hnames. apply NoDup_app in Hnames as (_ & Hdisj & _).
      intros Hin. apply (Hdisj rs Hin). simpl. left. }
  rewrite Hlit, app_cons_middle.
  rewrite dict_get_slices.
  2:{ pose proof literal_names_NoDup as Hn. rewrite Hlit, app_cons_middle in Hn.
      rewrite map_app in Hn. apply NoDup_app in Hn as (_ & Hdisj & _).
      intros Hin. apply (Hdisj rs Hin). simpl. left. }
  rewrite beacon_one_at_here by done.
  rewrite beacon_one_at_later.
  2:{ rewrite total_size_app. unfold total_size. simpl. lia. }
  intros Heq. injection Heq as Heq. by apply scalar_one_zero in Heq.
Qed.

(** *** The round trip, in declaration order *)

Lemma byte_val_of_Z n : byte_val (byte_of_Z n) = n mod 256.
Proof.
  unfold byte_val, byte_of_Z.
  assert (Hm : 0 <= n mod 256 < 256) by (apply Z.mod_pos_bound; lia).
  destruct (Byte.of_N (Z.to_N (n mod 256))) as [b|] eqn:E.
  - apply Byte.to_of_N in E. rewrite E. lia.
  - apply Byte.of_N_None_iff in E. lia.
Qed.

Lemma length_le_bytes w n : length (le_bytes w n) = w.
Proof. revert n. induction w as [|w IH]; intros n; simpl; [done|by rewrite IH]. Qed.

Lemma le_uint_le_bytes w n :
  0 <= n < 256 ^ Z.of_nat w -> le_uint (le_bytes w n) = n.
Proof.
  revert n. induction w as [|w IH]; intros n Hn.
  - simpl in *. lia.
  - simpl. rewrite byte_val_of_Z, IH.
    + Z.div_mod_to_equations. lia.
    + rewrite Nat2Z.inj_succ, Z.pow_succ_r in Hn by lia.
      split; [apply Z.div_pos; lia|].
      apply Z.div_lt_upper_bound; lia.
Qed.

Lemma unpack_pack t v : fits t v -> unpack t (pack t v) = Returned [v].
Proof.
  intros [Hv Hr]. unfold unpack, pack.
  rewrite length_le_bytes, Nat.eqb_refl, le_uint_le_bytes by done.
  by rewrite <- Hv.
Qed.

Lemma unpack_fields_encode vals fields rest data :
  Forall wellsized fields ->
  Forall (fun fld => fits (field_fmt fld) (vals (field_name fld))) fields ->
  unpack_fields fields (encode_fields vals fields ++ rest) data
  = Returned (dict_update data (mapping_of vals fields)).
Proof.
  revert data. induction fields as [|[[rs t] s] fields IH]; intros data Hw Hfit.
  - reflexivity.
  - apply Forall_cons in Hw as [Hs Hw]. apply Forall_cons in Hfit as [Hv Hfit].
    unfold wellsized, field_size, field_fmt in Hs. simpl in Hs.
    unfold field_fmt, field_name in Hv. simpl in Hv.
    simpl.
    change (field_fmt (rs, t, s)) with t. change (field_name (rs, t, s)) with rs.
    rewrite <- !app_assoc.
    assert (Hlen : s = length (pack t (vals rs))).
    { unfold pack. by rewrite length_le_bytes. }
    rewrite (take_app_length' _ _ _ Hlen), (drop_app_length' _ _ _ Hlen).
    rewrite (unpack_pack _ _ Hv). by rewrite IH.
Qed.

Lemma mapping_of_keys vals fields :
  dict_keys (mapping_of vals fields) = map field_name fields.
Proof.
  induction fields as [|fld fields IH]; [done|].
  unfold mapping_of, dict_keys in *. simpl. by rewrite IH.
Qed.

(** Decoding in the declared order what was encoded in the declared order
    gives every value back in its slot. *)
Lemma round_trip_in_declaration_order vals :
  Forall (fun fld => fits (field_fmt fld) (vals (field_name fld))) BEACON_FORMAT_literal ->
  length (encode_beacon vals) = 74%nat /\
  unpack_fields BEACON_FORMAT_literal (encode_beacon vals) []
  = Returned (mapping_of vals BEACON_FORMAT_literal).
Proof.
  intros Hfit. split.
  - unfold encode_beacon, encode_fields. clear Hfit.
    unfold BEACON_FORMAT_literal, flat_map, pack.
    rewrite !length_app, !length_le_bytes. reflexivity.
  - pose proof (unpack_fields_encode vals BEACON_FORMAT_literal [] []
                  literal_wellsized Hfit) as H.
    rewrite app_nil_r in H. unfold encode_beacon.
    rewrite H. rewrite dict_update_fresh; [done|].
    rewrite mapping_of_keys. apply literal_names_NoDup.
Qed.

Lemma sample_vals_fit :
  Forall (fun fld => fits (field_fmt fld) (sample_vals (field_name fld)))
         BEACON_FORMAT_literal.
Proof. repeat constructor; vm_compute; congruence. Qed.

(** ** What a call can have done, whatever comes back *)

(** The loop of upload_beacon, for every sequence of replies: the requests
    of a prefix of the items have gone out; the loop either ran to its end
    with the files untouched, or returned after recording a rejection, or
    was left by a transport failure. *)
Lemma upload_records_outcome target token date items w r w' :
  upload_records target token date items w = (r, w') ->
  exists k,
    (k <= length items)%nat /\
    sent w' = sent w ++ map (record_request target token date) (take k items) /\
    opened w' = opened w /\
    moc_replies w' = moc_replies w /\
    fetched w' = fetched w /\
    ((r = Returned fell_through /\ k = length items /\
      fs w' = fs w /\ logged w' = logged w)
     \/
     (r = Returned returned /\
      exists body,
        fs w' = <[error_html := body]> (fs w) /\ logged w' = logged w ++ [ERROR_moc])
     \/
     (r = Raised ConnectionError /\ fs w' = fs w /\ logged w' = logged w)).
Proof.
  revert w. induction items as [|[rs v] items IH]; intros w H.
  - injection H as <- <-. exists 0%nat. simpl. rewrite app_nil_r.
    split_and!; try done. left. split_and!; reflexivity.
  - simpl in H. unfold bind at 1 in H. unfold requests_post in H.
    destruct (moc_replies w (length (sent w))) as [[|] c|]; simpl in H.
    + apply IH in H as (k & Hk & Hsent & Hop & Hrep & Hfe & Hcase).
      exists (S k). split_and!; [simpl; lia| |done|done|done|].
      * rewrite Hsent. simpl. by rewrite <- app_assoc.
      * destruct Hcase as [(Hr & -> & Hfs & Hlog)|[(Hr & body & Hfs & Hlog)|(Hr & Hfs & Hlog)]].
        -- left. split_and!; done.
        -- right. left. split; [done|]. by exists body.
        -- right. right. split_and!; done.
    + injection H as <- <-. exists 1%nat. split_and!; [simpl; lia|done|done|done|done|].
      right. left. split; [done|]. by exists c.
    + injection H as <- <-. exists 1%nat. split_and!; [simpl; lia|done|done|done|done|].
      right. right. split_and!; done.
Qed.

Lemma parse_beacon_effects iteration bs p w r w' :
  parse_beacon iteration bs p w = (r, w') ->
  fs w' = fs w /\ sent w' = sent w /\ moc_replies w' = moc_replies w /\
  fetched w' = fetched w /\
  (opened w' = opened w \/ opened w' = opened w ++ [p]).
Proof.
  intros H.
  destruct (strptime (name p)) as [d|e] eqn:Hd.
  2:{ rewrite (parse_beacon_bad_name _ _ _ _ _ Hd) in H. injection H as <- <-.
      split_and!; try done. by left. }
  destruct (fs w !! p) as [f|] eqn:Hf.
  2:{ rewrite (parse_beacon_missing _ _ _ _ _ Hd Hf) in H. injection H as <- <-.
      split_and!; try done. by left. }
  rewrite (parse_beacon_opened _ _ _ _ _ _ Hd Hf) in H. injection H as <- <-.
  rewrite opened_and_checked_fs, opened_and_checked_sent, opened_and_checked_replies.
  split_and!; try done.
  - unfold opened_and_checked. simpl. by destruct (_ =? _)%nat.
  - right. unfold opened_and_checked. simpl. by destruct (_ =? _)%nat.
Qed.

(** upload_beacon, for every world: either the decode failed and nothing
    but the log and the list of opened files has changed, or the file was
    decoded and the requests of a prefix of the data have gone out, after
    which the file was renamed, or a rejection was recorded in error.html,
    or a transport failure left the files as they were. *)
Lemma upload_beacon_outcome iteration bs target token p w r w' :
  upload_beacon iteration bs target token p w = (r, w') ->
  moc_replies w' = moc_replies w /\
  fetched w' = fetched w /\
  ((exists e, r = Raised e /\ parse_beacon iteration bs p w = (Raised e, w') /\
              sent w' = sent w /\ fs w' = fs w)
   \/
   (exists date data w1 k f,
      parse_beacon iteration bs p w = (Returned (date, data), w1) /\
      fs w !! p = Some f /\
      (k <= length data)%nat /\
      sent w' = sent w ++ map (record_request target token date) (take k data) /\
      opened w' = opened w ++ [p] /\
      ((r = Returned tt /\ k = length data /\
        fs w' = <[processed p := f]> (delete p (fs w)))
       \/ (r = Returned tt /\ exists body, fs w' = <[error_html := body]> (fs w))
       \/ (r = Raised ConnectionError /\ fs w' = fs w)))).
Proof.
  intros H.
  destruct (parse_beacon iteration bs p w) as [[[date data]|e] w1] eqn:Hp.
  2:{ rewrite (upload_beacon_parse_raised _ _ _ _ _ _ _ _ Hp) in H.
      injection H as <- <-.
      destruct (parse_beacon_effects _ _ _ _ _ _ Hp) as (Hfs & Hsent & Hrep & Hfe & _).
      split_and!; try done. left. by exists e. }
  rewrite (upload_beacon_parsed _ _ _ _ _ _ _ _ _ Hp) in H.
  pose proof Hp as Hp'.
  apply parse_beacon_returned in Hp' as (d & f & Hd & Hf & -> & Hu & ->).
  destruct (upload_records target token (replace_tzinfo UTC d) data
              (started (opened_and_checked bs p f w))) as [r2 w2] eqn:Hloop.
  apply upload_records_outcome in Hloop as (k & Hk & Hsent & Hop & Hrep & Hfe & Hcase).
  rewrite entered_sent in Hsent. rewrite entered_replies in Hrep.
  rewrite entered_fs in Hcase.
  assert (Hopened : opened w2 = opened w ++ [p]).
  { rewrite Hop. unfold started, opened_and_checked. simpl. by destruct (_ =? _)%nat. }
  assert (Hfetched : fetched w2 = fetched w).
  { rewrite Hfe. unfold started, opened_and_checked. simpl. by destruct (_ =? _)%nat. }
  destruct Hcase as [(-> & -> & Hfs & Hlog)|[(-> & body & Hfs & Hlog)|(-> & Hfs & Hlog)]].
  - unfold bind, log, rename in H. simpl in H. rewrite Hfs, Hf in H.
    injection H as <- <-. simpl. split_and!; try done.
    right. exists (replace_tzinfo UTC d), data, (opened_and_checked bs p f w), (length data), f.
    split_and!; try done. left. split_and!; done.
  - injection H as <- <-. split_and!; try done.
    right. exists (replace_tzinfo UTC d), data, (opened_and_checked bs p f w), k, f.
    split_and!; try done. right. left. split; [done|]. by exists body.
  - injection H as <- <-. split_and!; try done.
    right. exists (replace_tzinfo UTC d), data, (opened_and_checked bs p f w), k, f.
    split_and!; try done. right. right. split_and!; done.
Qed.

(** ** Invariants of the loop of main *)

Lemma for_each_invariant {A} (I : World -> Prop) (body : A -> M unit) l w r w' :
  I w ->
  (forall a w1 r1 w2, a ∈ l -> I w1 -> body a w1 = (r1, w2) -> I w2) ->
  for_each l body w = (r, w') -> I w'.
Proof.
  revert w. induction l as [|a l IH]; intros w Hw Hstep H.
  - injection H as <- <-. done.
  - simpl in H. unfold bind in H.
    destruct (body a w) as [[[]|e] w1] eqn:Hb.
    + apply (IH w1); [|intros; eapply Hstep; [by right|done..]|done].
      eapply Hstep; [left|done..].
    + injection H as <- <-. eapply Hstep; [left|done..].
Qed.

(** ** The paths that a call of upload_beacon can change *)

Lemma upload_beacon_files iteration bs target token p w r w' :
  upload_beacon iteration bs target token p w = (r, w') ->
  (forall q, q <> p -> q <> processed p -> q <> error_html ->
             fs w' !! q = fs w !! q) /\
  (forall f, fs w !! p = Some f ->
             fs w' !! p = Some f \/
             (fs w' !! p = None /\ fs w' !! processed p = Some f)).
Proof.
  intros H. apply upload_beacon_outcome in H as (_ & _ & [Hfail|Hok]).
  - destruct Hfail as (e & _ & _ & _ & Hfs). rewrite Hfs. split; [done|].
    intros f Hf. by left.
  - destruct Hok as (date & data & w1 & k & f & Hp & Hf & _ & _ & _ & Hcase).
    apply parse_beacon_returned in Hp as (d & f' & Hd & _ & _ & _ & _).
    pose proof (parsed_neq_error_html p d Hd) as Hperr.
    destruct Hcase as [(_ & _ & Hfs)|[(_ & body & Hfs)|(_ & Hfs)]]; rewrite Hfs.
    + split.
      * intros q Hq Hq' _. rewrite lookup_insert_ne by done.
        by rewrite lookup_delete_ne.
      * intros f0 Hf0. rewrite Hf in Hf0. injection Hf0 as <-. right.
        rewrite lookup_insert_ne by apply processed_neq.
        rewrite lookup_delete_eq, lookup_insert_eq. done.
    + split.
      * intros q _ _ Hq. by rewrite lookup_insert_ne.
      * intros f0 Hf0. left. by rewrite lookup_insert_ne.
    + split; [done|]. intros f0 Hf0. by left.
Qed.

(** ** The decoded data, by the bytes of the file *)

Lemma parsed_slices iteration bs p w date data w1 :
  set_iteration iteration ->
  parse_beacon iteration bs p w = (Returned (date, data), w1) ->
  exists f, fs w !! p = Some f /\ (74 <= length f)%nat /\ data = slices iteration f.
Proof.
  intros Hit Hp. apply parse_beacon_returned in Hp as (d & f & Hd & Hf & -> & Hu & ->).
  exists f. split; [done|].
  destruct (decide (74 <= length f)%nat) as [Hlen|Hlen].
  - split; [done|]. rewrite unpack_fields_set_iteration in Hu by done. congruence.
  - rewrite unpack_fields_short in Hu; [discriminate|by apply set_iteration_wellsized|].
    rewrite set_iteration_total_size by done. lia.
Qed.

(** ** Beacons on which the decode cannot fail *)

Lemma strptime_processed p : strptime (name (processed p)) = Raised ValueError.
Proof.
  destruct p as [dir n]. unfold processed, joinpath, parent, name. simpl.
  change ("processed_" +:+ n) with (String "p" ("rocessed_" +:+ n)).
  reflexivity.
Qed.

Lemma string_app_inj (pre a b : string) : pre +:+ a = pre +:+ b -> a = b.
Proof.
  induction pre as [|c pre IH]; intros H; [exact H|].
  change (String c (pre +:+ a) = String c (pre +:+ b)) in H.
  injection H as H. by apply IH.
Qed.

Lemma processed_inj p q : processed p = processed q -> p = q.
Proof.
  destruct p as [d1 n1], q as [d2 n2]. unfold processed, joinpath, parent, name. simpl.
  intros H. injection H as -> H. f_equal. by apply string_app_inj in H.
Qed.

Lemma decodable_neq_processed w p q : decodable w q -> q <> processed p.
Proof.
  intros (d & f & Hd & _) ->. rewrite strptime_processed in Hd. discriminate.
Qed.

Lemma decodable_neq_error_html w q : decodable w q -> q <> error_html.
Proof. intros (d & f & Hd & _). by apply (parsed_neq_error_html q d). Qed.

(** One decodable beacon and a server that accepts: 24 requests and the
    rename. *)
Lemma upload_beacon_decodable iteration bs target token p w :
  set_iteration iteration -> accepts_all w -> decodable w p ->
  exists w2 f,
    upload_beacon iteration bs target token p w = (Returned tt, w2) /\
    fs w !! p = Some f /\
    fs w2 = <[processed p := f]> (delete p (fs w)) /\
    length (sent w2) = (length (sent w) + 24)%nat /\
    moc_replies w2 = moc_replies w.
Proof.
  intros Hit Hacc (d & f & Hd & Hf & Hlen).
  pose proof (parse_beacon_opened iteration bs p w d f Hd Hf) as Hp.
  rewrite unpack_fields_set_iteration in Hp by done.
  assert (Hn : length (slices iteration f) = 24%nat).
  { rewrite <- (set_iteration_length _ Hit).
    rewrite <- (length_map field_name iteration), <- (slices_keys iteration f).
    unfold dict_keys. by rewrite length_map. }
  destruct (upload_beacon_accepted _ _ target token _ _ _ _ _ _ Hp Hf)
    as (w2 & Hr & Hsent & Hfs & _); [intros i _; apply Hacc|].
  exists w2, f. split_and!; try done.
  - rewrite Hsent, length_app, length_map. lia.
  - by destruct (upload_beacon_outcome _ _ _ _ _ _ _ _ Hr) as (Hrep & _).
Qed.

Lemma for_each_upload_frame iteration bs target token ps w r w' x :
  for_each ps (upload_beacon iteration bs target token) w = (r, w') ->
  x ∉ ps -> x ∉ map processed ps -> x <> error_html ->
  fs w' !! x = fs w !! x.
Proof.
  intros H Hx Hx' Herr.
  apply (for_each_invariant (fun w2 => fs w2 !! x = fs w !! x)) in H; [done|done|].
  intros a w1 r1 w2 Hin Hinv Hb.
  apply upload_beacon_files in Hb as [Hframe _].
  rewrite Hframe; [done| | |done].
  - intros ->. done.
  - intros ->. apply Hx'. by apply list_elem_of_fmap_2.
Qed.

Lemma upload_all_decodable iteration bs target token ps w :
  set_iteration iteration -> accepts_all w -> NoDup ps -> Forall (decodable w) ps ->
  exists w',
    for_each ps (upload_beacon iteration bs target token) w = (Returned tt, w') /\
    length (sent w') = (length (sent w) + 24 * length ps)%nat /\
    Forall (fun p => fs w' !! p = None /\ fs w' !! processed p = fs w !! p) ps.
Proof.
  intros Hit. revert w. induction ps as [|p ps IH]; intros w Hacc Hnd Hall.
  - exists w. split_and!; [done|simpl; lia|constructor].
  - apply NoDup_cons in Hnd as [Hp Hnd]. apply Forall_cons in Hall as [Hdp Hall].
    destruct (upload_beacon_decodable _ bs target token _ _ Hit Hacc Hdp)
      as (w2 & f & Hr & Hf & Hfs & Hsent & Hrep).
    assert (Hsame : forall q, q ∈ ps -> fs w2 !! q = fs w !! q).
    { intros q Hq. rewrite Hfs.
      assert (Hdq : decodable w q) by (by eapply Forall_forall in Hall).
      rewrite lookup_insert_ne by (symmetry; by eapply decodable_neq_processed).
      rewrite lookup_delete_ne; [done|]. by intros ->. }
    destruct (IH w2) as (w' & Hr' & Hsent' & Hall'); [|done| |].
    { intros k. rewrite Hrep. apply Hacc. }
    { apply Forall_forall. intros q Hq.
      assert (Hdq : decodable w q) by (by eapply Forall_forall in Hall).
      destruct Hdq as (d & fq & Hd & Hfq & Hlen). exists d, fq.
      by rewrite Hsame. }
    exists w'. split_and!.
    + by rewrite (for_each_returned _ _ _ _ _ Hr).
    + rewrite Hsent', Hsent. simpl. lia.
    + constructor.
      * split.
        -- rewrite (for_each_upload_frame _ _ _ _ _ _ _ _ p Hr'); [| done | |].
           ++ rewrite Hfs, lookup_insert_ne by apply processed_neq.
              apply lookup_delete_eq.
           ++ intros (a & Ha & _)%list_elem_of_fmap.
              by eapply (decodable_neq_processed w a p).
           ++ by eapply decodable_neq_error_html.
        -- rewrite (for_each_upload_frame _ _ _ _ _ _ _ _ (processed p) Hr').
           ++ by rewrite Hfs, lookup_insert_eq.
           ++ intros Hin. eapply Forall_forall in Hall; [|exact Hin].
              by eapply (decodable_neq_processed w p).
           ++ intros (a & Ha & Hin)%list_elem_of_fmap.
              apply processed_inj in Ha as ->. done.
           ++ apply processed_neq_error_html.
      * apply Forall_forall. intros q Hq.
        eapply Forall_forall in Hall'; [|exact Hq]. destruct Hall' as [Hq1 Hq2].
        split; [done|]. by rewrite Hq2, Hsame.
Qed.

Lemma glob_NoDup dir entries : NoDup entries -> NoDup (glob dir entries).
Proof.
  intros Hnd. unfold glob.
  apply (NoDup_fmap_2_strong (joinpath dir)); [|by apply NoDup_filter].
  intros a b _ _ H. by injection H.
Qed.

(** ** The replies and the number of requests *)

(** The replies to the next [n] POSTs are all successes, or one of them is
    the first that is not: a rejection or a transport failure. *)
Lemma replies_ok_or_first_failure w k n :
  replies_ok w k n \/
  exists i, (i < n)%nat /\ replies_ok w k i /\
            ((exists body, moc_replies w (k + i) = Responded false body) \/
             moc_replies w (k + i) = ConnectionFailed).
Proof.
  induction n as [|n IH].
  - left. intros i Hi. lia.
  - destruct IH as [Hok|(i & Hi & Hok & Hf)].
    + destruct (moc_replies w (k + n)) as [[|] c|] eqn:Hr.
      * left. intros i Hi. destruct (decide (i = n)) as [->|Hne]; [by exists c|].
        apply Hok. lia.
      * right. exists n. split_and!; [lia|done|]. left. by exists c.
      * right. exists n. split_and!; [lia|done|by right].
    + right. exists i. split_and!; [lia|done|done].
Qed.

Lemma first_failure_unique w k i j :
  replies_ok w k i -> (forall c, moc_replies w (k + i) <> Responded true c) ->
  replies_ok w k j -> (forall c, moc_replies w (k + j) <> Responded true c) ->
  i = j.
Proof.
  intros Hi Hfi Hj Hfj.
  destruct (lt_eq_lt_dec i j) as [[Hlt| ->]|Hlt]; [|done|].
  - destruct (Hj i Hlt) as [c Hc]. by destruct (Hfi c).
  - destruct (Hi j Hlt) as [c Hc]. by destruct (Hfj c).
Qed.

(** How many requests a call of upload_beacon makes for a decoded beacon:
    at least one, and as many as it takes to reach the first reply that is
    not a success, or the end of the data. *)
Lemma upload_beacon_posts iteration bs target token p w date data w1 :
  parse_beacon iteration bs p w = (Returned (date, data), w1) ->
  data <> [] ->
  exists k,
    (1 <= k <= length data)%nat /\
    sent (snd (upload_beacon iteration bs target token p w)) =
      sent w ++ map (record_request target token date) (take k data) /\
    (replies_ok w (length (sent w)) (length data) -> k = length data) /\
    (forall n, (n < length data)%nat ->
               replies_ok w (length (sent w)) n ->
               (forall c, moc_replies w (length (sent w) + n) <> Responded true c) ->
               k = S n).
Proof.
  intros Hp Hne.
  assert (Hlen : (1 <= length data)%nat) by (destruct data; [done|simpl; lia]).
  pose proof Hp as Hp'.
  apply parse_beacon_returned in Hp' as (d & f & Hd & Hf & _ & Hu & _).
  destruct (replies_ok_or_first_failure w (length (sent w)) (length data))
    as [Hok|(i & Hi & Hok & Hfail)].
  - destruct (upload_beacon_accepted _ _ target token _ _ _ _ _ _ Hp Hf Hok)
      as (w2 & Hr & Hsent & _).
    exists (length data). rewrite Hr. simpl. rewrite firstn_all.
    split_and!; [lia|lia|done|done|].
    intros n Hn _ Hbad. destruct (Hok n Hn) as [c Hc]. by destruct (Hbad c).
  - assert (Hbad : forall c, moc_replies w (length (sent w) + i) <> Responded true c).
    { intros c. destruct Hfail as [[body Hb]|Hb]; rewrite Hb; discriminate. }
    assert (Hsent : sent (snd (upload_beacon iteration bs target token p w)) =
                    sent w ++ map (record_request target token date) (take (S i) data)).
    { destruct Hfail as [[body Hb]|Hb].
      - destruct (upload_beacon_rejected _ _ target token _ _ _ _ _ _ _ Hp Hi Hok Hb)
          as (w2 & Hr & Hsent & _). by rewrite Hr.
      - destruct (upload_beacon_connection_failed _ _ target token _ _ _ _ _ _ Hp Hi Hok Hb)
          as (w2 & Hr & Hsent & _). by rewrite Hr. }
    exists (S i). split_and!; [lia|lia|done| |].
    + intros Hall. destruct (Hall i Hi) as [c Hc]. by destruct (Hbad c).
    + intros n Hn Hokn Hbadn. f_equal.
      by apply (first_failure_unique w (length (sent w))).
Qed.

(** ** The log on the paths that raise *)

Lemma unpack_fields_raises fields f data e :
  unpack_fields fields f data = Raised e -> e = StructError.
Proof.
  revert f data. induction fields as [|[[rs t] s] fields IH]; intros f data; simpl;
    [discriminate|].
  destruct (unpack t (take s f)) as [v|e'] eqn:Hu.
  - apply IH.
  - unfold unpack in Hu. destruct (_ =? _)%nat; [discriminate|].
    injection Hu as <-. by intros [= <-].
Qed.

Lemma opened_and_checked_logged bs p f w :
  logged (opened_and_checked bs p f w) =
  logged w ++ (if (length (take bs f) =? 74)%nat then []
               else [ERROR_size (length (take bs f))]).
Proof.
  unfold opened_and_checked. destruct (_ =? _)%nat; simpl; [by rewrite app_nil_r|done].
Qed.

(** parse_beacon raises in three ways: on the name, before anything is
    done; on opening the file, likewise; and in the decode, after the file
    was opened and its size checked. *)
Lemma parse_beacon_raised iteration bs p w e w1 :
  parse_beacon iteration bs p w = (Raised e, w1) ->
  (e = ValueError /\ w1 = w) \/
  (e = FileNotFoundError /\ w1 = w) \/
  (e = StructError /\
   exists f, fs w !! p = Some f /\ w1 = opened_and_checked bs p f w /\
             (set_iteration iteration -> (length f < 74)%nat)).
Proof.
  intros H.
  destruct (strptime (name p)) as [d|e'] eqn:Hd.
  2:{ rewrite (parse_beacon_bad_name _ _ _ _ _ Hd) in H. injection H as <- <-.
      left. split; [|done]. by eapply strptime_raises_ValueError. }
  destruct (fs w !! p) as [f|] eqn:Hf.
  2:{ rewrite (parse_beacon_missing _ _ _ _ _ Hd Hf) in H. injection H as <- <-.
      right. by left. }
  rewrite (parse_beacon_opened _ _ _ _ _ _ Hd Hf) in H.
  destruct (unpack_fields iteration f []) as [data|e'] eqn:Hu; [discriminate|].
  injection H as <- <-. right. right.
  split; [by eapply unpack_fields_raises|]. exists f. split_and!; [done|done|].
  intros Hit. destruct (decide (74 <= length f)%nat) as [Hlen|Hlen]; [|lia].
  rewrite unpack_fields_set_iteration in Hu by done. discriminate.
Qed.

(** No path on which upload_beacon raises writes a record of the exception:
    what the log has gained is the size record of parse_beacon, if the file
    has not 74 bytes, and the record that the upload begins, if the decode
    went through. *)
Lemma upload_beacon_raised_log iteration bs target token p w e w2 :
  upload_beacon iteration bs target token p w = (Raised e, w2) ->
  exists l,
    logged w2 = logged w ++ l /\
    Forall (fun r => r = INFO_uploading \/ exists n, r = ERROR_size n) l.
Proof.
  intros H.
  destruct (parse_beacon iteration bs p w) as [[[date data]|e'] w1] eqn:Hp.
  - rewrite (upload_beacon_parsed _ _ _ _ _ _ _ _ _ Hp) in H.
    apply parse_beacon_returned in Hp as (d & f & Hd & Hf & -> & Hu & ->).
    destruct (upload_records target token (replace_tzinfo UTC d) data
                (started (opened_and_checked bs p f w))) as [r3 w3] eqn:Hloop.
    apply upload_records_outcome in Hloop as (k & _ & _ & _ & _ & _ & Hcase).
    rewrite entered_fs in Hcase.
    destruct Hcase as [(-> & _ & Hfs & _)|[(-> & _)|(-> & _ & Hlog)]].
    + unfold bind, log, rename in H. simpl in H. rewrite Hfs, Hf in H. discriminate.
    + discriminate.
    + injection H as <- <-. rewrite Hlog. unfold started. simpl.
      rewrite opened_and_checked_logged, <- app_assoc. eexists. split; [reflexivity|].
      apply Forall_app. split; [|by repeat constructor].
      destruct (_ =? _)%nat; [constructor|].
      constructor; [right; by eexists|constructor].
  - rewrite (upload_beacon_parse_raised _ _ _ _ _ _ _ _ Hp) in H. injection H as <- <-.
    apply parse_beacon_raised in Hp as [[_ ->]|[[_ ->]|(_ & f & _ & -> & _)]].
    + exists []. by rewrite app_nil_r.
    + exists []. by rewrite app_nil_r.
    + rewrite opened_and_checked_logged. eexists. split; [reflexivity|].
      destruct (_ =? _)%nat; [constructor|].
      constructor; [right; by eexists|constructor].
Qed.

(** ** What the loop of main adds *)

Lemma for_each_upload_appends iteration bs target token ps w r w' :
  for_each ps (upload_beacon iteration bs target token) w = (r, w') ->
  exists os reqs, opened w' = opened w ++ os /\ sent w' = sent w ++ reqs.
Proof.
  intros H.
  apply (for_each_invariant
           (fun w2 => exists os reqs, opened w2 = opened w ++ os /\
                                      sent w2 = sent w ++ reqs)) in H; [done| |].
  - exists [], []. by rewrite !app_nil_r.
  - intros a w1 r1 w2 _ (os & reqs & Ho & Hs) Hb.
    apply upload_beacon_outcome in Hb as (_ & _ & [Hfail|Hok]).
    + destruct Hfail as (e & _ & Hp & Hsent & _).
      apply parse_beacon_effects in Hp as (_ & _ & _ & _ & [Hop|Hop]).
      * exists os, reqs. by rewrite Hop, Hsent.
      * exists (os ++ [a]), reqs. by rewrite Hop, Hsent, Ho, <- app_assoc.
    + destruct Hok as (date & data & w1' & k & f & _ & _ & _ & Hsent & Hop & _).
      eexists (os ++ [a]), (reqs ++ _).
      rewrite Hop, Hsent, Ho, Hs, <- !app_assoc. done.
Qed.

(** The first beacon of a scan, when it can be decoded: it is opened and the
    request for its first field goes out, whatever the server replies and
    whatever happens to the beacons after it. *)
Lemma scan_begins iteration bs target token q rest w d f :
  set_iteration iteration ->
  strptime (name q) = Returned d -> fs w !! q = Some f -> (74 <= length f)%nat ->
  exists item os reqs,
    head (slices iteration f) = Some item /\
    opened (snd (for_each (q :: rest) (upload_beacon iteration bs target token) w))
      = opened w ++ q :: os /\
    sent (snd (for_each (q :: rest) (upload_beacon iteration bs target token) w))
      = sent w ++ record_request target token (replace_tzinfo UTC d) item :: reqs.
Proof.
  intros Hit Hd Hf Hlen.
  pose proof (parse_beacon_opened iteration bs q w d f Hd Hf) as Hp.
  rewrite unpack_fields_set_iteration in Hp by done.
  assert (Hn : length (slices iteration f) = 24%nat).
  { rewrite <- (set_iteration_length _ Hit).
    rewrite <- (length_map field_name iteration), <- (slices_keys iteration f).
    unfold dict_keys. by rewrite length_map. }
  destruct (slices iteration f) as [|item items] eqn:Hsl; [discriminate Hn|].
  destruct (upload_beacon_posts _ _ target token _ _ _ _ _ Hp) as (k & Hk & Hsent & _);
    [done|].
  destruct k as [|k]; [lia|]. simpl in Hsent.
  destruct (upload_beacon iteration bs target token q w) as [r1 w2] eqn:Hb.
  simpl in Hsent.
  assert (Hop : opened w2 = opened w ++ [q]).
  { apply upload_beacon_outcome in Hb as (_ & _ & [Hfail|Hok]).
    - destruct Hfail as (e & _ & Hp' & _). rewrite Hp in Hp'. discriminate.
    - by destruct Hok as (_ & _ & _ & _ & _ & _ & _ & _ & _ & Ho & _). }
  exists item. simpl. unfold bind. rewrite Hb.
  destruct r1 as [[]|e].
  - destruct (for_each rest (upload_beacon iteration bs target token) w2)
      as [r w'] eqn:Hrest.
    apply for_each_upload_appends in Hrest as (os & reqs & Ho & Hs).
    simpl. exists os. eexists. split; [done|].
    rewrite Ho, Hs, Hop, Hsent, <- !app_assoc. simpl. done.
  - simpl. exists []. eexists. split; [done|]. rewrite Hop, Hsent. done.
Qed.

(** * The claims *)

(** ** C1: the order of decode and upload *)

(** C1.  The claim fails on the code: BEACON_FORMAT is a set, and the
    decode and the upload follow its iteration order.  With host_id
    iterated before sync, the beacon 01 00 00 ... is decoded as
    host_id = (1,), sync = (0,) and uploaded in that order, while the
    declared layout reads sync = (1,) from bytes 0-1 and host_id = (0,)
    from byte 2. *)
Theorem C1_decode_follows_the_set_not_the_declaration :
  set_iteration host_id_first /\
  map field_name host_id_first <> map field_name BEACON_FORMAT_literal /\
  fst (parse_beacon host_id_first 4096 sample_path accepting_world)
    = Returned (mk_datetime 2021 10 19 14 30 0 (Some UTC),
                slices host_id_first beacon_sync1) /\
  take 2 (slices host_id_first beacon_sync1)
    = [("host_id", [PyInt 1]); ("sync", [PyInt 0])] /\
  take 2 (slices BEACON_FORMAT_literal beacon_sync1)
    = [("sync", [PyInt 1]); ("host_id", [PyInt 0])] /\
  map source (sent (snd (sample_upload host_id_first accepting_world)))
    = map field_name host_id_first /\
  map value (take 2 (sent (snd (sample_upload host_id_first accepting_world))))
    = [[PyInt 1]; [PyInt 0]].
Proof.
  split; [apply (bool_decide_unpack _); vm_compute; reflexivity|].
  split; [vm_compute; discriminate|].
  vm_compute. repeat split; reflexivity.
Qed.

(** ** C2: the round trip *)

(** C2.  The claim fails on the code: the buffer that encodes sync = 1 and
    0 for the other fields, laid out in declaration order, is decoded with
    host_id iterated before sync as host_id = (1,) and sync = (0,): two
    values come back in the wrong slots. *)
Theorem C2_round_trip_breaks_out_of_declaration_order :
  set_iteration host_id_first /\
  encode_beacon sample_vals = beacon_sync1 /\
  length (encode_beacon sample_vals) = 74%nat /\
  fst (parse_beacon host_id_first 4096 sample_path
         (sample_world (encode_beacon sample_vals) accept_all))
    = Returned (mk_datetime 2021 10 19 14 30 0 (Some UTC),
                slices host_id_first beacon_sync1) /\
  dict_get "sync" (slices host_id_first beacon_sync1) = Some [PyInt 0] /\
  sample_vals "sync" = PyInt 1 /\
  dict_get "host_id" (slices host_id_first beacon_sync1) = Some [PyInt 1] /\
  sample_vals "host_id" = PyInt 0 /\
  fst (parse_beacon BEACON_FORMAT_literal 4096 sample_path
         (sample_world (encode_beacon sample_vals) accept_all))
    = Returned (mk_datetime 2021 10 19 14 30 0 (Some UTC),
                mapping_of sample_vals BEACON_FORMAT_literal).
Proof.
  split; [apply (bool_decide_unpack _); vm_compute; reflexivity|].
  vm_compute. repeat split; reflexivity.
Qed.

(** ** C3: partial failure of an upload *)

(** C3, as stated, fails on the return value: when the second request of a
    beacon is rejected, upload_beacon returns [None], which is also what it
    returns when every request succeeds.  No failure value comes back. *)
Lemma C3_rejected_returns_like_accepted :
  moc_replies rejecting_world 1 = Responded false sample_body /\
  fst (sample_upload BEACON_FORMAT_literal rejecting_world) = Returned tt /\
  fst (sample_upload BEACON_FORMAT_literal accepting_world) = Returned tt /\
  fs (snd (sample_upload BEACON_FORMAT_literal rejecting_world)) !! sample_path
    = Some beacon_sync1 /\
  fs (snd (sample_upload BEACON_FORMAT_literal accepting_world)) !! sample_path
    = None.
Proof. vm_compute. repeat split; reflexivity. Qed.

(** C3 (amended).  If the reply to the Nth upload request of a beacon (here
    request [n], counted from 0) is a non-success response, then the
    requests before it and itself were each made exactly once and in the
    order of the decoded data, no later request is made, the raw response
    body is written to error.html (replacing what was there), the error is
    logged, upload_beacon returns normally with [None] - the value it also
    returns after a complete upload - and the beacon file keeps its name.
    The file is renamed when all field requests succeed, and only then: a
    transport failure at request [n] leaves the file system as it was. *)
Theorem C3_partial_failure iteration bs target token p w date data w1 :
  parse_beacon iteration bs p w = (Returned (date, data), w1) ->
  (forall n body,
      (n < length data)%nat ->
      replies_ok w (length (sent w)) n ->
      moc_replies w (length (sent w) + n) = Responded false body ->
      exists w2,
        upload_beacon iteration bs target token p w = (Returned tt, w2) /\
        sent w2 = sent w ++ map (record_request target token date) (take (S n) data) /\
        fs w2 = <[error_html := body]> (fs w) /\
        fs w2 !! error_html = Some body /\
        fs w2 !! p = fs w !! p /\
        fs w2 !! processed p = fs w !! processed p /\
        last (logged w2) = Some ERROR_moc)
  /\
  (replies_ok w (length (sent w)) (length data) ->
      exists w2 f,
        upload_beacon iteration bs target token p w = (Returned tt, w2) /\
        sent w2 = sent w ++ map (record_request target token date) data /\
        fs w !! p = Some f /\
        fs w2 = <[processed p := f]> (delete p (fs w)) /\
        fs w2 !! p = None /\
        fs w2 !! processed p = Some f)
  /\
  (forall n,
      (n < length data)%nat ->
      replies_ok w (length (sent w)) n ->
      moc_replies w (length (sent w) + n) = ConnectionFailed ->
      exists w2,
        upload_beacon iteration bs target token p w = (Raised ConnectionError, w2) /\
        fs w2 = fs w).
Proof.
  intros Hp. split_and!.
  - intros n body Hn Hok Hrej.
    destruct (upload_beacon_rejected _ _ target token _ _ _ _ _ _ _ Hp Hn Hok Hrej)
      as (w2 & Hr & Hsent & Hfs & Hlog).
    apply parse_beacon_returned in Hp as (d & f & Hd & Hf & -> & Hu & ->).
    exists w2. split_and!; try done.
    + rewrite Hfs. apply lookup_insert_eq.
    + rewrite Hfs. apply lookup_insert_ne.
      intros Heq. by apply (parsed_neq_error_html p d).
    + rewrite Hfs. apply lookup_insert_ne.
      intros Heq. by apply (processed_neq_error_html p).
    + rewrite Hlog.
      change [INFO_uploading; ERROR_moc] with ([INFO_uploading] ++ [ERROR_moc]).
      rewrite app_assoc. apply last_snoc.
  - intros Hok.
    pose proof Hp as Hp'.
    apply parse_beacon_returned in Hp' as (d & f & Hd & Hf & -> & Hu & ->).
    destruct (upload_beacon_accepted _ _ target token _ _ _ _ _ _ Hp Hf Hok)
      as (w2 & Hr & Hsent & Hfs & Hlog).
    exists w2, f. split_and!; try done.
    + rewrite Hfs. rewrite lookup_insert_ne by apply processed_neq.
      apply lookup_delete_eq.
    + rewrite Hfs. apply lookup_insert_eq.
  - intros n Hn Hok Hfail.
    destruct (upload_beacon_connection_failed _ _ target token _ _ _ _ _ _ Hp Hn Hok Hfail)
      as (w2 & Hr & Hsent & Hfs & Hlog).
    exists w2. done.
Qed.

Lemma C3_partial_failure_witness :
  exists w2,
    sample_upload BEACON_FORMAT_literal rejecting_world = (Returned tt, w2) /\
    fs w2 !! error_html = Some sample_body /\
    fs w2 !! sample_path = Some beacon_sync1 /\
    map source (sent w2) = ["sync"; "host_id"].
Proof.
  pose proof (C3_partial_failure BEACON_FORMAT_literal 4096 "http://moc" "Token secret"
                sample_path rejecting_world _ _ _ eq_refl) as (Hrej & _ & _).
  destruct (Hrej 1%nat sample_body) as (w2 & Hr & Hsent & _ & Herr & Hp & _ & _).
  - vm_compute. lia.
  - intros i Hi. exists []. destruct i as [|i]; [reflexivity|lia].
  - reflexivity.
  - exists w2. split_and!; try done.
    rewrite Hsent. reflexivity.
Defined.

(** ** C4: a processed beacon is not selected again *)

(** C4.  A beacon file that is successfully processed (it decodes and every
    field request succeeds) is renamed, in the same directory, to its name
    with 'processed_' prepended; under that name it is selected neither by
    the bootstrap scan, whatever the directory listing, nor by the filter of
    on_created, which returns at once without touching anything. *)
Theorem C4_processed_is_never_reselected iteration bs target token p w date data w1 :
  parse_beacon iteration bs p w = (Returned (date, data), w1) ->
  replies_ok w (length (sent w)) (length data) ->
  exists w2 f,
    upload_beacon iteration bs target token p w = (Returned tt, w2) /\
    fs w !! p = Some f /\
    fs w2 = <[processed p := f]> (delete p (fs w)) /\
    fs w2 !! p = None /\
    fs w2 !! processed p = Some f /\
    parent (processed p) = parent p /\
    name (processed p) = "processed_" +:+ name p /\
    (forall dir entries, processed p ∉ glob dir entries) /\
    (forall iteration' bs' target' token' w',
        on_created iteration' bs' target' token' (processed p) w' = (Returned tt, w')).
Proof.
  intros Hp Hok.
  pose proof Hp as Hp'.
  apply parse_beacon_returned in Hp' as (d & f & Hd & Hf & -> & Hu & ->).
  destruct (upload_beacon_accepted _ _ target token _ _ _ _ _ _ Hp Hf Hok)
    as (w2 & Hr & Hsent & Hfs & Hlog).
  exists w2, f.
  split_and!; try done; try (intros; apply on_created_filtered, processed_not_prefixed).
  - rewrite Hfs. rewrite lookup_insert_ne by apply processed_neq.
    apply lookup_delete_eq.
  - rewrite Hfs. apply lookup_insert_eq.
  - intros dir entries (_ & _ & Hsel)%glob_selected.
    rewrite processed_not_prefixed in Hsel. discriminate.
Qed.

Lemma C4_processed_is_never_reselected_witness :
  exists w2,
    sample_upload BEACON_FORMAT_literal accepting_world = (Returned tt, w2) /\
    fs w2 !! sample_path = None /\
    fs w2 !! processed sample_path = Some beacon_sync1 /\
    processed sample_path ∉ glob "/beacons" ["processed_beacon_2021-10-19_14:30:00"].
Proof.
  destruct (C4_processed_is_never_reselected BEACON_FORMAT_literal 4096 "http://moc"
              "Token secret" sample_path accepting_world _ _ _ eq_refl)
    as (w2 & f & Hr & Hf & _ & Hgone & Hthere & _ & _ & Hglob & _).
  - intros i _. exists []. reflexivity.
  - exists w2. split_and!.
    + exact Hr.
    + exact Hgone.
    + rewrite Hthere. vm_compute in Hf. by injection Hf as <-.
    + apply Hglob.
Defined.

(** ** C5: the time stamp in the file name *)

(** C5, as stated, fails: the format is not strict.  A name with one-digit
    fields deviates from the strict pattern and is parsed all the same. *)
Lemma C5_one_digit_fields_are_accepted :
  strict_pattern (name lenient_path) = false /\
  name lenient_path = "beacon_2021-1-9_4:3:0" /\
  fst (parse_beacon BEACON_FORMAT_literal 4096 lenient_path lenient_world)
    = Returned (mk_datetime 2021 1 9 4 3 0 (Some UTC),
                slices BEACON_FORMAT_literal beacon_sync1).
Proof. vm_compute. repeat split; reflexivity. Qed.

(** C5 (amended).  parse_beacon parses the time stamp from the file's base
    name with the strptime format beacon_%Y-%m-%d_%H:%M:%S and tags the
    result UTC; the name 'beacon_2021-10-19_14:30:00' yields
    2021-10-19T14:30:00Z.  For a name of ASCII characters, the names that
    are parsed are exactly those of the pattern [lenient_pattern]:
    'beacon_' in any letter case, a year of four digits, '-', a month of
    one or two digits, '-', a day of one or two digits or of a space and a
    digit, '_', an hour, ':', a minute, ':', a second, of one or two digits
    each, and nothing after them, where the fields denote an existing date
    and a time of the day.  On a name of the pattern parse_beacon goes on
    to open the file and does not raise ValueError; on every other name
    parse_beacon raises ValueError to its caller before the file is opened.
    So every name of the strict pattern beacon_<4-digit year>-<2-digit
    month>-<2-digit day>_<2-digit hour>:<2-digit minute>:<2-digit second>
    is parsed to its fields when they denote an existing date and a time of
    the day, and is a ValueError otherwise; a name of the strict pattern
    followed by any text is a ValueError, and so is 'beacon_bad-name'. *)
Theorem C5_filename_timestamp iteration bs p w :
  ascii_name (name p) = true ->
  (forall date data w1,
      parse_beacon iteration bs p w = (Returned (date, data), w1) ->
      exists d, strptime (name p) = Returned d /\ lenient_pattern (name p) d /\
                date = replace_tzinfo UTC d /\ tz date = Some UTC)
  /\
  (forall d, strptime (name p) = Returned d <-> lenient_pattern (name p) d)
  /\
  (forall d, lenient_pattern (name p) d ->
     fst (parse_beacon iteration bs p w) <> Raised ValueError /\
     (forall f, fs w !! p = Some f ->
        opened (snd (parse_beacon iteration bs p w)) = opened w ++ [p]))
  /\
  ((forall d, ~ lenient_pattern (name p) d) ->
     parse_beacon iteration bs p w = (Raised ValueError, w))
  /\
  (strict_pattern (name p) = true ->
     exists y mo d h mi s,
       in_range y mo d h mi s /\ name p = strict_name y mo d h mi s /\
       strptime (name p) =
         if valid_date y mo d && valid_time h mi s
         then Returned (mk_datetime y mo d h mi s None)
         else Raised ValueError)
  /\
  (forall n x,
      name p = n +:+ x -> strict_pattern n = true -> x <> "" ->
      parse_beacon iteration bs p w = (Raised ValueError, w))
  /\
  (name p = "beacon_2021-10-19_14:30:00" ->
     strptime (name p) = Returned (mk_datetime 2021 10 19 14 30 0 None))
  /\
  (name p = "beacon_bad-name" ->
     parse_beacon iteration bs p w = (Raised ValueError, w)).
Proof.
  intros _. split_and!.
  - intros date data w1 Hp.
    apply parse_beacon_returned in Hp as (d & f & Hd & Hf & -> & Hu & ->).
    exists d. split_and!; [done|by apply strptime_lenient|done|done].
  - intros d. apply strptime_lenient.
  - intros d Hd. apply strptime_lenient in Hd.
    destruct (fs w !! p) as [f|] eqn:Hf.
    + rewrite (parse_beacon_opened _ _ _ _ _ _ Hd Hf). split.
      * destruct (unpack_fields iteration f []) as [data|e] eqn:Hu; [done|].
        apply unpack_fields_raises in Hu as ->. done.
      * intros f' _. simpl. unfold opened_and_checked. simpl.
        by destruct (_ =? _)%nat.
    + rewrite (parse_beacon_missing _ _ _ _ _ Hd Hf). split; [done|]. intros f' Hf'.
      discriminate Hf'.
  - intros Hno. by apply parse_beacon_bad_name, strptime_not_lenient.
  - intros Hs. apply strict_pattern_fields in Hs as (y & mo & d & h & mi & s & Hr & Hn).
    exists y, mo, d, h, mi, s. split_and!; [done|done|].
    rewrite Hn. by apply strptime_strict_name.
  - intros n x Hn Hs Hx. apply parse_beacon_bad_name. rewrite Hn.
    by apply strptime_strict_trailing.
  - intros ->. reflexivity.
  - intros Hn. apply parse_beacon_bad_name. rewrite Hn. reflexivity.
Qed.

Lemma C5_filename_timestamp_witness :
  strptime (name sample_path) = Returned (mk_datetime 2021 10 19 14 30 0 None) /\
  lenient_pattern (name sample_path) (mk_datetime 2021 10 19 14 30 0 None) /\
  parse_beacon BEACON_FORMAT_literal 4096 ("/beacons", "beacon_bad-name") two_files_world
    = (Raised ValueError, two_files_world) /\
  parse_beacon BEACON_FORMAT_literal 4096 ("/beacons", "beacon_2021/10/19_14:30:00")
               two_files_world
    = (Raised ValueError, two_files_world) /\
  parse_beacon BEACON_FORMAT_literal 4096 ("/beacons", "beacon_2021-10-19_14:30:00.bak")
               two_files_world
    = (Raised ValueError, two_files_world).
Proof.
  split_and!.
  - destruct (C5_filename_timestamp BEACON_FORMAT_literal 4096 sample_path accepting_world
                eq_refl) as (_ & _ & _ & _ & _ & _ & Hex & _).
    apply Hex. reflexivity.
  - destruct (C5_filename_timestamp BEACON_FORMAT_literal 4096 sample_path accepting_world
                eq_refl) as (_ & Hiff & _).
    apply Hiff. reflexivity.
  - destruct (C5_filename_timestamp BEACON_FORMAT_literal 4096
                ("/beacons", "beacon_bad-name") two_files_world eq_refl)
      as (_ & _ & _ & _ & _ & _ & _ & Hbad).
    apply Hbad. reflexivity.
  - destruct (C5_filename_timestamp BEACON_FORMAT_literal 4096
                ("/beacons", "beacon_2021/10/19_14:30:00") two_files_world eq_refl)
      as (_ & Hiff & _ & Hno & _).
    apply Hno. intros d Hd. apply Hiff in Hd. vm_compute in Hd. discriminate Hd.
  - destruct (C5_filename_timestamp BEACON_FORMAT_literal 4096
                ("/beacons", "beacon_2021-10-19_14:30:00.bak") two_files_world eq_refl)
      as (_ & _ & _ & _ & _ & Htrail & _).
    apply (Htrail "beacon_2021-10-19_14:30:00" ".bak"); [reflexivity|reflexivity|].
    discriminate.
Defined.

(** ** C6: the schema check at start-up *)

(** C6.  The start-up check compares the names that the remote reports with
    the names of the table as sets: two reports with the same set of names,
    in whatever order and with whatever repetitions, have the same outcome.
    For every remote set that differs from the 24 required names main raises
    before it has opened, uploaded or renamed any file.  When the sets are
    equal the check passes, having touched no file and made no POST, and
    main goes on to upload the existing beacons: the first listed beacon
    that can be decoded is opened and the request for its first field goes
    out, whatever the server replies; with a server that accepts, every
    listed beacon is posted in 24 requests and renamed. *)
Theorem C6_schema_check iteration bs args entries w suffixes :
  set_iteration iteration ->
  moc_record_sources w = GetResponded true (Results suffixes) ->
  (list_to_set suffixes ≠@{gset string} list_to_set all_names ->
     exists w',
       main iteration bs args entries w = (Raised Exception, w') /\
       fs w' = fs w /\ sent w' = sent w /\ opened w' = opened w)
  /\
  (list_to_set suffixes =@{gset string} list_to_set all_names ->
     exists w',
       check_database iteration (arg_target args) ("Token " +:+ arg_token args) w
         = (Returned tt, w') /\
       fs w' = fs w /\ sent w' = sent w /\ opened w' = opened w /\
       main iteration bs args entries w =
       for_each (glob (arg_path args) entries)
                (upload_beacon iteration bs (arg_target args)
                               ("Token " +:+ arg_token args)) w')
  /\
  (list_to_set suffixes =@{gset string} list_to_set all_names ->
   forall q rest d f,
     glob (arg_path args) entries = q :: rest ->
     strptime (name q) = Returned d -> fs w !! q = Some f -> (74 <= length f)%nat ->
     exists item os reqs,
       head (slices iteration f) = Some item /\
       opened (snd (main iteration bs args entries w)) = opened w ++ q :: os /\
       sent (snd (main iteration bs args entries w)) =
         sent w ++ record_request (arg_target args) ("Token " +:+ arg_token args)
                                  (replace_tzinfo UTC d) item :: reqs)
  /\
  (list_to_set suffixes =@{gset string} list_to_set all_names ->
   accepts_all w -> NoDup entries ->
   Forall (decodable w) (glob (arg_path args) entries) ->
   exists w',
     main iteration bs args entries w = (Returned tt, w') /\
     length (sent w') = (length (sent w) + 24 * length (glob (arg_path args) entries))%nat /\
     Forall (fun p => fs w' !! p = None /\ fs w' !! processed p = fs w !! p)
            (glob (arg_path args) entries))
  /\
  (forall w2 suffixes2 target token,
      moc_record_sources w2 = GetResponded true (Results suffixes2) ->
      list_to_set suffixes2 =@{gset string} list_to_set suffixes ->
      fst (check_database iteration target token w2)
      = fst (check_database iteration target token w)).
Proof.
  intros Hit Hget.
  pose proof (check_database_results iteration (arg_target args)
                ("Token " +:+ arg_token args) w suffixes Hget) as Hcheck.
  rewrite (set_iteration_names _ Hit) in Hcheck. fold all_names in Hcheck.
  split_and!.
  - intros Hcmp. rewrite decide_False in Hcheck by done.
    eexists. unfold main, bind. rewrite Hcheck. done.
  - intros Hcmp. rewrite decide_True in Hcheck by done.
    eexists. unfold main, bind. rewrite Hcheck. done.
  - intros Hcmp q rest d f Hglob Hd Hf Hlen. rewrite decide_True in Hcheck by done.
    unfold main, bind. rewrite Hcheck, Hglob.
    apply (scan_begins iteration bs (arg_target args) ("Token " +:+ arg_token args)
             q rest (checked (arg_target args) ("Token " +:+ arg_token args) w) d f);
      done.
  - intros Hcmp Hacc Hnd Hdec. rewrite decide_True in Hcheck by done.
    destruct (upload_all_decodable iteration bs (arg_target args)
                ("Token " +:+ arg_token args) (glob (arg_path args) entries)
                (checked (arg_target args) ("Token " +:+ arg_token args) w))
      as (w' & Hr & Hsent & Hall); [done|done|by apply glob_NoDup|done|].
    exists w'. split_and!; [|done|done].
    unfold main, bind. rewrite Hcheck. exact Hr.
  - intros w2 suffixes2 target token Hget2 Hsame. clear Hcheck.
    rewrite (check_database_results _ _ _ _ _ Hget2),
            (check_database_results _ _ _ _ _ Hget), Hsame.
    destruct (decide (list_to_set suffixes
                      =@{gset string} list_to_set (map field_name iteration)));
      reflexivity.
Qed.

Lemma C6_schema_check_witness :
  (exists w',
      sample_main ["beacon_2021-10-19_14:30:00"] two_sources_world = (Raised Exception, w') /\
      fs w' = fs two_sources_world /\ sent w' = [] /\ opened w' = []) /\
  (exists w',
      sample_main ["beacon_2021-10-19_14:30:00"] accepting_world =
      for_each (glob "/beacons" ["beacon_2021-10-19_14:30:00"])
               (upload_beacon BEACON_FORMAT_literal 4096 "http://moc" "Token secret") w') /\
  (exists os reqs,
      opened (snd (sample_main ["beacon_2021-10-19_14:30:00"] rejecting_world))
        = sample_path :: os /\
      sent (snd (sample_main ["beacon_2021-10-19_14:30:00"] rejecting_world))
        = record_request "http://moc" "Token secret"
                         (mk_datetime 2021 10 19 14 30 0 (Some UTC))
                         ("sync", [PyInt 1]) :: reqs) /\
  (exists w',
      sample_main ["beacon_2021-10-19_14:30:00"] accepting_world = (Returned tt, w') /\
      length (sent w') = 24%nat /\
      fs w' !! sample_path = None /\
      fs w' !! processed sample_path = Some beacon_sync1).
Proof.
  assert (Hit : set_iteration BEACON_FORMAT_literal).
  { apply (bool_decide_unpack _). vm_compute. reflexivity. }
  split_and!.
  - destruct (C6_schema_check BEACON_FORMAT_literal 4096 sample_args
                ["beacon_2021-10-19_14:30:00"] two_sources_world ["sync"; "host_id"]
                Hit eq_refl) as (Hbad & _).
    destruct Hbad as (w' & Hr & Hfs & Hsent & Hopened).
    + apply (bool_decide_unpack _). vm_compute. reflexivity.
    + exists w'. split_and!; [exact Hr|exact Hfs|exact Hsent|exact Hopened].
  - destruct (C6_schema_check BEACON_FORMAT_literal 4096 sample_args
                ["beacon_2021-10-19_14:30:00"] accepting_world all_names
                Hit eq_refl) as (_ & Hgood & _).
    destruct Hgood as (w' & _ & _ & _ & _ & Hmain); [reflexivity|].
    exists w'. exact Hmain.
  - destruct (C6_schema_check BEACON_FORMAT_literal 4096 sample_args
                ["beacon_2021-10-19_14:30:00"] rejecting_world all_names
                Hit eq_refl) as (_ & _ & Hfirst & _).
    destruct (Hfirst eq_refl sample_path [] (mk_datetime 2021 10 19 14 30 0 None)
                beacon_sync1)
      as (item & os & reqs & Hitem & Hop & Hsent).
    + reflexivity.
    + vm_compute. reflexivity.
    + reflexivity.
    + vm_compute. lia.
    + injection Hitem as <-. exists os, reqs. split; [exact Hop|exact Hsent].
  - destruct (C6_schema_check BEACON_FORMAT_literal 4096 sample_args
                ["beacon_2021-10-19_14:30:00"] accepting_world all_names
                Hit eq_refl) as (_ & _ & _ & Hall & _).
    destruct Hall as (w' & Hr & Hsent & Hfiles).
    + reflexivity.
    + intros k. exists []. reflexivity.
    + apply (bool_decide_unpack _). vm_compute. reflexivity.
    + constructor; [|constructor].
      exists (mk_datetime 2021 10 19 14 30 0 None), beacon_sync1.
      split_and!; [vm_compute; reflexivity|reflexivity|vm_compute; lia].
    + exists w'. apply Forall_inv in Hfiles as [Hgone Hthere].
      split_and!; [exact Hr|exact Hsent|exact Hgone|exact Hthere].
Defined.

(** ** C7: a beacon of the wrong size *)

(** C7, as stated, fails for every short file; here one of 73 bytes: the
    anomaly is logged, the decode is attempted, and the struct.error of the
    field that comes up short leaves parse_beacon, upload_beacon and main. *)
Lemma C7_short_beacon_raises :
  length short_beacon = 73%nat /\
  fst (parse_beacon BEACON_FORMAT_literal 4096 sample_path short_world)
    = Raised StructError /\
  fst (sample_main ["beacon_2021-10-19_14:30:00"] short_world) = Raised StructError /\
  logged (snd (sample_main ["beacon_2021-10-19_14:30:00"] short_world))
    = [INFO_checking; ERROR_size 73].
Proof. vm_compute. repeat split; reflexivity. Qed.

(** C7 (amended).  For every beacon file whose byte length differs from 74,
    parse_beacon logs the size anomaly and still attempts the field-by-field
    decode.  When the file is longer than 74 bytes the attempt succeeds and
    decodes the first 74 bytes.  When it is shorter, the attempt raises
    struct.error at the first field for which fewer bytes than its width
    are left, and the exception leaves parse_beacon and upload_beacon
    uncaught, before any request is made and with the file not renamed, and
    ends the loop of the caller. *)
Theorem C7_wrong_size iteration bs target token p w d f :
  set_iteration iteration ->
  (74 < bs)%nat ->
  strptime (name p) = Returned d ->
  fs w !! p = Some f ->
  length f ≠ 74%nat ->
  exists w1,
    logged w1 = logged w ++ [ERROR_size (length f `min` bs)] /\
    sent w1 = sent w /\ fs w1 = fs w /\
    ((length f < 74)%nat ->
       parse_beacon iteration bs p w = (Raised StructError, w1) /\
       upload_beacon iteration bs target token p w = (Raised StructError, w1) /\
       forall rest,
         for_each (p :: rest) (upload_beacon iteration bs target token) w
         = (Raised StructError, w1)) /\
    ((74 < length f)%nat ->
       parse_beacon iteration bs p w =
         (Returned (replace_tzinfo UTC d, slices iteration (take 74 f)), w1)).
Proof.
  intros Hit Hbs Hd Hf Hlen.
  exists (opened_and_checked bs p f w).
  pose proof (parse_beacon_opened iteration bs p w d f Hd Hf) as Hp.
  split_and!.
  - unfold opened_and_checked. rewrite length_take.
    destruct (Nat.eqb_spec (bs `min` length f) 74) as [Heq|Hne]; [lia|].
    simpl. by rewrite (Nat.min_comm bs).
  - apply opened_and_checked_sent.
  - apply opened_and_checked_fs.
  - intros Hshort.
    rewrite unpack_fields_short in Hp.
    + split_and!; [done|by apply upload_beacon_parse_raised|].
      intros rest. by apply for_each_raised, upload_beacon_parse_raised.
    + by apply set_iteration_wellsized.
    + by rewrite set_iteration_total_size.
  - intros Hlong.
    rewrite unpack_fields_set_iteration in Hp by (done || lia).
    rewrite Hp. rewrite slices_take; [done|].
    by rewrite set_iteration_total_size.
Qed.

Lemma C7_wrong_size_witness :
  exists w1,
    logged w1 = [ERROR_size 73] /\
    parse_beacon BEACON_FORMAT_literal 4096 sample_path short_world
      = (Raised StructError, w1).
Proof.
  assert (Hit : set_iteration BEACON_FORMAT_literal).
  { apply (bool_decide_unpack _). vm_compute. reflexivity. }
  destruct (C7_wrong_size BEACON_FORMAT_literal 4096 "http://moc" "Token secret"
              sample_path short_world (mk_datetime 2021 10 19 14 30 0 None)
              short_beacon Hit) as (w1 & Hlog & _ & _ & Hshort & _).
  - lia.
  - vm_compute. reflexivity.
  - reflexivity.
  - vm_compute. lia.
  - destruct Hshort as [Hp _]; [vm_compute; lia|].
    exists w1. split; [exact Hlog|exact Hp].
Defined.

(** ** C8: transport failures *)

(** C8, as stated, fails: with the same beacon and the same server but for
    the second reply, a rejection makes upload_beacon write error.html, log
    the error and return, while a transport failure makes it raise, with
    error.html absent and nothing logged about it. *)
Lemma C8_transport_failure_is_not_a_rejection :
  fst (sample_upload BEACON_FORMAT_literal rejecting_world) = Returned tt /\
  fst (sample_upload BEACON_FORMAT_literal disconnected_world) = Raised ConnectionError /\
  fs (snd (sample_upload BEACON_FORMAT_literal rejecting_world)) !! error_html
    = Some sample_body /\
  fs (snd (sample_upload BEACON_FORMAT_literal disconnected_world)) !! error_html
    = None /\
  logged (snd (sample_upload BEACON_FORMAT_literal rejecting_world))
    = [INFO_uploading; ERROR_moc] /\
  logged (snd (sample_upload BEACON_FORMAT_literal disconnected_world))
    = [INFO_uploading].
Proof. vm_compute. repeat split; reflexivity. Qed.

(** C8 (amended).  A transport-level failure during an upload request is not
    handled by upload_beacon: the exception of requests.post propagates out
    of it.  As after a remote rejection, the requests up to the failing one
    have been made once each, no later request is made and the beacon file
    keeps its name; unlike after a rejection, the file system is left as it
    was (nothing is written to error.html) and no error is logged. *)
Theorem C8_transport_failure_raises iteration bs target token p w date data w1 n :
  parse_beacon iteration bs p w = (Returned (date, data), w1) ->
  (n < length data)%nat ->
  replies_ok w (length (sent w)) n ->
  moc_replies w (length (sent w) + n) = ConnectionFailed ->
  exists w2,
    upload_beacon iteration bs target token p w = (Raised ConnectionError, w2) /\
    sent w2 = sent w ++ map (record_request target token date) (take (S n) data) /\
    fs w2 = fs w /\
    logged w2 = logged w1 ++ [INFO_uploading].
Proof. apply upload_beacon_connection_failed. Qed.

Lemma C8_transport_failure_raises_witness :
  exists w2,
    sample_upload BEACON_FORMAT_literal disconnected_world = (Raised ConnectionError, w2) /\
    map source (sent w2) = ["sync"; "host_id"] /\
    fs w2 = fs disconnected_world.
Proof.
  destruct (C8_transport_failure_raises BEACON_FORMAT_literal 4096 "http://moc"
              "Token secret" sample_path disconnected_world _ _ _ 1%nat eq_refl)
    as (w2 & Hr & Hsent & Hfs & _).
  - vm_compute. lia.
  - intros i Hi. exists []. destruct i as [|i]; [reflexivity|lia].
  - reflexivity.
  - exists w2. split_and!; try done. rewrite Hsent. reflexivity.
Defined.

(** ** C9: which failures stay local to a beacon *)

(** C9, as stated, fails for decode errors: with a wrongly named file listed
    before a good beacon, the bootstrap scan of main raises ValueError at
    the first file; nothing is logged about it, the good beacon is neither
    uploaded nor renamed. *)
Lemma C9_decode_error_ends_the_scan :
  fst (sample_main ["beacon_bad-name"; "beacon_2021-10-19_14:30:00"] two_files_world)
    = Raised ValueError /\
  sent (snd (sample_main ["beacon_bad-name"; "beacon_2021-10-19_14:30:00"] two_files_world))
    = [] /\
  logged (snd (sample_main ["beacon_bad-name"; "beacon_2021-10-19_14:30:00"] two_files_world))
    = [INFO_checking] /\
  fs (snd (sample_main ["beacon_bad-name"; "beacon_2021-10-19_14:30:00"] two_files_world))
    !! sample_path = Some beacon_sync1 /\
  fst (sample_main ["beacon_2021-10-19_14:30:00"] two_files_world) = Returned tt.
Proof. vm_compute. repeat split; reflexivity. Qed.

(** C9 (amended).  A remote rejection of an upload is confined to its
    beacon: upload_beacon logs the error and returns, so the loop of main
    over the existing beacons goes on with the next file, and on_created
    returns to the watcher.  A failure that is an exception is not confined,
    and the program writes no log record of it.  A decode failure of
    parse_beacon (a malformed name, a missing file, too few bytes) leaves
    upload_beacon as the same exception, before any request and with the
    files untouched; after a malformed name or a missing file the log is as
    it was, and after too few bytes it has gained only the size record that
    parse_beacon wrote before the decode.  A transport failure leaves
    upload_beacon after the record that the upload begins.  Whatever
    exception leaves upload_beacon, the log has gained no other record than
    these two, and the exception leaves the loop of main and on_created too,
    in the world in which it left upload_beacon, so that the files after it
    are not processed. *)
Theorem C9_rejection_is_local_exceptions_are_not
        iteration bs target token p rest w :
  (forall date data w1 n body,
      parse_beacon iteration bs p w = (Returned (date, data), w1) ->
      (n < length data)%nat ->
      replies_ok w (length (sent w)) n ->
      moc_replies w (length (sent w) + n) = Responded false body ->
      exists w2,
        upload_beacon iteration bs target token p w = (Returned tt, w2) /\
        last (logged w2) = Some ERROR_moc /\
        for_each (p :: rest) (upload_beacon iteration bs target token) w =
        for_each rest (upload_beacon iteration bs target token) w2)
  /\
  (forall e w1,
      parse_beacon iteration bs p w = (Raised e, w1) ->
      upload_beacon iteration bs target token p w = (Raised e, w1) /\
      sent w1 = sent w /\ fs w1 = fs w /\
      (((e = ValueError \/ e = FileNotFoundError) /\ logged w1 = logged w)
       \/
       (e = StructError /\
        exists f,
          fs w !! p = Some f /\
          logged w1 = logged w ++ (if (length (take bs f) =? 74)%nat then []
                                   else [ERROR_size (length (take bs f))]) /\
          (set_iteration iteration ->
             (length f < 74)%nat /\
             logged w1 = logged w ++ [ERROR_size (length (take bs f))]))))
  /\
  (forall date data w1 n,
      parse_beacon iteration bs p w = (Returned (date, data), w1) ->
      (n < length data)%nat ->
      replies_ok w (length (sent w)) n ->
      moc_replies w (length (sent w) + n) = ConnectionFailed ->
      exists w2,
        upload_beacon iteration bs target token p w = (Raised ConnectionError, w2) /\
        logged w2 = logged w1 ++ [INFO_uploading])
  /\
  (forall e w2,
      upload_beacon iteration bs target token p w = (Raised e, w2) ->
      for_each (p :: rest) (upload_beacon iteration bs target token) w = (Raised e, w2) /\
      exists l,
        logged w2 = logged w ++ l /\
        Forall (fun r => r = INFO_uploading \/ exists n, r = ERROR_size n) l)
  /\
  (startswith (name p) BEACON_FILE_PREFIX = true ->
   on_created iteration bs target token p w =
   upload_beacon iteration bs target token p
                 (set_logged (logged w ++ [INFO_detected p]) w)).
Proof.
  split_and!.
  - intros date data w1 n body Hp Hn Hok Hrej.
    destruct (upload_beacon_rejected _ _ target token _ _ _ _ _ _ _ Hp Hn Hok Hrej)
      as (w2 & Hr & Hsent & Hfs & Hlog).
    exists w2. split_and!; [done| |by apply for_each_returned].
    rewrite Hlog.
    change [INFO_uploading; ERROR_moc] with ([INFO_uploading] ++ [ERROR_moc]).
    rewrite app_assoc. apply last_snoc.
  - intros e w1 Hp. split; [by apply upload_beacon_parse_raised|].
    destruct (parse_beacon_fs_sent iteration bs p w) as [Hfs Hsent].
    rewrite Hp in Hfs, Hsent. split_and!; [done|done|].
    apply parse_beacon_raised in Hp as [[-> ->]|[[-> ->]|(-> & f & Hf & -> & Hshort)]].
    + left. split; [by left|done].
    + left. split; [by right|done].
    + right. split; [done|]. exists f. split_and!; [done|apply opened_and_checked_logged|].
      intros Hit. specialize (Hshort Hit). split; [done|].
      rewrite opened_and_checked_logged.
      destruct (Nat.eqb_spec (length (take bs f)) 74) as [Heq|]; [|done].
      rewrite length_take in Heq. lia.
  - intros date data w1 n Hp Hn Hok Hfail.
    destruct (upload_beacon_connection_failed _ _ target token _ _ _ _ _ _ Hp Hn Hok Hfail)
      as (w2 & Hr & _ & _ & Hlog).
    by exists w2.
  - intros e w2 Hr. split; [by apply for_each_raised|].
    by apply (upload_beacon_raised_log _ _ _ _ _ _ _ _ Hr).
  - apply on_created_selected.
Qed.

Lemma C9_rejection_is_local_exceptions_are_not_witness :
  (exists w2,
      sample_upload BEACON_FORMAT_literal rejecting_world = (Returned tt, w2) /\
      for_each [sample_path; sample_path] (upload_beacon BEACON_FORMAT_literal 4096
                                              "http://moc" "Token secret") rejecting_world =
      for_each [sample_path] (upload_beacon BEACON_FORMAT_literal 4096
                                "http://moc" "Token secret") w2) /\
  for_each [("/beacons", "beacon_bad-name"); sample_path]
           (upload_beacon BEACON_FORMAT_literal 4096 "http://moc" "Token secret")
           two_files_world = (Raised ValueError, two_files_world) /\
  (exists w1,
      sample_upload BEACON_FORMAT_literal short_world = (Raised StructError, w1) /\
      logged w1 = [ERROR_size 73]) /\
  (exists w2,
      sample_upload BEACON_FORMAT_literal disconnected_world
        = (Raised ConnectionError, w2) /\
      logged w2 = [INFO_uploading]).
Proof.
  assert (Hit : set_iteration BEACON_FORMAT_literal).
  { apply (bool_decide_unpack _). vm_compute. reflexivity. }
  split_and!.
  - destruct (C9_rejection_is_local_exceptions_are_not BEACON_FORMAT_literal 4096
                "http://moc" "Token secret" sample_path [sample_path] rejecting_world)
      as (Hrej & _).
    destruct (Hrej _ _ _ 1%nat sample_body eq_refl) as (w2 & Hr & _ & Hloop).
    + vm_compute. lia.
    + intros i Hi. exists []. destruct i as [|i]; [reflexivity|lia].
    + reflexivity.
    + exists w2. split; [exact Hr|exact Hloop].
  - destruct (C9_rejection_is_local_exceptions_are_not BEACON_FORMAT_literal 4096
                "http://moc" "Token secret" ("/beacons", "beacon_bad-name")
                [sample_path] two_files_world)
      as (_ & Hparse & _ & Hloop & _).
    apply Hloop. apply (Hparse ValueError two_files_world). reflexivity.
  - destruct (C9_rejection_is_local_exceptions_are_not BEACON_FORMAT_literal 4096
                "http://moc" "Token secret" sample_path [] short_world)
      as (_ & Hparse & _).
    destruct (Hparse StructError
                (opened_and_checked 4096 sample_path short_beacon short_world))
      as (Hr & _ & _ & [[[He|He] _]|(_ & f & Hf & _ & Hlog)]).
    + vm_compute. reflexivity.
    + discriminate He.
    + discriminate He.
    + eexists. split; [exact Hr|].
      destruct (Hlog Hit) as [_ Hl]. injection Hf as <-. exact Hl.
  - destruct (C9_rejection_is_local_exceptions_are_not BEACON_FORMAT_literal 4096
                "http://moc" "Token secret" sample_path [] disconnected_world)
      as (_ & _ & Hconn & _).
    destruct (Hconn _ _ _ 1%nat eq_refl) as (w2 & Hr & Hlog).
    + vm_compute. lia.
    + intros i Hi. exists []. destruct i as [|i]; [reflexivity|lia].
    + reflexivity.
    + exists w2. split; [exact Hr|exact Hlog].
Defined.

(** ** C10: the value of a record is the tuple that unpack returned *)

(** C10.  For every successfully decoded beacon the measurement mapping has
    one entry for each field of the table, in the order of the decode, and
    the value stored under a field's name is the tuple that the binary
    unpack returned for that field's bytes (the bytes of the file at the
    offset that the fields decoded before it take up): a tuple of one
    element, not an unwrapped scalar.  upload_beacon makes at least one
    create request, and one after the other for the entries of the mapping
    up to the first reply that is not a success (all of them, if there is
    none); each request carries, as its 'value', the tuple stored under the
    name it carries as its 'source'. *)
Theorem C10_value_is_the_unpacked_tuple iteration bs target token p w date data w1 :
  set_iteration iteration ->
  parse_beacon iteration bs p w = (Returned (date, data), w1) ->
  exists f,
    fs w !! p = Some f /\
    dict_keys data = map field_name iteration /\
    (forall pre rs t s post,
        iteration = pre ++ (rs, t, s) :: post ->
        exists x,
          unpack t (take s (drop (total_size pre) f)) = Returned [x] /\
          dict_get rs data = Some [x]) /\
    exists k,
      (1 <= k <= length data)%nat /\
      sent (snd (upload_beacon iteration bs target token p w)) =
        sent w ++ map (fun kv => mk_request (target +:+ "/api/objects/records/") token
                                            (isoformat date) (snd kv) (fst kv))
                      (take k data) /\
      (replies_ok w (length (sent w)) (length data) -> k = length data) /\
      (forall n, (n < length data)%nat ->
                 replies_ok w (length (sent w)) n ->
                 (forall c, moc_replies w (length (sent w) + n) <> Responded true c) ->
                 k = S n).
Proof.
  intros Hit Hp.
  destruct (parsed_slices _ _ _ _ _ _ _ Hit Hp) as (f & Hf & Hlen & Hdata).
  exists f. split_and!; [done|by rewrite Hdata, slices_keys| |].
  - intros pre rs t s post Hsplit.
    exists (scalar t (le_uint (take s (drop (total_size pre) f)))).
    pose proof (set_iteration_wellsized _ Hit) as Hw.
    pose proof (set_iteration_total_size _ Hit) as Htot.
    pose proof (set_iteration_names_NoDup _ Hit) as Hnd.
    rewrite Hsplit in Hw, Htot, Hnd.
    apply Forall_app in Hw as [_ Hw]. apply Forall_cons in Hw as [Hs _].
    unfold wellsized, field_size, field_fmt in Hs. simpl in Hs.
    rewrite total_size_app in Htot. unfold total_size at 2 in Htot. simpl in Htot.
    split.
    + unfold unpack. rewrite length_take, length_drop.
      replace (s `min` (length f - total_size pre))%nat with s by lia.
      by rewrite Hs, Nat.eqb_refl.
    + rewrite Hdata, Hsplit. apply dict_get_slices.
      rewrite map_app in Hnd. apply NoDup_app in Hnd as (_ & Hdisj & _).
      intros Hin. apply (Hdisj rs Hin). left.
  - assert (Hne : data <> []).
    { intros ->. pose proof (set_iteration_length _ Hit) as Hl.
      apply (f_equal (@length _)) in Hdata.
      rewrite <- (length_map fst (slices iteration f)) in Hdata.
      change (map fst (slices iteration f)) with (dict_keys (slices iteration f)) in Hdata.
      rewrite slices_keys, length_map, Hl in Hdata. discriminate Hdata. }
    apply (upload_beacon_posts _ _ target token _ _ _ _ _ Hp Hne).
Qed.

Lemma C10_value_is_the_unpacked_tuple_witness :
  exists date data w1,
    parse_beacon BEACON_FORMAT_literal 4096 sample_path rejecting_world
      = (Returned (date, data), w1) /\
    dict_keys data = all_names /\
    unpack LE_H (take 2 beacon_sync1) = Returned [PyInt 1] /\
    dict_get "sync" data = Some [PyInt 1] /\
    sent (snd (upload_beacon BEACON_FORMAT_literal 4096 "http://moc" "Token secret"
                             sample_path rejecting_world)) =
    map (fun kv => mk_request ("http://moc" +:+ "/api/objects/records/") "Token secret"
                              (isoformat date) (snd kv) (fst kv))
        (take 2 data).
Proof.
  assert (Hit : set_iteration BEACON_FORMAT_literal).
  { apply (bool_decide_unpack _). vm_compute. reflexivity. }
  eexists _, _, _. split; [vm_compute; reflexivity|].
  destruct (C10_value_is_the_unpacked_tuple BEACON_FORMAT_literal 4096 "http://moc"
              "Token secret" sample_path rejecting_world _ _ _ Hit eq_refl)
    as (f & Hf & Hkeys & Hfield & k & Hk & Hsent & _ & Hfirst).
  injection Hf as <-.
  destruct (Hfield [] "sync" LE_H 2%nat (tail BEACON_FORMAT_literal) eq_refl)
    as (x & Hx & Hget).
  assert (Hx1 : x = PyInt 1) by (vm_compute in Hx; by injection Hx as <-).
  rewrite Hx1 in Hx, Hget.
  assert (Hk2 : k = 2%nat).
  { apply (Hfirst 1%nat).
    - vm_compute. lia.
    - intros i Hi. exists []. destruct i as [|i]; [reflexivity|lia].
    - intros c. discriminate. }
  rewrite Hk2 in Hsent.
  split_and!; [exact Hkeys|exact Hx|exact Hget|exact Hsent].
Defined.

(** * Further properties of the program *)

(** ** The mapping that the decode builds *)

Lemma dict_set_keys k v d :
  dict_keys (dict_set k v d) =
  if decide (k ∈ dict_keys d) then dict_keys d else dict_keys d ++ [k].
Proof.
  induction d as [|[k' v'] d IH].
  - destruct (decide (k ∈ dict_keys [])) as [H|_]; [|reflexivity].
    by apply elem_of_nil in H.
  - cbn [dict_set]. destruct (String.eqb_spec k' k) as [->|Hne].
    + destruct (decide (k ∈ dict_keys ((k, v') :: d))) as [_|H]; [reflexivity|].
      exfalso. apply H. left.
    + change (dict_keys ((k', v') :: dict_set k v d))
        with (k' :: dict_keys (dict_set k v d)).
      rewrite IH.
      change (dict_keys ((k', v') :: d)) with (k' :: dict_keys d).
      destruct (decide (k ∈ dict_keys d)) as [Hin|Hnin];
        destruct (decide (k ∈ k' :: dict_keys d)) as [Hin'|Hnin']; try reflexivity.
      * exfalso. apply Hnin'. by right.
      * exfalso. apply elem_of_cons in Hin' as [Heq|Hin']; [congruence|done].
Qed.

Lemma dict_set_NoDup k v d : NoDup (dict_keys d) -> NoDup (dict_keys (dict_set k v d)).
Proof.
  intros Hd. rewrite dict_set_keys. destruct (decide (k ∈ dict_keys d)); [done|].
  apply NoDup_app. split_and!; [done| |apply NoDup_singleton].
  intros x Hx ->%list_elem_of_singleton. done.
Qed.

Lemma dict_set_length k v d : (length (dict_set k v d) <= S (length d))%nat.
Proof.
  induction d as [|[k' v'] d IH]; simpl; [lia|].
  destruct (String.eqb k' k); simpl; lia.
Qed.

(** The mapping is a dict: no name occurs twice among its keys, and it has
    at most one entry per field of the table. *)
Lemma unpack_fields_keys fields f data data' :
  unpack_fields fields f data = Returned data' ->
  NoDup (dict_keys data) ->
  NoDup (dict_keys data') /\ (length data' <= length data + length fields)%nat.
Proof.
  revert f data. induction fields as [|[[rs t] s] fields IH]; intros f data; simpl.
  - intros H Hd. injection H as <-. split; [done|lia].
  - destruct (unpack t (take s f)) as [v|e] eqn:Hu; [|discriminate].
    intros H Hd. apply IH in H as [Hnd Hlen]; [|by apply dict_set_NoDup].
    split; [done|]. pose proof (dict_set_length rs v data). lia.
Qed.

Lemma parsed_data iteration bs p w date data w1 :
  parse_beacon iteration bs p w = (Returned (date, data), w1) ->
  NoDup (dict_keys data) /\ (length data <= length iteration)%nat /\
  Forall (fun kv => exists t s, (fst kv, t, s) ∈ iteration) data.
Proof.
  intros Hp. apply parse_beacon_returned in Hp as (d & f & Hd & Hf & -> & Hu & ->).
  destruct (unpack_fields_keys _ _ _ _ Hu) as [Hnd Hlen]; [constructor|].
  split_and!; [done|simpl in Hlen; lia|].
  apply (unpack_fields_entries (fun rs v => exists t s, (rs, t, s) ∈ iteration)
           iteration f [] data); [|constructor|done].
  intros rs t s buf v Hin _. by exists t, s.
Qed.

(** ** The requests of one call of upload_beacon *)

Lemma record_request_source target token date items :
  map source (map (record_request target token date) items) = dict_keys items.
Proof. unfold dict_keys. rewrite map_map. reflexivity. Qed.

Lemma upload_beacon_requests iteration bs target token p w r w' :
  upload_beacon iteration bs target token p w = (r, w') ->
  exists reqs,
    sent w' = sent w ++ reqs /\
    Forall (record_post iteration target token) reqs /\
    NoDup (map source reqs) /\
    (length reqs <= length iteration)%nat.
Proof.
  intros H. apply upload_beacon_outcome in H as (_ & _ & [Hfail|Hok]).
  - destruct Hfail as (e & _ & _ & Hsent & _). exists [].
    rewrite app_nil_r. split_and!; [done|constructor|constructor|simpl; lia].
  - destruct Hok as (date & data & w1 & k & f & Hp & Hf & Hk & Hsent & _).
    apply parsed_data in Hp as (Hnd & Hlen & Hin).
    exists (map (record_request target token date) (take k data)).
    split_and!; [done| | |].
    + apply Forall_fmap, Forall_take. eapply Forall_impl; [exact Hin|].
      intros [rs v] (t & s & Hts). unfold record_post. simpl.
      split_and!; [done|done|by exists t, s].
    + rewrite record_request_source. unfold dict_keys.
      change (map fst (take k data)) with (fst <$> take k data).
      rewrite fmap_take. eapply sublist_NoDup; [exact Hnd|apply sublist_take].
    + rewrite length_map, length_take. lia.
Qed.

(** ** main: the check and the loop *)

Lemma check_database_effects iteration target token w r w' :
  check_database iteration target token w = (r, w') ->
  fs w' = fs w /\ sent w' = sent w /\ opened w' = opened w /\
  moc_replies w' = moc_replies w /\
  fetched w' = fetched w ++ [(target +:+ "/api/objects/record_sources/", token)].
Proof.
  unfold check_database, bind, log, requests_get. simpl.
  destruct (moc_record_sources w) as [[|] [suffixes|]|]; simpl;
    try (intros H; injection H as <- <-; done).
  destruct (bool_decide _); simpl; intros H; injection H as <- <-; done.
Qed.

Lemma check_database_by_reply iteration target token w :
  fst (check_database iteration target token w) =
  match moc_record_sources w with
  | GetConnectionFailed => Raised ConnectionError
  | GetResponded false _ => Raised HTTPError
  | GetResponded true Malformed => Raised MalformedBody
  | GetResponded true (Results suffixes) =>
      if decide (list_to_set suffixes
                 =@{gset string} list_to_set (map field_name iteration))
      then Returned tt else Raised Exception
  end.
Proof.
  destruct (moc_record_sources w) as [[|] [suffixes|]|] eqn:Hr;
    try (unfold check_database, bind, log, requests_get; simpl; rewrite Hr; reflexivity).
  rewrite (check_database_results _ _ _ _ _ Hr). by destruct (decide _).
Qed.

(** X1.  check_database makes one GET, to the record_sources endpoint of the
    target with the token as Authorization, and touches neither the files
    nor the records endpoint.  It returns exactly when the reply has a
    success status and a body whose names are, as a set, the names of the
    table.  An error status is raised as HTTPError before the body is
    looked at, a transport failure as ConnectionError, a body that cannot
    be read as the list of suffixes as such, and a different set of names as
    the bare Exception. *)
Theorem X1_check_database_outcome iteration target token w :
  fs (snd (check_database iteration target token w)) = fs w /\
  sent (snd (check_database iteration target token w)) = sent w /\
  opened (snd (check_database iteration target token w)) = opened w /\
  fetched (snd (check_database iteration target token w))
    = fetched w ++ [(target +:+ "/api/objects/record_sources/", token)] /\
  (fst (check_database iteration target token w) = Returned tt <->
   exists suffixes,
     moc_record_sources w = GetResponded true (Results suffixes) /\
     list_to_set suffixes =@{gset string} list_to_set (map field_name iteration)) /\
  (forall body, moc_record_sources w = GetResponded false body ->
     fst (check_database iteration target token w) = Raised HTTPError) /\
  (moc_record_sources w = GetConnectionFailed ->
     fst (check_database iteration target token w) = Raised ConnectionError) /\
  (moc_record_sources w = GetResponded true Malformed ->
     fst (check_database iteration target token w) = Raised MalformedBody) /\
  (forall suffixes,
     moc_record_sources w = GetResponded true (Results suffixes) ->
     list_to_set suffixes ≠@{gset string} list_to_set (map field_name iteration) ->
     fst (check_database iteration target token w) = Raised Exception).
Proof.
  destruct (check_database iteration target token w) as [r w'] eqn:Hc.
  destruct (check_database_effects _ _ _ _ _ _ Hc) as (Hfs & Hsent & Hop & _ & Hfe).
  pose proof (check_database_by_reply iteration target token w) as Hr.
  rewrite Hc in Hr. simpl in *.
  split_and!; try done.
  - rewrite Hr. split.
    + destruct (moc_record_sources w) as [[|] [suffixes|]|]; try discriminate.
      destruct (decide _) as [Heq|]; [|discriminate]. intros _. by exists suffixes.
    + intros (suffixes & -> & Heq). by rewrite decide_True.
  - intros body Hb. by rewrite Hr, Hb.
  - intros Hb. by rewrite Hr, Hb.
  - intros Hb. by rewrite Hr, Hb.
  - intros suffixes Hb Hne. rewrite Hr, Hb. by rewrite decide_False.
Qed.

Lemma X1_check_database_outcome_witness :
  fst (check_database BEACON_FORMAT_literal "http://moc" "Token secret" http_error_world)
    = Raised HTTPError /\
  fst (check_database BEACON_FORMAT_literal "http://moc" "Token secret" accepting_world)
    = Returned tt.
Proof.
  split.
  - destruct (X1_check_database_outcome BEACON_FORMAT_literal "http://moc" "Token secret"
                http_error_world) as (_ & _ & _ & _ & _ & Hhttp & _).
    apply (Hhttp (Results all_names)). reflexivity.
  - destruct (X1_check_database_outcome BEACON_FORMAT_literal "http://moc" "Token secret"
                accepting_world) as (_ & _ & _ & _ & Hiff & _).
    apply Hiff. exists all_names. split; reflexivity.
Defined.

(** The requests that main adds, whatever happens: each goes to the records
    endpoint with the prefixed token, for a field of the table. *)
Lemma main_requests iteration bs args entries w r w' :
  main iteration bs args entries w = (r, w') ->
  fetched w' = fetched w ++ [(arg_target args +:+ "/api/objects/record_sources/",
                              "Token " +:+ arg_token args)] /\
  exists reqs,
    sent w' = sent w ++ reqs /\
    Forall (record_post iteration (arg_target args) ("Token " +:+ arg_token args)) reqs /\
    (fst (check_database iteration (arg_target args) ("Token " +:+ arg_token args) w)
       <> Returned tt -> reqs = []).
Proof.
  unfold main. unfold bind at 1.
  destruct (check_database iteration (arg_target args) ("Token " +:+ arg_token args) w)
    as [[[]|e] w1] eqn:Hc;
    destruct (check_database_effects _ _ _ _ _ _ Hc) as (Hfs & Hsent & Hop & Hrep & Hfe).
  2:{ intros H. injection H as <- <-. split; [done|]. exists [].
      rewrite app_nil_r. split_and!; [done|constructor|done]. }
  intros H. simpl.
  apply (for_each_invariant
           (fun w2 => fetched w2 = fetched w1 /\
                      exists reqs, sent w2 = sent w ++ reqs /\
                        Forall (record_post iteration (arg_target args)
                                            ("Token " +:+ arg_token args)) reqs)) in H.
  - destruct H as (Hfe2 & reqs & Hs & Hall). split; [by rewrite Hfe2|].
    exists reqs. split_and!; [done|done|]. intros Hne. by destruct Hne.
  - split; [done|]. exists []. rewrite app_nil_r. split; [done|constructor].
  - intros p w2 r2 w3 _ (Hfe2 & reqs & Hs & Hall) Hb.
    pose proof (upload_beacon_outcome _ _ _ _ _ _ _ _ Hb) as (_ & Hfe3 & _).
    apply upload_beacon_requests in Hb as (reqs' & Hs' & Hall' & _).
    split; [by rewrite Hfe3|].
    exists (reqs ++ reqs'). split; [|by apply Forall_app].
    by rewrite Hs', Hs, <- app_assoc.
Qed.

(** X2.  Whatever the directory holds and the server replies, every POST
    that main makes goes to target + '/api/objects/records/' with
    'Token ' + token as its Authorization and names a field of the table as
    its source, and main makes exactly one GET, with the same
    Authorization. *)
Theorem X2_every_request_of_main_is_authorized iteration bs args entries w :
  fetched (snd (main iteration bs args entries w))
    = fetched w ++ [(arg_target args +:+ "/api/objects/record_sources/",
                     "Token " +:+ arg_token args)] /\
  exists reqs,
    sent (snd (main iteration bs args entries w)) = sent w ++ reqs /\
    Forall (fun q => url q = arg_target args +:+ "/api/objects/records/" /\
                     authorization q = "Token " +:+ arg_token args /\
                     exists t s, (source q, t, s) ∈ iteration) reqs.
Proof.
  destruct (main iteration bs args entries w) as [r w'] eqn:Hm.
  apply main_requests in Hm as (Hfe & reqs & Hs & Hall & _).
  split; [done|]. by exists reqs.
Qed.

(** X3.  When the start-up check has passed, every source that main posts is
    a name the remote has reported; when it has not passed, main posts
    nothing. *)
Theorem X3_posted_sources_are_known_to_the_remote iteration bs args entries w :
  exists reqs,
    sent (snd (main iteration bs args entries w)) = sent w ++ reqs /\
    (forall suffixes,
        moc_record_sources w = GetResponded true (Results suffixes) ->
        Forall (fun q => source q ∈ suffixes) reqs) /\
    (fst (check_database iteration (arg_target args) ("Token " +:+ arg_token args) w)
       <> Returned tt -> reqs = []).
Proof.
  destruct (main iteration bs args entries w) as [r w'] eqn:Hm.
  apply main_requests in Hm as (Hfe & reqs & Hs & Hall & Hnone).
  exists reqs. split_and!; [done| |done].
  intros suffixes Hget.
  pose proof (check_database_by_reply iteration (arg_target args)
                ("Token " +:+ arg_token args) w) as Hr.
  rewrite Hget in Hr.
  destruct (decide (list_to_set suffixes
                    =@{gset string} list_to_set (map field_name iteration)))
    as [Heq|Hne].
  - eapply Forall_impl; [exact Hall|].
    intros q (_ & _ & t & s & Hin).
    apply (elem_of_list_to_set (C := gset string)). rewrite Heq.
    apply elem_of_list_to_set. apply list_elem_of_fmap.
    by exists (source q, t, s).
  - rewrite Hnone; [constructor|]. rewrite Hr. discriminate.
Qed.

Lemma X3_posted_sources_are_known_to_the_remote_witness :
  exists reqs,
    sent (snd (sample_main ["beacon_2021-10-19_14:30:00"] accepting_world)) = [] ++ reqs /\
    Forall (fun q => source q ∈ all_names) reqs.
Proof.
  destruct (X3_posted_sources_are_known_to_the_remote BEACON_FORMAT_literal 4096
              sample_args ["beacon_2021-10-19_14:30:00"] accepting_world)
    as (reqs & Hs & Hknown & _).
  exists reqs. split; [exact Hs|]. apply Hknown. reflexivity.
Defined.

(** ** The files that upload_beacon touches *)

(** X4.  upload_beacon touches three paths at most: the beacon, its
    processed name and error.html; every other file is as before.  The
    bytes of the beacon are never lost: after the call they are under the
    old name or, the old name gone, under the processed name. *)
Theorem X4_upload_beacon_touches_three_paths iteration bs target token p w :
  (forall q, q <> p -> q <> processed p -> q <> error_html ->
     fs (snd (upload_beacon iteration bs target token p w)) !! q = fs w !! q) /\
  (forall f, fs w !! p = Some f ->
     fs (snd (upload_beacon iteration bs target token p w)) !! p = Some f \/
     (fs (snd (upload_beacon iteration bs target token p w)) !! p = None /\
      fs (snd (upload_beacon iteration bs target token p w)) !! processed p = Some f)).
Proof.
  destruct (upload_beacon iteration bs target token p w) as [r w'] eqn:H.
  by apply upload_beacon_files in H.
Qed.

Lemma X4_upload_beacon_touches_three_paths_witness :
  fs (snd (sample_upload BEACON_FORMAT_literal two_files_world))
    !! ("/beacons", "beacon_bad-name") = Some beacon_sync1.
Proof.
  destruct (X4_upload_beacon_touches_three_paths BEACON_FORMAT_literal 4096
              "http://moc" "Token secret" sample_path two_files_world) as [Hframe _].
  unfold sample_upload. rewrite Hframe.
  - vm_compute. reflexivity.
  - vm_compute. discriminate.
  - vm_compute. discriminate.
  - vm_compute. discriminate.
Defined.

(** ** One request per field *)

(** X5.  For one beacon no source is posted twice, and there are at most as
    many requests as the table has entries (24).  A beacon that the call
    has renamed has had all its fields posted: the sources of the requests
    are then the 24 names, each once. *)
Theorem X5_one_request_per_field iteration bs target token p w :
  exists reqs,
    sent (snd (upload_beacon iteration bs target token p w)) = sent w ++ reqs /\
    NoDup (map source reqs) /\
    (length reqs <= length iteration)%nat /\
    (set_iteration iteration ->
     is_Some (fs w !! p) ->
     fs (snd (upload_beacon iteration bs target token p w)) !! p = None ->
     map source reqs ≡ₚ all_names).
Proof.
  destruct (upload_beacon iteration bs target token p w) as [r w'] eqn:H. simpl.
  pose proof (upload_beacon_outcome _ _ _ _ _ _ _ _ H) as (_ & _ & [Hfail|Hok]).
  - destruct Hfail as (e & _ & _ & Hsent & Hfs). exists [].
    rewrite app_nil_r. split_and!; [done|constructor|simpl; lia|].
    intros _ [f Hf] Hgone. rewrite Hfs, Hf in Hgone. discriminate.
  - destruct Hok as (date & data & w1 & k & f & Hp & Hf & Hk & Hsent & _ & Hcase).
    pose proof (parsed_data _ _ _ _ _ _ _ Hp) as (Hnd & Hlen & _).
    exists (map (record_request target token date) (take k data)).
    split_and!; [done| | |].
    + rewrite record_request_source. unfold dict_keys.
      change (map fst (take k data)) with (fst <$> take k data).
      rewrite fmap_take. eapply sublist_NoDup; [exact Hnd|apply sublist_take].
    + rewrite length_map, length_take. lia.
    + intros Hit _ Hgone.
      pose proof Hp as Hp'.
      apply parse_beacon_returned in Hp' as (d & f' & Hd & _ & _ & _ & _).
      pose proof (parsed_neq_error_html p d Hd) as Hperr.
      destruct Hcase as [(_ & -> & Hfs)|[(_ & body & Hfs)|(_ & Hfs)]].
      * rewrite firstn_all, record_request_source.
        apply (parsed_slices _ _ _ _ _ _ _ Hit) in Hp as (f2 & _ & _ & ->).
        rewrite slices_keys. apply set_iteration_literal in Hit.
        unfold all_names. by rewrite Hit.
      * rewrite Hfs, lookup_insert_ne, Hf in Hgone by done. discriminate.
      * rewrite Hfs, Hf in Hgone. discriminate.
Qed.

Lemma X5_one_request_per_field_witness :
  exists reqs,
    sent (snd (sample_upload BEACON_FORMAT_literal accepting_world)) = [] ++ reqs /\
    map source reqs ≡ₚ all_names.
Proof.
  destruct (X5_one_request_per_field BEACON_FORMAT_literal 4096 "http://moc"
              "Token secret" sample_path accepting_world)
    as (reqs & Hs & _ & _ & Hall).
  exists reqs. split; [exact Hs|]. apply Hall.
  - apply (bool_decide_unpack _). vm_compute. reflexivity.
  - eexists. vm_compute. reflexivity.
  - vm_compute. reflexivity.
Defined.

(** ** A second call for the same beacon *)

Lemma parse_beacon_same_file iteration bs p w w2 date data w1 :
  parse_beacon iteration bs p w = (Returned (date, data), w1) ->
  fs w2 !! p = fs w !! p ->
  exists w3, parse_beacon iteration bs p w2 = (Returned (date, data), w3).
Proof.
  intros Hp Hsame.
  apply parse_beacon_returned in Hp as (d & f & Hd & Hf & -> & Hu & ->).
  rewrite <- Hsame in Hf.
  rewrite (parse_beacon_opened _ _ _ _ _ _ Hd Hf), Hu. by eexists.
Qed.

(** X6.  There is no resume.  When request [n] of a beacon was rejected and
    the beacon is uploaded again with a server that now accepts, the second
    call posts every field from the first one on, so that the fields posted
    before the rejection are posted a second time, and then renames the
    file. *)
Theorem X6_retry_posts_everything_again
        iteration bs target token p w date data w1 n body f :
  parse_beacon iteration bs p w = (Returned (date, data), w1) ->
  fs w !! p = Some f ->
  (n < length data)%nat ->
  replies_ok w (length (sent w)) n ->
  moc_replies w (length (sent w) + n) = Responded false body ->
  replies_ok w (length (sent w) + S n) (length data) ->
  exists w2 w3,
    upload_beacon iteration bs target token p w = (Returned tt, w2) /\
    upload_beacon iteration bs target token p w2 = (Returned tt, w3) /\
    sent w3 = sent w ++ map (record_request target token date) (take (S n) data)
                     ++ map (record_request target token date) data /\
    fs w3 !! p = None /\
    fs w3 !! processed p = Some f.
Proof.
  intros Hp Hf Hn Hok Hrej Hok2.
  destruct (upload_beacon_rejected _ _ target token _ _ _ _ _ _ _ Hp Hn Hok Hrej)
    as (w2 & Hr & Hsent & Hfs & Hlog).
  pose proof Hp as Hp'.
  apply parse_beacon_returned in Hp' as (d & f' & Hd & _ & _ & _ & _).
  pose proof (parsed_neq_error_html p d Hd) as Hperr.
  assert (Hsame : fs w2 !! p = fs w !! p) by (by rewrite Hfs, lookup_insert_ne).
  destruct (parse_beacon_same_file _ _ _ _ w2 _ _ _ Hp Hsame) as [w1' Hp2].
  assert (Hrep : moc_replies w2 = moc_replies w).
  { by destruct (upload_beacon_outcome _ _ _ _ _ _ _ _ Hr) as (Hrep & _). }
  assert (Hf2 : fs w2 !! p = Some f) by (by rewrite Hsame).
  destruct (upload_beacon_accepted _ _ target token _ _ _ _ _ _ Hp2 Hf2)
    as (w3 & Hr3 & Hsent3 & Hfs3 & _).
  { intros i Hi. rewrite Hrep, Hsent, length_app, length_map, length_take.
    replace (S n `min` length data)%nat with (S n) by lia.
    by apply Hok2. }
  exists w2, w3. split_and!; [done|done| | |].
  - by rewrite Hsent3, Hsent, <- app_assoc.
  - rewrite Hfs3, lookup_insert_ne by apply processed_neq. apply lookup_delete_eq.
  - rewrite Hfs3. apply lookup_insert_eq.
Qed.

Lemma X6_retry_posts_everything_again_witness :
  exists w2 w3,
    sample_upload BEACON_FORMAT_literal rejecting_world = (Returned tt, w2) /\
    sample_upload BEACON_FORMAT_literal w2 = (Returned tt, w3) /\
    length (sent w3) = 26%nat.
Proof.
  destruct (X6_retry_posts_everything_again BEACON_FORMAT_literal 4096 "http://moc"
              "Token secret" sample_path rejecting_world _ _ _ 1%nat sample_body
              beacon_sync1 eq_refl eq_refl)
    as (w2 & w3 & Hr & Hr3 & Hsent & _).
  - vm_compute. lia.
  - intros i Hi. exists []. destruct i as [|i]; [reflexivity|lia].
  - reflexivity.
  - intros i Hi. exists []. reflexivity.
  - exists w2, w3. split_and!; [exact Hr|exact Hr3|].
    rewrite Hsent. vm_compute. reflexivity.
Defined.

(** X7.  Once a beacon has been uploaded and renamed, a second call for the
    same path finds no file: upload_beacon raises FileNotFoundError,
    without a request and without touching the files or the log; on_created
    raises the same, having written only its record of the detection. *)
Theorem X7_second_call_after_success_finds_no_file
        iteration bs target token p w date data w1 :
  parse_beacon iteration bs p w = (Returned (date, data), w1) ->
  replies_ok w (length (sent w)) (length data) ->
  exists w2,
    upload_beacon iteration bs target token p w = (Returned tt, w2) /\
    upload_beacon iteration bs target token p w2 = (Raised FileNotFoundError, w2) /\
    (startswith (name p) BEACON_FILE_PREFIX = true ->
     on_created iteration bs target token p w2 =
       (Raised FileNotFoundError, set_logged (logged w2 ++ [INFO_detected p]) w2)).
Proof.
  intros Hp Hok.
  pose proof Hp as Hp'.
  apply parse_beacon_returned in Hp' as (d & f & Hd & Hf & _ & _ & _).
  destruct (upload_beacon_accepted _ _ target token _ _ _ _ _ _ Hp Hf Hok)
    as (w2 & Hr & Hsent & Hfs & Hlog).
  assert (Hgone : forall w3, fs w3 = fs w2 -> fs w3 !! p = None).
  { intros w3 ->. rewrite Hfs, lookup_insert_ne by apply processed_neq.
    apply lookup_delete_eq. }
  exists w2. split_and!; [done| |].
  - apply upload_beacon_parse_raised.
    by apply (parse_beacon_missing _ _ _ _ d); [|apply Hgone].
  - intros Hpre. rewrite on_created_selected by done.
    apply upload_beacon_parse_raised.
    by apply (parse_beacon_missing _ _ _ _ d); [|apply Hgone].
Qed.

Lemma X7_second_call_after_success_finds_no_file_witness :
  exists w2,
    sample_upload BEACON_FORMAT_literal accepting_world = (Returned tt, w2) /\
    sample_upload BEACON_FORMAT_literal w2 = (Raised FileNotFoundError, w2).
Proof.
  destruct (X7_second_call_after_success_finds_no_file BEACON_FORMAT_literal 4096
              "http://moc" "Token secret" sample_path accepting_world _ _ _ eq_refl)
    as (w2 & Hr & Hr2 & _).
  - intros i Hi. exists []. reflexivity.
  - exists w2. split; [exact Hr|exact Hr2].
Defined.

(** ** The time stamp of the records *)

Lemma isoformat_utc y mo d h mi s :
  isoformat (replace_tzinfo UTC (mk_datetime y mo d h mi s None)) = iso_utc y mo d h mi s.
Proof. reflexivity. Qed.

(** X8.  For a beacon whose name has the strict pattern, every request of
    its upload carries as created_at the date and time of the name in ISO
    form with the UTC offset: YYYY-MM-DDTHH:MM:SS+00:00. *)
Theorem X8_created_at_is_the_time_of_the_name
        iteration bs target token p w y mo d h mi s :
  in_range y mo d h mi s ->
  name p = strict_name y mo d h mi s ->
  exists reqs,
    sent (snd (upload_beacon iteration bs target token p w)) = sent w ++ reqs /\
    Forall (fun q => created_at q = iso_utc y mo d h mi s) reqs.
Proof.
  intros Hr Hn.
  destruct (upload_beacon iteration bs target token p w) as [r w'] eqn:H. simpl.
  apply upload_beacon_outcome in H as (_ & _ & [Hfail|Hok]).
  - destruct Hfail as (e & _ & _ & Hsent & _). exists [].
    rewrite app_nil_r. split; [done|constructor].
  - destruct Hok as (date & data & w1 & k & f & Hp & _ & _ & Hsent & _).
    apply parse_beacon_returned in Hp as (d0 & f' & Hd & _ & -> & _ & _).
    rewrite Hn, (strptime_strict_name _ _ _ _ _ _ Hr) in Hd.
    destruct (valid_date y mo d && valid_time h mi s); [|discriminate].
    injection Hd as <-.
    exists (map (record_request target token
                   (replace_tzinfo UTC (mk_datetime y mo d h mi s None))) (take k data)).
    split; [done|]. apply Forall_fmap, Forall_forall. intros kv _.
    apply isoformat_utc.
Qed.

Lemma X8_created_at_is_the_time_of_the_name_witness :
  exists reqs,
    sent (snd (sample_upload BEACON_FORMAT_literal accepting_world)) = [] ++ reqs /\
    Forall (fun q => created_at q = "2021-10-19T14:30:00+00:00") reqs.
Proof.
  destruct (X8_created_at_is_the_time_of_the_name BEACON_FORMAT_literal 4096 "http://moc"
              "Token secret" sample_path accepting_world 2021 10 19 14 30 0)
    as (reqs & Hs & Hall).
  - unfold in_range. lia.
  - reflexivity.
  - exists reqs. split; [exact Hs|exact Hall].
Defined.

(** ** The decode against the encoding in the same order *)

Lemma dict_get_mapping_of vals fields fld :
  fld ∈ fields ->
  dict_get (field_name fld) (mapping_of vals fields) = Some [vals (field_name fld)].
Proof.
  induction fields as [|fld' fields IH]; intros Hin.
  - by apply elem_of_nil in Hin.
  - simpl. destruct (String.eqb_spec (field_name fld') (field_name fld)) as [->|Hne].
    + reflexivity.
    + apply elem_of_cons in Hin as [->|Hin]; [done|by apply IH].
Qed.

Lemma encode_fields_length vals fields :
  Forall wellsized fields -> length (encode_fields vals fields) = total_size fields.
Proof.
  induction 1 as [|fld l Hw _ IH]; [done|].
  unfold encode_fields, total_size in *. simpl.
  rewrite length_app, IH. unfold pack. rewrite length_le_bytes.
  unfold wellsized in Hw. by rewrite Hw.
Qed.

(** X9.  Whatever the order in which the interpreter iterates over the
    table, a file that holds the packed values in that same order is decoded
    to exactly those values, each under its name, and without a size error
    in the log.  The values are those that pack takes without loss: an
    integer within the unsigned range of its format and, for '<f', a number
    of binary32 that is not a NaN, given by its 32 bits.  (A Python float
    that is not a number of binary32 is rounded by pack and does not come
    back; a NaN is not equal to itself.) *)
Theorem X9_round_trip_in_iteration_order iteration bs p w d vals :
  set_iteration iteration ->
  (74 <= bs)%nat ->
  strptime (name p) = Returned d ->
  fs w !! p = Some (encode_fields vals iteration) ->
  Forall (fun fld => fits (field_fmt fld) (vals (field_name fld))) BEACON_FORMAT_literal ->
  Forall (fun fld => is_nan32 (vals (field_name fld)) = false) BEACON_FORMAT_literal ->
  exists w1,
    parse_beacon iteration bs p w
      = (Returned (replace_tzinfo UTC d, mapping_of vals iteration), w1) /\
    logged w1 = logged w /\
    (forall fld, fld ∈ BEACON_FORMAT_literal ->
       dict_get (field_name fld) (mapping_of vals iteration)
       = Some [vals (field_name fld)]).
Proof.
  intros Hit Hbs Hd Hf Hfit _.
  pose proof Hit as Hperm. apply set_iteration_literal in Hperm.
  rewrite <- Hperm in Hfit.
  pose proof (unpack_fields_encode vals iteration [] []
                (set_iteration_wellsized _ Hit) Hfit) as Hu.
  rewrite app_nil_r in Hu.
  rewrite dict_update_fresh in Hu.
  2:{ simpl. rewrite mapping_of_keys. by apply set_iteration_names_NoDup. }
  assert (Hlen : length (encode_fields vals iteration) = 74%nat).
  { rewrite <- (set_iteration_total_size _ Hit).
    by apply encode_fields_length, set_iteration_wellsized. }
  eexists. split_and!.
  - rewrite (parse_beacon_opened _ _ _ _ _ _ Hd Hf), Hu. reflexivity.
  - unfold opened_and_checked. rewrite length_take, Hlen.
    replace (bs `min` 74)%nat with 74%nat by lia. reflexivity.
  - intros fld Hin. apply dict_get_mapping_of. by rewrite Hperm.
Qed.

Lemma X9_round_trip_in_iteration_order_witness :
  exists w1,
    parse_beacon host_id_first 4096 sample_path
      (sample_world (encode_fields sample_vals host_id_first) accept_all)
    = (Returned (mk_datetime 2021 10 19 14 30 0 (Some UTC),
                 mapping_of sample_vals host_id_first), w1) /\
    dict_get "sync" (mapping_of sample_vals host_id_first) = Some [PyInt 1].
Proof.
  destruct (X9_round_trip_in_iteration_order host_id_first 4096 sample_path
              (sample_world (encode_fields sample_vals host_id_first) accept_all)
              (mk_datetime 2021 10 19 14 30 0 None) sample_vals)
    as (w1 & Hp & _ & Hget).
  - apply (bool_decide_unpack _). vm_compute. reflexivity.
  - lia.
  - vm_compute. reflexivity.
  - vm_compute. reflexivity.
  - apply sample_vals_fit.
  - apply Forall_forall. intros fld Hin.
    unfold sample_vals, fmt_of_name.
    repeat (apply elem_of_cons in Hin as [->|Hin]; [vm_compute; reflexivity|]).
    by apply elem_of_nil in Hin.
  - exists w1. split; [exact Hp|].
    apply (Hget ("sync", LE_H, 2%nat)). left.
Defined.


(** ** The range of the decoded values *)

Lemma byte_val_range b : 0 <= byte_val b < 256.
Proof.
  unfold byte_val. pose proof (Byte.to_N_bounded b) as H.
  split; [lia|]. apply N2Z.inj_le in H. simpl in H. lia.
Qed.

Lemma le_uint_range bs : 0 <= le_uint bs < 256 ^ Z.of_nat (length bs).
Proof.
  induction bs as [|b bs IH].
  - simpl. lia.
  - cbn [le_uint length]. rewrite Nat2Z.inj_succ, Z.pow_succ_r by lia.
    pose proof (byte_val_range b). lia.
Qed.

Lemma unpack_fits t buf v :
  unpack t buf = Returned v -> exists x, v = [x] /\ fits t x.
Proof.
  unfold unpack. destruct (Nat.eqb_spec (length buf) (calcsize t)) as [Hlen|]; [|discriminate].
  intros H. injection H as <-. eexists. split; [reflexivity|].
  unfold fits. rewrite <- Hlen.
  destruct t; simpl; (split; [reflexivity|apply le_uint_range]).
Qed.

(** X10.  Every value of a decoded beacon is within the range of the format
    of a field of its name: the one element of its tuple is an unsigned
    number below 256 to the power of the format's size (a float being given
    by its 32 bits). *)
Theorem X10_decoded_values_are_in_range iteration bs p w date data w1 :
  parse_beacon iteration bs p w = (Returned (date, data), w1) ->
  Forall (fun kv => exists t s x,
                      (fst kv, t, s) ∈ iteration /\ snd kv = [x] /\
                      x = scalar t (payload x) /\
                      0 <= payload x < 256 ^ Z.of_nat (calcsize t)) data.
Proof.
  intros Hp. apply parse_beacon_returned in Hp as (d & f & Hd & Hf & -> & Hu & ->).
  apply (unpack_fields_entries
           (fun rs v => exists t s x, (rs, t, s) ∈ iteration /\ v = [x] /\
                          x = scalar t (payload x) /\
                          0 <= payload x < 256 ^ Z.of_nat (calcsize t))
           iteration f [] data); [|constructor|done].
  intros rs t s buf v Hin Hv.
  apply unpack_fits in Hv as (x & -> & Hx & Hrange). by exists t, s, x.
Qed.

Lemma X10_decoded_values_are_in_range_witness :
  exists date data w1,
    parse_beacon BEACON_FORMAT_literal 4096 sample_path accepting_world
      = (Returned (date, data), w1) /\
    Forall (fun kv => exists t s x,
                        (fst kv, t, s) ∈ BEACON_FORMAT_literal /\ snd kv = [x] /\
                        x = scalar t (payload x) /\
                        0 <= payload x < 256 ^ Z.of_nat (calcsize t)) data.
Proof.
  eexists _, _, _. split; [vm_compute; reflexivity|].
  apply (X10_decoded_values_are_in_range BEACON_FORMAT_literal 4096 sample_path
           accepting_world _ _ _ eq_refl).
Defined.

(** ** The files that main touches *)

(** X11.  main opens for reading no file but entries of the listing of the
    watched directory whose names start with 'beacon_', whatever the listing
    holds and whatever happens to the uploads.  The only other file it
    touches is error.html, which upload_beacon opens for writing after a
    rejection: every path that is not error.html, nor such a listed entry,
    nor the processed name of one, has after main the file it had before,
    or none as before. *)
Theorem X11_files_that_main_touches iteration bs args entries w :
  (exists ps,
     opened (snd (main iteration bs args entries w)) = opened w ++ ps /\
     Forall (fun p => parent p = arg_path args /\ name p ∈ entries /\
                      startswith (name p) BEACON_FILE_PREFIX = true) ps)
  /\
  (forall q,
     q <> error_html ->
     (forall n, n ∈ entries -> startswith n BEACON_FILE_PREFIX = true ->
                q <> (arg_path args, n) /\ q <> processed (arg_path args, n)) ->
     fs (snd (main iteration bs args entries w)) !! q = fs w !! q).
Proof.
  destruct (main iteration bs args entries w) as [r w'] eqn:Hm. simpl.
  unfold main in Hm. unfold bind at 1 in Hm.
  destruct (check_database iteration (arg_target args) ("Token " +:+ arg_token args) w)
    as [[[]|e] w1] eqn:Hc;
    destruct (check_database_effects _ _ _ _ _ _ Hc) as (Hfs1 & _ & Hop & _).
  2:{ injection Hm as <- <-. split.
      - exists []. rewrite app_nil_r. split; [done|constructor].
      - intros q _ _. by rewrite Hfs1. }
  split.
  - apply (for_each_invariant
             (fun w2 => exists ps, opened w2 = opened w ++ ps /\
                Forall (fun p => parent p = arg_path args /\ name p ∈ entries /\
                                 startswith (name p) BEACON_FILE_PREFIX = true) ps)) in Hm.
    + done.
    + exists []. rewrite app_nil_r. split; [done|constructor].
    + intros p w2 r2 w3 Hin (ps & Hps & Hall) Hb.
      apply glob_selected in Hin.
      apply upload_beacon_outcome in Hb as (_ & _ & [Hfail|Hok]).
      * destruct Hfail as (e & _ & Hp & _).
        apply parse_beacon_effects in Hp as (_ & _ & _ & _ & [Ho|Ho]).
        -- exists ps. by rewrite Ho.
        -- exists (ps ++ [p]). rewrite Ho, Hps, <- app_assoc. split; [done|].
           apply Forall_app. split; [done|]. by constructor.
      * destruct Hok as (date & data & w1' & k & f & _ & _ & _ & _ & Ho & _).
        exists (ps ++ [p]). rewrite Ho, Hps, <- app_assoc. split; [done|].
        apply Forall_app. split; [done|]. by constructor.
  - intros q Herr Hq.
    rewrite (for_each_upload_frame _ _ _ _ _ _ _ _ q Hm); [by rewrite Hfs1| | |done].
    + intros Hin. apply glob_selected in Hin as (Hdir & Hin & Hpre).
      destruct (Hq _ Hin Hpre) as [Hne _]. apply Hne.
      destruct q as [dir n]. simpl in *. by subst.
    + intros Hin. apply list_elem_of_fmap in Hin as (a & -> & Hin).
      apply glob_selected in Hin as (Hdir & Hin & Hpre).
      destruct (Hq _ Hin Hpre) as [_ Hne]. apply Hne.
      destruct a as [dir n]. simpl in *. by subst.
Qed.

Lemma X11_files_that_main_touches_witness :
  fs (snd (sample_main ["beacon_2021-10-19_14:30:00"] two_files_world))
    !! ("/beacons", "beacon_bad-name") = Some beacon_sync1.
Proof.
  destruct (X11_files_that_main_touches BEACON_FORMAT_literal 4096 sample_args
              ["beacon_2021-10-19_14:30:00"] two_files_world) as [_ Hframe].
  unfold sample_main. rewrite Hframe.
  - vm_compute. reflexivity.
  - discriminate.
  - intros n Hn _. apply list_elem_of_singleton in Hn as ->.
    split; discriminate.
Defined.

(** ** A scan in which every upload succeeds *)

(** X12.  A scan in which nothing goes wrong: when the check passes, the
    server accepts every POST and every listed entry whose name starts with
    'beacon_' is named by the pattern and holds at least 74 bytes, main
    returns after 24 requests for each of these entries, and each of them is
    gone from its name and is, with its bytes, under its processed name. *)
Theorem X12_scan_with_every_upload_succeeding iteration bs args entries w suffixes :
  set_iteration iteration ->
  moc_record_sources w = GetResponded true (Results suffixes) ->
  list_to_set suffixes =@{gset string} list_to_set all_names ->
  accepts_all w ->
  NoDup entries ->
  (forall n, n ∈ entries -> startswith n BEACON_FILE_PREFIX = true ->
             decodable w (arg_path args, n)) ->
  exists w',
    main iteration bs args entries w = (Returned tt, w') /\
    length (sent w') = (length (sent w) + 24 * length (glob (arg_path args) entries))%nat /\
    Forall (fun p => fs w' !! p = None /\ fs w' !! processed p = fs w !! p)
           (glob (arg_path args) entries).
Proof.
  intros Hit Hget Hset Hacc Hnd Hdec.
  pose proof (check_database_results iteration (arg_target args)
                ("Token " +:+ arg_token args) w suffixes Hget) as Hcheck.
  rewrite (set_iteration_names _ Hit) in Hcheck. fold all_names in Hcheck.
  rewrite decide_True in Hcheck by done.
  destruct (upload_all_decodable iteration bs (arg_target args)
              ("Token " +:+ arg_token args) (glob (arg_path args) entries)
              (checked (arg_target args) ("Token " +:+ arg_token args) w))
    as (w' & Hr & Hsent & Hall); [done|done|by apply glob_NoDup| |].
  { apply Forall_forall. intros p Hp.
    apply glob_selected in Hp as (Hdir & Hin & Hpre).
    destruct p as [dir n]. unfold parent, name in *. simpl in *. subst dir.
    by apply Hdec. }
  exists w'. split_and!; [|done|done].
  unfold main, bind. rewrite Hcheck. exact Hr.
Qed.

Lemma X12_scan_with_every_upload_succeeding_witness :
  exists w',
    sample_main ["beacon_2021-10-19_14:30:00"; "notes.txt"] accepting_world
      = (Returned tt, w') /\
    length (sent w') = 24%nat /\
    fs w' !! sample_path = None /\
    fs w' !! processed sample_path = Some beacon_sync1.
Proof.
  destruct (X12_scan_with_every_upload_succeeding BEACON_FORMAT_literal 4096 sample_args
              ["beacon_2021-10-19_14:30:00"; "notes.txt"] accepting_world all_names)
    as (w' & Hr & Hsent & Hall).
  - apply (bool_decide_unpack _). vm_compute. reflexivity.
  - reflexivity.
  - reflexivity.
  - intros k. exists []. reflexivity.
  - apply (bool_decide_unpack _). vm_compute. reflexivity.
  - intros n Hn Hpre.
    apply elem_of_cons in Hn as [->|Hn].
    + exists (mk_datetime 2021 10 19 14 30 0 None), beacon_sync1.
      split_and!; [vm_compute; reflexivity|vm_compute; reflexivity|vm_compute; lia].
    + apply list_elem_of_singleton in Hn as ->. vm_compute in Hpre. discriminate.
  - exists w'. apply Forall_inv in Hall as [Hgone Hthere].
    split_and!; [exact Hr|exact Hsent|exact Hgone|exact Hthere].
Defined.

(** ** A beacon of the right size *)

(** X13.  For a file of exactly 74 bytes with a name that parses, and a
    server that accepts, nothing is logged as an error under any iteration
    order: parse_beacon stores 24 entries, in the order of the iteration and
    each from the bytes at the cursor, the 24 requests go out in that same
    order, and the log gains the two INFO records of upload_beacon only. *)
Theorem X13_right_size_no_error_logged iteration bs target token p w d f :
  set_iteration iteration ->
  (74 <= bs)%nat ->
  strptime (name p) = Returned d ->
  fs w !! p = Some f ->
  length f = 74%nat ->
  replies_ok w (length (sent w)) 24 ->
  exists w1 w2,
    parse_beacon iteration bs p w
      = (Returned (replace_tzinfo UTC d, slices iteration f), w1) /\
    logged w1 = logged w /\
    length (slices iteration f) = 24%nat /\
    dict_keys (slices iteration f) = map field_name iteration /\
    upload_beacon iteration bs target token p w = (Returned tt, w2) /\
    map source (sent w2) = map source (sent w) ++ map field_name iteration /\
    logged w2 = logged w ++ [INFO_uploading; INFO_processed (name p)].
Proof.
  intros Hit Hbs Hd Hf Hlen Hok.
  pose proof (parse_beacon_opened iteration bs p w d f Hd Hf) as Hp.
  rewrite unpack_fields_set_iteration in Hp by (done || lia).
  assert (Hn : length (slices iteration f) = 24%nat).
  { rewrite <- (set_iteration_length _ Hit).
    rewrite <- (length_map field_name iteration), <- (slices_keys iteration f).
    unfold dict_keys. by rewrite length_map. }
  assert (Hlog : logged (opened_and_checked bs p f w) = logged w).
  { unfold opened_and_checked. rewrite length_take, Hlen.
    replace (bs `min` 74)%nat with 74%nat by lia. reflexivity. }
  destruct (upload_beacon_accepted _ _ target token _ _ _ _ _ _ Hp Hf)
    as (w2 & Hr & Hsent & _ & Hlog2); [by rewrite Hn|].
  eexists _, w2. split_and!; [exact Hp|exact Hlog|exact Hn|apply slices_keys|exact Hr| |].
  - rewrite Hsent, map_app, record_request_source. by rewrite slices_keys.
  - by rewrite Hlog2, Hlog.
Qed.

Lemma X13_right_size_no_error_logged_witness :
  exists w2,
    sample_upload host_id_first accepting_world = (Returned tt, w2) /\
    map source (sent w2) = [] ++ map field_name host_id_first /\
    logged w2 = [] ++ [INFO_uploading; INFO_processed "beacon_2021-10-19_14:30:00"].
Proof.
  destruct (X13_right_size_no_error_logged host_id_first 4096 "http://moc" "Token secret"
              sample_path accepting_world (mk_datetime 2021 10 19 14 30 0 None)
              beacon_sync1) as (w1 & w2 & _ & _ & _ & _ & Hr & Hsrc & Hlog).
  - apply (bool_decide_unpack _). vm_compute. reflexivity.
  - lia.
  - vm_compute. reflexivity.
  - reflexivity.
  - vm_compute. reflexivity.
  - intros i _. exists []. reflexivity.
  - exists w2. split_and!; [exact Hr|exact Hsrc|exact Hlog].
Defined.

(** ** The order of the set and the layout of the file *)

(** X14.  The decode agrees with the declared layout of the file for one
    iteration order only.  For every other order in which the interpreter
    may iterate over BEACON_FORMAT there are a 74-byte file and a field
    such that parse_beacon stores for this field another value than the one
    at the field's declared place in the file. *)
Theorem X14_only_the_declared_order_decodes_the_layout iteration bs p w d :
  set_iteration iteration ->
  iteration <> BEACON_FORMAT_literal ->
  strptime (name p) = Returned d ->
  exists f rs,
    length f = 74%nat /\
    fst (parse_beacon iteration bs p (set_fs (<[p := f]> (fs w)) w))
      = Returned (replace_tzinfo UTC d, slices iteration f) /\
    fst (parse_beacon BEACON_FORMAT_literal bs p (set_fs (<[p := f]> (fs w)) w))
      = Returned (replace_tzinfo UTC d, slices BEACON_FORMAT_literal f) /\
    dict_get rs (slices iteration f) <> dict_get rs (slices BEACON_FORMAT_literal f).
Proof.
  intros Hit Hne Hd.
  destruct (any_other_order_misdecodes iteration Hit Hne) as (f & rs & Hlen & Hdiff).
  exists f, rs. split_and!; [done| | |done].
  - rewrite (parse_beacon_opened _ _ _ _ d f Hd) by apply lookup_insert_eq.
    rewrite unpack_fields_set_iteration by (done || lia). reflexivity.
  - rewrite (parse_beacon_opened _ _ _ _ d f Hd) by apply lookup_insert_eq.
    rewrite unpack_fields_set_iteration; [reflexivity| |lia].
    apply set_iteration_literal. reflexivity.
Qed.

Lemma X14_only_the_declared_order_decodes_the_layout_witness :
  exists f rs,
    length f = 74%nat /\
    dict_get rs (slices host_id_first f) <> dict_get rs (slices BEACON_FORMAT_literal f).
Proof.
  destruct (X14_only_the_declared_order_decodes_the_layout host_id_first 4096 sample_path
              accepting_world (mk_datetime 2021 10 19 14 30 0 None))
    as (f & rs & Hlen & _ & _ & Hdiff).
  - apply (bool_decide_unpack _). vm_compute. reflexivity.
  - vm_compute. discriminate.
  - vm_compute. reflexivity.
  - exists f, rs. split; [exact Hlen|exact Hdiff].
Defined.
